(** * h5coro: a shallow embedding of the HDF5 reader in [h5coro/h5coro.py]

    The development follows the Python source function by function.

    - Python integers are unbounded, hence [Z]; a [bytes] object is a
      [list Z] whose elements are 8-bit values.
    - A Python [str] is a Rocq [string] holding its UTF-8 bytes, so that
      equality of two decoded names is equality of their byte sequences
      (names are taken to be valid UTF-8; [UnicodeDecodeError] is not
      modelled).
    - Methods of [H5Dataset] mutate [self]; they are functions in a state
      and exception monad over the record [Dataset].  An exception leaves
      the state as mutated up to the [raise], which is what the
      [try]/[except] of [readMessage] observes.
    - [FatalError] is the exception class of the source; the run-time
      errors the Python interpreter raises itself ([AttributeError],
      [KeyError], [TypeError], [struct.error], ...) are a separate class,
      because [except FatalError] does not catch them.
    - The module globals [errorChecking] and [verbose] and the driver are
      parameters.  Logging has no effect on the state and is left out; the
      reads performed only to log a value are kept, since they move the
      cursor and fill the cache. *)

From Stdlib Require Import ZArith List String Ascii Lia Bool.
From stdpp Require Import base gmap list strings.

Local Open Scope Z_scope.

(** ** Python values *)

(** [bytes]: a sequence of 8-bit values. *)
Abbreviation bytes := (list Z).

(** [b[start:stop]], [b[start:]] and [b[:stop]] with Python's treatment of
    negative and out-of-range indices. *)
Definition slice_index (len i : Z) : Z :=
  if i <? 0 then Z.max (i + len) 0 else Z.min i len.

Definition slice {A} (l : list A) (start stop : Z) : list A :=
  let len := Z.of_nat (length l) in
  let a := slice_index len start in
  let b := slice_index len stop in
  take (Z.to_nat (b - a)) (drop (Z.to_nat a) l).

Definition slice_from {A} (l : list A) (start : Z) : list A :=
  slice l start (Z.of_nat (length l)).

Definition slice_to {A} (l : list A) (stop : Z) : list A :=
  slice l 0 stop.

(** [bytes.decode('utf-8')]: the string keeps the bytes. *)
Definition decode_utf8 (b : bytes) : string :=
  string_of_list_ascii (map (fun x => ascii_of_N (Z.to_N x)) b).

(** [str.split('/')]: every separator cuts, empty components are kept. *)
Fixpoint split_slash (s : string) : list string :=
  match s with
  | EmptyString => [EmptyString]
  | String c rest =>
      if Ascii.eqb c "/"%char then EmptyString :: split_slash rest
      else match split_slash rest with
           | [] => [String c EmptyString]
           | w :: ws => String c w :: ws
           end
  end.

(** ** Globals of the module *)

(** [SIZE_2_FORMAT]: the widths [struct.unpack] is given a format for. *)
Definition SIZE_2_FORMAT (size : Z) : option ascii :=
  if size =? 1 then Some "B"%char
  else if size =? 2 then Some "H"%char
  else if size =? 4 then Some "I"%char
  else if size =? 8 then Some "Q"%char
  else None.

(** [INVALID_VALUE]: the null sentinel per field width. *)
Definition INVALID_VALUE (size : Z) : option Z :=
  if size =? 1 then Some 0xFF
  else if size =? 2 then Some 0xFFFF
  else if size =? 4 then Some 0xFFFFFFFF
  else if size =? 8 then Some 0xFFFFFFFFFFFFFFFF
  else None.

(** ** Exceptions *)

(** Errors raised by the interpreter, not by a [raise] of the source.
    [KeyError] is the lookup of a missing integer key, [KeyError_str] that
    of a missing string key. *)
Inductive py_error : Type :=
  | AttributeError (name : string)
  | KeyError (key : Z)
  | TypeError (callee : string)
  | NameError (name : string)
  | IndexError
  | StructError
  | KeyError_str (key : string)
  | ZeroDivisionError.

(** [FatalError] carries the tag of its message and the values formatted
    into it. *)
Inductive exn : Type :=
  | FatalError (msg : string) (vals : list Z)
  | PyError (e : py_error).

Definition is_fatal (e : exn) : bool :=
  match e with FatalError _ _ => true | PyError _ => false end.

(** ** The resource object: class [H5Coro] *)

Definition CACHE_LINE_SIZE : Z := 0x10.
Definition CACHE_LINE_MASK : Z := 0xFFFFFFFFFFFFFFF0.

(** [driver_log] is the list of [driver.read(offset, size)] calls issued so
    far, most recent first; it only observes the code. *)
Record H5Coro : Type := mkH5Coro {
  cache : gmap Z (list Z);
  driver_log : list (Z * Z);
  offsetSize : Z;
  lengthSize : Z;
  baseAddress : Z;
  rootAddress : Z
}.

Definition set_cache (c : gmap Z (list Z)) (log : list (Z * Z)) (r : H5Coro) : H5Coro :=
  mkH5Coro c log (offsetSize r) (lengthSize r) (baseAddress r) (rootAddress r).

Section Resource.

(** [self.driver.read]: the storage driver, an external collaborator. *)
Variable driver_read : Z -> Z -> bytes.

(** [driver.read] with the call recorded. *)
Definition driver_call (offset size : Z) (r : H5Coro) : bytes * H5Coro :=
  (driver_read offset size,
   set_cache (cache r) ((offset, size) :: driver_log r) r).

(** [if line not in self.cache: self.cache[line] = self.driver.read(line, CACHE_LINE_SIZE)] *)
Definition populate (line : Z) (r : H5Coro) : H5Coro :=
  match cache r !! line with
  | Some _ => r
  | None =>
      let '(data, r1) := driver_call line CACHE_LINE_SIZE r in
      set_cache (<[line := data]> (cache r1)) (driver_log r1) r1
  end.

(** [self.cache[line]], read after [populate] has put the key in. *)
Definition cache_get (line : Z) (r : H5Coro) : bytes :=
  default [] (cache r !! line).

Definition ioRequest (pos size : Z) (r : H5Coro) : bytes * H5Coro :=
  if size <=? CACHE_LINE_SIZE then
    let cache_line := Z.land (pos + baseAddress r) CACHE_LINE_MASK in
    let r1 := populate cache_line r in
    let start_index := (pos + baseAddress r) - cache_line in
    let stop_index := start_index + size in
    if stop_index <=? CACHE_LINE_SIZE then
      (slice (cache_get cache_line r1) start_index stop_index, r1)
    else
      let next_cache_line := Z.land (cache_line + stop_index) CACHE_LINE_MASK in
      let r2 := populate next_cache_line r1 in
      let next_stop_index := stop_index - CACHE_LINE_SIZE in
      (slice_from (cache_get cache_line r2) start_index
         ++ slice_to (cache_get next_cache_line r2) next_stop_index, r2)
  else
    driver_call (pos + baseAddress r) size r.

End Resource.

(** A driver over a fixed file content returns, for every request, exactly
    the bytes of the requested range. *)
Definition range_driver (content : Z -> Z) (offset size : Z) : bytes :=
  content <$> seqZ offset size.

(** Every cached line holds what the driver returns for it. *)
Definition cache_coherent (drv : Z -> Z -> bytes) (r : H5Coro) : Prop :=
  forall line data, cache r !! line = Some data -> data = drv line CACHE_LINE_SIZE.

(** A local-file driver: [seek] then [read], short at the end of file. *)
Definition file_driver (content : bytes) (offset size : Z) : bytes :=
  take (Z.to_nat size) (drop (Z.to_nat offset) content).

(** ** The dataset object: class [H5Dataset] *)

Module H5.
Definition CUSTOM_V1_FLAG : Z := 0x80.
Definition ALL_ROWS : Z := -1.
Definition MAX_NDIMS : Z := 2.
Definition FLAT_NDIMS : Z := 3.
Definition H5_OHDR_SIGNATURE_LE : Z := 0x5244484F.
Definition H5_FRHP_SIGNATURE_LE : Z := 0x50485246.
Definition H5_FHDB_SIGNATURE_LE : Z := 0x42444846.
Definition H5_FHIB_SIGNATURE_LE : Z := 0x42494846.
Definition H5_OCHK_SIGNATURE_LE : Z := 0x4B48434F.
Definition H5_TREE_SIGNATURE_LE : Z := 0x45455254.
Definition H5_HEAP_SIGNATURE_LE : Z := 0x50414548.
Definition H5_SNOD_SIGNATURE_LE : Z := 0x444F4E53.
Definition FIXED_POINT_TYPE : Z := 0.
Definition FLOATING_POINT_TYPE : Z := 1.
Definition TIME_TYPE : Z := 2.
Definition STRING_TYPE : Z := 3.
Definition VARIABLE_LENGTH_TYPE : Z := 9.
Definition COMPACT_LAYOUT : Z := 0.
Definition CONTIGUOUS_LAYOUT : Z := 1.
Definition CHUNKED_LAYOUT : Z := 2.
Definition DATASPACE_MSG : Z := 0x1.
Definition LINK_INFO_MSG : Z := 0x2.
Definition DATATYPE_MSG : Z := 0x3.
Definition FILL_VALUE_MSG : Z := 0x5.
Definition LINK_MSG : Z := 0x6.
Definition DATA_LAYOUT_MSG : Z := 0x8.
Definition FILTER_MSG : Z := 0xB.
Definition ATTRIBUTE_MSG : Z := 0xC.
Definition HEADER_CONT_MSG : Z := 0x10.
Definition SYMBOL_TABLE_MSG : Z := 0x11.
Definition ATTRIBUTE_INFO_MSG : Z := 0x15.
Definition DEFLATE_FILTER : Z := 1.
Definition SHUFFLE_FILTER : Z := 2.
Definition FLETCHER32_FILTER : Z := 3.
Definition SZIP_FILTER : Z := 4.
Definition NBIT_FILTER : Z := 5.
Definition SCALEOFFSET_FILTER : Z := 6.
End H5.
Import H5.

(** The attributes of [self].  [type_], [size_] and [filter_] are the
    attributes [type], [size] and [filter]; [None] is Python's [None].
    [dataChunkBufferSize] starts as an empty list in the source and holds
    an integer from its first assignment on; it is an integer here, 0 at
    the start. *)
Record Dataset : Type := mkDataset {
  resourceObject : H5Coro;
  datasetStartRow : Z;
  datasetNumRows : Z;
  metaOnly : bool;
  pos : Z;
  datasetPath : list string;
  datasetLevel : Z;
  datasetFound : bool;
  ndims : option Z;
  dimensions : list Z;
  typeSize : Z;
  type_ : option Z;
  signedval : bool;
  fillsize : Z;
  fillvalue : option Z;
  layout : option Z;
  size_ : Z;
  address : Z;
  chunkElements : Z;
  chunkDimensions : list Z;
  elementSize : Z;
  dataChunkBufferSize : Z;
  filter_ : gmap Z bool
}.

Definition set_resourceObject (v : H5Coro) (s : Dataset) : Dataset :=
  mkDataset v (datasetStartRow s) (datasetNumRows s) (metaOnly s) (pos s)
    (datasetPath s) (datasetLevel s) (datasetFound s) (ndims s) (dimensions s)
    (typeSize s) (type_ s) (signedval s) (fillsize s) (fillvalue s) (layout s)
    (size_ s) (address s) (chunkElements s) (chunkDimensions s) (elementSize s)
    (dataChunkBufferSize s) (filter_ s).

Definition set_datasetNumRows (v : Z) (s : Dataset) : Dataset :=
  mkDataset (resourceObject s) (datasetStartRow s) v (metaOnly s) (pos s)
    (datasetPath s) (datasetLevel s) (datasetFound s) (ndims s) (dimensions s)
    (typeSize s) (type_ s) (signedval s) (fillsize s) (fillvalue s) (layout s)
    (size_ s) (address s) (chunkElements s) (chunkDimensions s) (elementSize s)
    (dataChunkBufferSize s) (filter_ s).

Definition set_pos (v : Z) (s : Dataset) : Dataset :=
  mkDataset (resourceObject s) (datasetStartRow s) (datasetNumRows s)
    (metaOnly s) v (datasetPath s) (datasetLevel s) (datasetFound s) (ndims s)
    (dimensions s) (typeSize s) (type_ s) (signedval s) (fillsize s) (fillvalue
    s) (layout s) (size_ s) (address s) (chunkElements s) (chunkDimensions s)
    (elementSize s) (dataChunkBufferSize s) (filter_ s).

Definition set_datasetLevel (v : Z) (s : Dataset) : Dataset :=
  mkDataset (resourceObject s) (datasetStartRow s) (datasetNumRows s)
    (metaOnly s) (pos s) (datasetPath s) v (datasetFound s) (ndims s)
    (dimensions s) (typeSize s) (type_ s) (signedval s) (fillsize s) (fillvalue
    s) (layout s) (size_ s) (address s) (chunkElements s) (chunkDimensions s)
    (elementSize s) (dataChunkBufferSize s) (filter_ s).

Definition set_datasetFound (v : bool) (s : Dataset) : Dataset :=
  mkDataset (resourceObject s) (datasetStartRow s) (datasetNumRows s)
    (metaOnly s) (pos s) (datasetPath s) (datasetLevel s) v (ndims s)
    (dimensions s) (typeSize s) (type_ s) (signedval s) (fillsize s) (fillvalue
    s) (layout s) (size_ s) (address s) (chunkElements s) (chunkDimensions s)
    (elementSize s) (dataChunkBufferSize s) (filter_ s).

Definition set_ndims (v : option Z) (s : Dataset) : Dataset :=
  mkDataset (resourceObject s) (datasetStartRow s) (datasetNumRows s)
    (metaOnly s) (pos s) (datasetPath s) (datasetLevel s) (datasetFound s) v
    (dimensions s) (typeSize s) (type_ s) (signedval s) (fillsize s) (fillvalue
    s) (layout s) (size_ s) (address s) (chunkElements s) (chunkDimensions s)
    (elementSize s) (dataChunkBufferSize s) (filter_ s).

Definition set_dimensions (v : list Z) (s : Dataset) : Dataset :=
  mkDataset (resourceObject s) (datasetStartRow s) (datasetNumRows s)
    (metaOnly s) (pos s) (datasetPath s) (datasetLevel s) (datasetFound s)
    (ndims s) v (typeSize s) (type_ s) (signedval s) (fillsize s) (fillvalue s)
    (layout s) (size_ s) (address s) (chunkElements s) (chunkDimensions s)
    (elementSize s) (dataChunkBufferSize s) (filter_ s).

Definition set_typeSize (v : Z) (s : Dataset) : Dataset :=
  mkDataset (resourceObject s) (datasetStartRow s) (datasetNumRows s)
    (metaOnly s) (pos s) (datasetPath s) (datasetLevel s) (datasetFound s)
    (ndims s) (dimensions s) v (type_ s) (signedval s) (fillsize s) (fillvalue
    s) (layout s) (size_ s) (address s) (chunkElements s) (chunkDimensions s)
    (elementSize s) (dataChunkBufferSize s) (filter_ s).

Definition set_type (v : option Z) (s : Dataset) : Dataset :=
  mkDataset (resourceObject s) (datasetStartRow s) (datasetNumRows s)
    (metaOnly s) (pos s) (datasetPath s) (datasetLevel s) (datasetFound s)
    (ndims s) (dimensions s) (typeSize s) v (signedval s) (fillsize s)
    (fillvalue s) (layout s) (size_ s) (address s) (chunkElements s)
    (chunkDimensions s) (elementSize s) (dataChunkBufferSize s) (filter_ s).

Definition set_signedval (v : bool) (s : Dataset) : Dataset :=
  mkDataset (resourceObject s) (datasetStartRow s) (datasetNumRows s)
    (metaOnly s) (pos s) (datasetPath s) (datasetLevel s) (datasetFound s)
    (ndims s) (dimensions s) (typeSize s) (type_ s) v (fillsize s) (fillvalue s)
    (layout s) (size_ s) (address s) (chunkElements s) (chunkDimensions s)
    (elementSize s) (dataChunkBufferSize s) (filter_ s).

Definition set_fillsize (v : Z) (s : Dataset) : Dataset :=
  mkDataset (resourceObject s) (datasetStartRow s) (datasetNumRows s)
    (metaOnly s) (pos s) (datasetPath s) (datasetLevel s) (datasetFound s)
    (ndims s) (dimensions s) (typeSize s) (type_ s) (signedval s) v (fillvalue
    s) (layout s) (size_ s) (address s) (chunkElements s) (chunkDimensions s)
    (elementSize s) (dataChunkBufferSize s) (filter_ s).

Definition set_fillvalue (v : option Z) (s : Dataset) : Dataset :=
  mkDataset (resourceObject s) (datasetStartRow s) (datasetNumRows s)
    (metaOnly s) (pos s) (datasetPath s) (datasetLevel s) (datasetFound s)
    (ndims s) (dimensions s) (typeSize s) (type_ s) (signedval s) (fillsize s) v
    (layout s) (size_ s) (address s) (chunkElements s) (chunkDimensions s)
    (elementSize s) (dataChunkBufferSize s) (filter_ s).

Definition set_layout (v : option Z) (s : Dataset) : Dataset :=
  mkDataset (resourceObject s) (datasetStartRow s) (datasetNumRows s)
    (metaOnly s) (pos s) (datasetPath s) (datasetLevel s) (datasetFound s)
    (ndims s) (dimensions s) (typeSize s) (type_ s) (signedval s) (fillsize s)
    (fillvalue s) v (size_ s) (address s) (chunkElements s) (chunkDimensions s)
    (elementSize s) (dataChunkBufferSize s) (filter_ s).

Definition set_size (v : Z) (s : Dataset) : Dataset :=
  mkDataset (resourceObject s) (datasetStartRow s) (datasetNumRows s)
    (metaOnly s) (pos s) (datasetPath s) (datasetLevel s) (datasetFound s)
    (ndims s) (dimensions s) (typeSize s) (type_ s) (signedval s) (fillsize s)
    (fillvalue s) (layout s) v (address s) (chunkElements s) (chunkDimensions s)
    (elementSize s) (dataChunkBufferSize s) (filter_ s).

Definition set_address (v : Z) (s : Dataset) : Dataset :=
  mkDataset (resourceObject s) (datasetStartRow s) (datasetNumRows s)
    (metaOnly s) (pos s) (datasetPath s) (datasetLevel s) (datasetFound s)
    (ndims s) (dimensions s) (typeSize s) (type_ s) (signedval s) (fillsize s)
    (fillvalue s) (layout s) (size_ s) v (chunkElements s) (chunkDimensions s)
    (elementSize s) (dataChunkBufferSize s) (filter_ s).

Definition set_chunkElements (v : Z) (s : Dataset) : Dataset :=
  mkDataset (resourceObject s) (datasetStartRow s) (datasetNumRows s)
    (metaOnly s) (pos s) (datasetPath s) (datasetLevel s) (datasetFound s)
    (ndims s) (dimensions s) (typeSize s) (type_ s) (signedval s) (fillsize s)
    (fillvalue s) (layout s) (size_ s) (address s) v (chunkDimensions s)
    (elementSize s) (dataChunkBufferSize s) (filter_ s).

Definition set_chunkDimensions (v : list Z) (s : Dataset) : Dataset :=
  mkDataset (resourceObject s) (datasetStartRow s) (datasetNumRows s)
    (metaOnly s) (pos s) (datasetPath s) (datasetLevel s) (datasetFound s)
    (ndims s) (dimensions s) (typeSize s) (type_ s) (signedval s) (fillsize s)
    (fillvalue s) (layout s) (size_ s) (address s) (chunkElements s) v
    (elementSize s) (dataChunkBufferSize s) (filter_ s).

Definition set_elementSize (v : Z) (s : Dataset) : Dataset :=
  mkDataset (resourceObject s) (datasetStartRow s) (datasetNumRows s)
    (metaOnly s) (pos s) (datasetPath s) (datasetLevel s) (datasetFound s)
    (ndims s) (dimensions s) (typeSize s) (type_ s) (signedval s) (fillsize s)
    (fillvalue s) (layout s) (size_ s) (address s) (chunkElements s)
    (chunkDimensions s) v (dataChunkBufferSize s) (filter_ s).

Definition set_dataChunkBufferSize (v : Z) (s : Dataset) : Dataset :=
  mkDataset (resourceObject s) (datasetStartRow s) (datasetNumRows s)
    (metaOnly s) (pos s) (datasetPath s) (datasetLevel s) (datasetFound s)
    (ndims s) (dimensions s) (typeSize s) (type_ s) (signedval s) (fillsize s)
    (fillvalue s) (layout s) (size_ s) (address s) (chunkElements s)
    (chunkDimensions s) (elementSize s) v (filter_ s).

Definition set_filter (v : gmap Z bool) (s : Dataset) : Dataset :=
  mkDataset (resourceObject s) (datasetStartRow s) (datasetNumRows s)
    (metaOnly s) (pos s) (datasetPath s) (datasetLevel s) (datasetFound s)
    (ndims s) (dimensions s) (typeSize s) (type_ s) (signedval s) (fillsize s)
    (fillvalue s) (layout s) (size_ s) (address s) (chunkElements s)
    (chunkDimensions s) (elementSize s) (dataChunkBufferSize s) v.
(** [H5Dataset.__init__] *)
Definition H5Dataset (resource : H5Coro) (dataset : string) : Dataset :=
  {| resourceObject := resource;
     datasetStartRow := 0;
     datasetNumRows := ALL_ROWS;
     metaOnly := false;
     pos := rootAddress resource;
     datasetPath := split_slash dataset;
     datasetLevel := 0;
     datasetFound := false;
     ndims := None;
     dimensions := [];
     typeSize := 0;
     type_ := None;
     signedval := true;
     fillsize := 0;
     fillvalue := None;
     layout := None;
     size_ := 0;
     address := 0;
     chunkElements := 0;
     chunkDimensions := [];
     elementSize := 0;
     dataChunkBufferSize := 0;
     filter_ := list_to_map
       [(DEFLATE_FILTER, false); (SHUFFLE_FILTER, false);
        (FLETCHER32_FILTER, false); (SZIP_FILTER, false);
        (NBIT_FILTER, false); (SCALEOFFSET_FILTER, false)] |}.

(** The storage driver of the resource object, [self.driver.read], and the
    module globals [errorChecking] and [verbose]. *)
Record Config : Type := mkConfig {
  cfg_driver : Z -> Z -> bytes;
  cfg_errorChecking : bool;
  cfg_verbose : bool
}.

(** ** Methods as state transformers that may raise *)

(** [OutOfFuel] is not a Python outcome: it marks a run cut short by the
    bound the model puts on recursion and on [while] loops. *)
Inductive outcome (A : Type) : Type :=
  | Ret (a : A)
  | Raise (e : exn)
  | OutOfFuel.
Arguments Ret {A} a.
Arguments Raise {A} e.
Arguments OutOfFuel {A}.

Definition M (A : Type) : Type := Dataset -> outcome A * Dataset.

#[global] Instance M_ret : MRet M := fun A a s => (Ret a, s).

#[global] Instance M_bind : MBind M := fun A B f c s =>
  match c s with
  | (Ret a, s1) => f a s1
  | (Raise e, s1) => (Raise e, s1)
  | (OutOfFuel, s1) => (OutOfFuel, s1)
  end.

Definition raise {A} (e : exn) : M A := fun s => (Raise e, s).
Definition fatal {A} (msg : string) (vals : list Z) : M A :=
  raise (FatalError msg vals).
Definition out_of_fuel {A} : M A := fun s => (OutOfFuel, s).
Definition gets {A} (f : Dataset -> A) : M A := fun s => (Ret (f s), s).
Definition modify (f : Dataset -> Dataset) : M unit := fun s => (Ret tt, f s).
Definition skip : M unit := mret tt.
Definition when_ (b : bool) (c : M unit) : M unit := if b then c else skip.

Arguments fatal {A} msg%_string vals%_list.

(** [try: c  except FatalError: h] *)
Definition try_except_FatalError {A} (c h : M A) : M A := fun s =>
  match c s with
  | (Raise (FatalError _ _), s1) => h s1
  | r => r
  end.

(** A Python integer used as a condition. *)
Definition truthy (z : Z) : bool := negb (z =? 0).

(** [self.pos += n] for a value [n] *)
Definition advance (n : Z) : M unit := modify (fun s => set_pos (pos s + n) s).

(** [self.pos += c()]: Python loads [self.pos] before it evaluates the
    call, so the result is the cursor before the call plus the value
    returned. *)
Definition advance_by_call (c : M Z) : M unit :=
  old ← gets pos; n ← c; modify (set_pos (old + n)).

(** [starting_position = self.pos; body; return self.pos - starting_position] *)
Definition consumed (body : M unit) : M Z :=
  starting_position ← gets pos;
  body;;
  p ← gets pos;
  mret (p - starting_position).

(** [for x in l: body(x)] *)
Fixpoint for_each {A} (l : list A) (body : A -> M unit) : M unit :=
  match l with
  | [] => skip
  | x :: l' => body x;; for_each l' body
  end.

(** [for x in l: body(x)] where [body] answers [true] on [break]. *)
Fixpoint for_each_break {A} (l : list A) (body : A -> M bool) : M unit :=
  match l with
  | [] => skip
  | x :: l' => stop ← body x; if stop : bool then skip else for_each_break l' body
  end.

(** [range(n)] *)
Definition range (n : Z) : list Z := seqZ 0 n.

Definition offset_size : M Z := gets (fun s => offsetSize (resourceObject s)).
Definition length_size : M Z := gets (fun s => lengthSize (resourceObject s)).

(** [INVALID_VALUE[self.resourceObject.offsetSize]] *)
Definition invalid_offset : M Z :=
  w ← offset_size;
  match INVALID_VALUE w with
  | Some v => mret v
  | None => raise (PyError (KeyError w))
  end.

Section Reader.

Variable cfg : Config.
Local Abbreviation driver_read := (cfg_driver cfg).
Local Abbreviation errorChecking := (cfg_errorChecking cfg).
Local Abbreviation verbose := (cfg_verbose cfg).

(** [self.resourceObject.ioRequest(pos, size)] *)
Definition resource_ioRequest (p size : Z) : M bytes := fun s =>
  let '(raw, r) := ioRequest driver_read p size (resourceObject s) in
  (Ret raw, set_resourceObject r s).

(** [struct.unpack(f'<{SIZE_2_FORMAT[size]}', raw)[0]]: the format lookup
    fails on a width outside the table, the unpacking on a buffer whose
    length is not the width. *)
Definition unpack (size : Z) (raw : bytes) : M Z :=
  match SIZE_2_FORMAT size with
  | None => raise (PyError (KeyError size))
  | Some _ =>
      if Z.of_nat (length raw) =? size then mret (little_endian_to_Z 8 raw)
      else raise (PyError StructError)
  end.

Definition readField (size : Z) : M Z :=
  p ← gets pos;
  raw ← resource_ioRequest p size;
  advance size;;
  unpack size raw.

Definition readArray (size : Z) : M bytes :=
  p ← gets pos;
  raw ← resource_ioRequest p size;
  advance size;;
  mret raw.

(** [(8 - (n % 8)) % 8] *)
Definition pad8 (n : Z) : Z := (8 - n mod 8) mod 8.

(** *** Message handlers that do not recurse *)

Definition dataspaceMsgHandler (msg_size obj_hdr_flags : Z) : M Z :=
  let MAX_DIM_PRESENT := 0x1 in
  let PERM_INDEX_PRESENT := 0x2 in
  consumed (
    version ← readField 1;
    dimensionality ← readField 1;
    flags ← readField 1;
    advance (if version =? 1 then 5 else 1);;
    when_ errorChecking (
      when_ (negb (version =? 1) || negb (version =? 2))
        (fatal "unsupported dataspace version" [version]);;
      when_ (truthy (Z.land flags PERM_INDEX_PRESENT))
        (fatal "unsupported permutation indexes" []);;
      when_ (MAX_NDIMS <? dimensionality)
        (fatal "unsupported number of dimensions" [dimensionality]));;
    modify (set_ndims (Some (Z.min dimensionality MAX_NDIMS)));;
    when_ (0 <? Z.min dimensionality MAX_NDIMS) (
      for_each (range (Z.min dimensionality MAX_NDIMS)) (fun x =>
        w ← length_size;
        dimension ← readField w;
        modify (fun s => set_dimensions (dimensions s ++ [dimension]) s));;
      when_ (truthy (Z.land flags MAX_DIM_PRESENT)) (
        w ← length_size;
        advance (dimensionality * w)))).

Definition datatypeMsgHandler (msg_size obj_hdr_flags : Z) : M Z :=
  consumed (
    version_class ← readField 4;
    ts ← readField 4;
    modify (set_typeSize ts);;
    let version := Z.shiftr (Z.land version_class 0xF0) 4 in
    let databits := Z.shiftr version_class 8 in
    modify (set_type (Some (Z.land version_class 0x0F)));;
    modify (set_signedval (Z.shiftr (Z.land databits 0x08) 3 =? 1));;
    when_ (errorChecking && negb (version =? 1))
      (fatal "unsupported datatype version" [version]);;
    let ty := Z.land version_class 0x0F in
    (if ty =? FIXED_POINT_TYPE then
       if verbose then
         bit_offset ← readField 2;
         bit_precision ← readField 2;
         skip
       else advance 4
     else if ty =? FLOATING_POINT_TYPE then
       if verbose then
         bit_offset ← readField 2;
         bit_precision ← readField 2;
         exp_location ← readField 1;
         exp_size ← readField 1;
         mant_location ← readField 1;
         mant_size ← readField 1;
         exp_bias ← readField 4;
         skip
       else advance 12
     else if ty =? VARIABLE_LENGTH_TYPE then
       fatal "variable length data types require reading a global heap" []
     else if ty =? STRING_TYPE then
       modify (set_typeSize 1);;
       modify (set_signedval true)
     else
       when_ errorChecking (fatal "unsupported datatype" [ty]))).

Definition fillvalueMsgHandler (msg_size obj_hdr_flags : Z) : M Z :=
  let FILL_VALUE_DEFINED := 0x20 in
  consumed (
    version ← readField 1;
    when_ (errorChecking && negb (version =? 2) && negb (version =? 3))
      (fatal "invalid fill value version" [version]);;
    (if version =? 2 then
       (if verbose then
          space_allocation_time ← readField 1;
          fill_value_write_time ← readField 1;
          skip
        else advance 2);;
       fill_value_defined ← readField 1;
       when_ (truthy fill_value_defined) (
         fs ← readField 4;
         modify (set_fillsize fs);;
         when_ (0 <? fs) (
           fv ← readField fs;
           modify (set_fillvalue (Some fv))))
     else
       flags ← readField 1;
       when_ (truthy (Z.land flags FILL_VALUE_DEFINED)) (
         fs ← readField 4;
         modify (set_fillsize fs);;
         fv ← readField fs;
         modify (set_fillvalue (Some fv))))).

Definition datalayoutMsgHandler (msg_size obj_hdr_flags : Z) : M Z :=
  consumed (
    version ← readField 1;
    lay ← readField 1;
    modify (set_layout (Some lay));;
    when_ (errorChecking && negb (version =? 3))
      (fatal "invalid data layout version" [version]);;
    (if lay =? COMPACT_LAYOUT then
       sz ← readField 2;
       modify (set_size sz);;
       p ← gets pos;
       modify (set_address p);;
       advance sz
     else if lay =? CONTIGUOUS_LAYOUT then
       wo ← offset_size;
       a ← readField wo;
       modify (set_address a);;
       wl ← length_size;
       sz ← readField wl;
       modify (set_size sz)
     else if lay =? CHUNKED_LAYOUT then
       rank ← readField 1;
       let chunk_num_dim := Z.min (rank - 1) MAX_NDIMS in
       nd ← gets ndims;
       when_ (errorChecking &&
              match nd with Some n => negb (chunk_num_dim =? n) | None => false end)
         (fatal "number of chunk dimensions does not match dimensionality of data"
            [chunk_num_dim]);;
       wo ← offset_size;
       a ← readField wo;
       modify (set_address a);;
       when_ (0 <? chunk_num_dim) (
         modify (set_chunkElements 1);;
         for_each (range chunk_num_dim) (fun _ =>
           chunk_dimension ← readField 4;
           modify (fun s => set_chunkDimensions (chunkDimensions s ++ [chunk_dimension]) s);;
           modify (fun s => set_chunkElements (chunkElements s * chunk_dimension) s)));;
       es ← readField 4;
       modify (set_elementSize es)
     else
       when_ errorChecking (fatal "unsupported data layout" [lay]))).

Definition filterMsgHandler (msg_size obj_hdr_flags : Z) : M Z :=
  consumed (
    version ← readField 1;
    num_filters ← readField 1;
    when_ (errorChecking && negb (version =? 1) && negb (version =? 2))
      (fatal "invalid filter version" [version]);;
    when_ (version =? 1) (advance 6);;
    for_each (range num_filters) (fun f =>
      filter ← readField 2;
      name_len ← (if (version =? 1) || (256 <=? filter) then readField 2
                  else mret 0);
      flags ← readField 2;
      num_parms ← readField 2;
      when_ (errorChecking && negb (flags =? 0) && negb (flags =? 1))
        (fatal "invalid flags in filter message" [flags]);;
      when_ (0 <? name_len) (
        filter_name ← readArray name_len;
        advance (pad8 name_len));;
      modify (fun s => set_filter (<[filter := true]> (filter_ s)) s);;
      advance (num_parms * 4);;
      when_ ((version =? 1) && (num_parms mod 2 =? 1)) (advance 4))).

(** The test [(self.datasetLevel + 1) == self.datasetPath.length()] calls
    a method a Python list does not have: evaluating it raises
    [AttributeError], so neither branch of the [if] (mark the dataset as
    found and parse the attribute, or return [msg_size]) is ever entered. *)
Definition attributeMsgHandler (msg_size obj_hdr_flags : Z) : M Z :=
  starting_position ← gets pos;
  version ← readField 1;
  advance 1;;
  name_size ← readField 2;
  datatype_size ← readField 2;
  dataspace_size ← readField 2;
  when_ (errorChecking && negb (version =? 1))
    (fatal "invalid attribute version" [version]);;
  attr_name ← readArray name_size;
  advance (pad8 name_size);;
  raise (PyError (AttributeError "length")).

(** [readDirectBlock] and [readIndirectBlock] take [(heap_info, block_size,
    obj_hdr_flags)]; both calls below pass four arguments, which Python
    rejects with [TypeError] before the callee runs. *)
Definition readFractalHeap (msg_type heap_address obj_hdr_flags : Z) : M Z :=
  let FRHP_CHECKSUM_DIRECT_BLOCKS := 0x02 in
  starting_position ← gets pos;
  wo ← offset_size;
  wl ← length_size;
  signature ← readField 4;
  version ← readField 1;
  heap_obj_id_len ← readField 2;
  io_filter_len ← readField 2;
  flags ← readField 1;
  max_size_mg_obj ← readField 4;
  next_huge_obj_id ← readField wl;
  btree_addr_huge_obj ← readField wo;
  free_space_mg_blks ← readField wl;
  addr_free_space_mg ← readField wo;
  mg_space ← readField wl;
  alloc_mg_space ← readField wl;
  dblk_alloc_iter ← readField wl;
  mg_objs ← readField wl;
  huge_obj_size ← readField wl;
  huge_objs ← readField wl;
  tiny_obj_size ← readField wl;
  tiny_objs ← readField wl;
  table_width ← readField 2;
  starting_blk_size ← readField wl;
  max_dblk_size ← readField wl;
  max_heap_size ← readField 2;
  start_num_rows ← readField 2;
  root_blk_addr ← readField wo;
  curr_num_rows ← readField 2;
  when_ errorChecking (
    when_ (negb (signature =? H5_FRHP_SIGNATURE_LE))
      (fatal "invalid heap signature" [signature]);;
    when_ (negb (version =? 0))
      (fatal "unsupported heap version" [version]));;
  when_ (0 <? io_filter_len) (
    filter_root_dblk ← readField wl;
    filter_mask ← readField 4;
    fatal "Filtering unsupported on fractal heap" [io_filter_len]);;
  advance 4;;
  if curr_num_rows =? 0 then raise (PyError (TypeError "readDirectBlock"))
  else raise (PyError (TypeError "readIndirectBlock")).

(** The two statements under "follow heap address if provided", shared by
    the link-info and the attribute-info handler:
    [if heap_address == INVALID_VALUE[offsetSize]: self.readFractalHeap(msg_type, heap_address, obj_hdr_flags)] *)
Definition follow_heap (msg_type heap_address obj_hdr_flags : Z) : M unit :=
  invalid ← invalid_offset;
  when_ (heap_address =? invalid) (
    _ ← readFractalHeap msg_type heap_address obj_hdr_flags;
    skip).

Definition linkinfoMsgHandler (msg_size obj_hdr_flags : Z) : M Z :=
  let MAX_CREATE_PRESENT_BIT := 0x1 in
  let CREATE_ORDER_PRESENT_BIT := 0x2 in
  consumed (
    version ← readField 1;
    flags ← readField 1;
    when_ (errorChecking && negb (version =? 0))
      (fatal "unsupported link info version" [version]);;
    when_ (truthy (Z.land flags MAX_CREATE_PRESENT_BIT)) (
      max_create_index ← readField 8;
      skip);;
    wo ← offset_size;
    heap_address ← readField wo;
    name_index ← readField wo;
    when_ (truthy (Z.land flags CREATE_ORDER_PRESENT_BIT)) (
      create_order_index ← readField wo;
      skip);;
    follow_heap LINK_MSG heap_address obj_hdr_flags).

Definition attributeinfoMsgHandler (msg_size obj_hdr_flags : Z) : M Z :=
  let MAX_CREATE_PRESENT_BIT := 0x01 in
  let CREATE_ORDER_PRESENT_BIT := 0x02 in
  consumed (
    version ← readField 1;
    flags ← readField 1;
    when_ (errorChecking && negb (version =? 0))
      (fatal "unsupported link info version" [version]);;
    when_ (truthy (Z.land flags MAX_CREATE_PRESENT_BIT)) (
      max_create_index ← readField 2;
      skip);;
    wo ← offset_size;
    heap_address ← readField wo;
    name_index ← readField wo;
    when_ (truthy (Z.land flags CREATE_ORDER_PRESENT_BIT)) (
      create_order_index ← readField wo;
      skip);;
    follow_heap ATTRIBUTE_MSG heap_address obj_hdr_flags).

(** The loop body starts with [self.readField(self.resourceObject.offsetsize)];
    the resource object has [offsetSize] but no attribute [offsetsize], so
    the first symbol raises [AttributeError] and no link name is compared. *)
Definition readSymbolTable (heap_address : Z) : M Z :=
  consumed (
    (if errorChecking then
       signature ← readField 4;
       version ← readField 1;
       when_ (negb (signature =? H5_SNOD_SIGNATURE_LE))
         (fatal "invalid symbol table signature" [signature]);;
       when_ (negb (version =? 1))
         (fatal "incorrect version of symbole table" [version]);;
       advance 1
     else advance 6);;
    num_symbols ← readField 2;
    for_each (range num_symbols) (fun _ =>
      raise (PyError (AttributeError "offsetsize")))).

(** *** The object-header walker

    [readMessage] reaches itself through the handlers that follow a link
    or a continuation block.  Inside this section [readMessage_rec] stands
    for that inner call and [fuel] bounds every [while] loop; the knot is
    tied by [readMessage] below. *)
Section Walker.

Variable fuel : nat.
Variable readMessage_rec : Z -> Z -> Z -> M Z.

(** The message prefix read at the top of the loop of [readMessagesV0]:
    type, size, flags and, when tracked, the creation order. *)
Definition readMessagesV0_prefix (obj_hdr_flags : Z) : M (Z * Z) :=
  let ATTR_CREATION_TRACK_BIT := 0x4 in
  msg_type ← readField 1;
  msg_size ← readField 2;
  msg_flags ← readField 1;
  when_ (truthy (Z.land obj_hdr_flags ATTR_CREATION_TRACK_BIT)) (
    msg_order ← readField 2;
    skip);;
  mret (msg_type, msg_size).

(** One turn of the [while] loop of [readMessagesV0]; [true] on [break]. *)
Definition readMessagesV0_iter (end_of_hdr obj_hdr_flags : Z) : M bool :=
  '(msg_type, msg_size) ← readMessagesV0_prefix obj_hdr_flags;
  bytes_read ← readMessage_rec msg_type msg_size obj_hdr_flags;
  when_ (errorChecking && negb (bytes_read =? msg_size))
    (fatal "header message different size than specified" [bytes_read; msg_size]);;
  found ← gets datasetFound;
  if found : bool then
    modify (set_pos end_of_hdr);;
    mret true
  else
    advance bytes_read;;
    mret false.

Fixpoint readMessagesV0_loop (n : nat) (end_of_hdr obj_hdr_flags : Z) : M unit :=
  p ← gets pos;
  if p <? end_of_hdr then
    match n with
    | O => out_of_fuel
    | S n' =>
        stop ← readMessagesV0_iter end_of_hdr obj_hdr_flags;
        if stop : bool then skip
        else readMessagesV0_loop n' end_of_hdr obj_hdr_flags
    end
  else skip.

Definition readMessagesV0 (end_of_hdr obj_hdr_flags : Z) : M Z :=
  starting_position ← gets pos;
  readMessagesV0_loop fuel end_of_hdr obj_hdr_flags;;
  p ← gets pos;
  when_ (errorChecking && negb (p =? end_of_hdr))
    (fatal "did not read correct number of bytes" [p; end_of_hdr]);;
  mret (p - starting_position).

Definition readObjHdrV0 : M Z :=
  let FILE_STATS_BIT := 0x20 in
  let STORE_CHANGE_PHASE_BIT := 0x10 in
  let SIZE_OF_CHUNK_0_MASK := 0x3 in
  starting_position ← gets pos;
  (if errorChecking then
     signature ← readField 4;
     version ← readField 1;
     when_ (negb (signature =? H5_OHDR_SIGNATURE_LE))
       (fatal "invalid version 0 object header signature" [signature]);;
     when_ (negb (version =? 2))
       (fatal "unsupported header version" [version])
   else advance 5);;
  obj_hdr_flags ← readField 1;
  when_ (truthy (Z.land obj_hdr_flags FILE_STATS_BIT)) (
    if verbose then
      access_time ← readField 4;
      modification_time ← readField 4;
      change_time ← readField 4;
      birth_time ← readField 4;
      skip
    else advance 16);;
  when_ (truthy (Z.land obj_hdr_flags STORE_CHANGE_PHASE_BIT)) (
    if verbose then
      max_compact_attr ← readField 2;
      max_dense_attr ← readField 2;
      skip
    else advance 4);;
  size_of_chunk0 ← readField (Z.shiftl 1 (Z.land obj_hdr_flags SIZE_OF_CHUNK_0_MASK));
  p ← gets pos;
  advance_by_call (readMessagesV0 (p + size_of_chunk0) obj_hdr_flags);;
  advance 4;;
  p' ← gets pos;
  mret (p' - starting_position).

(** One turn of the [while] loop of [readMessagesV1]; [true] on [break]. *)
Definition readMessagesV1_iter (end_of_hdr obj_hdr_flags : Z) : M bool :=
  msg_type ← readField 2;
  msg_size ← readField 2;
  msg_flags ← readField 1;
  (if errorChecking then
     reserved1 ← readField 1;
     reserved2 ← readField 2;
     when_ (negb (reserved1 =? 0) && negb (reserved2 =? 0))
       (fatal "invalid reserved fields" [reserved1; reserved2])
   else advance 3);;
  bytes_read0 ← readMessage_rec msg_type msg_size obj_hdr_flags;
  let bytes_read := bytes_read0 + pad8 bytes_read0 in
  when_ (errorChecking && negb (bytes_read =? msg_size))
    (fatal "header message different size than specified" [bytes_read; msg_size]);;
  found ← gets datasetFound;
  if found : bool then
    modify (set_pos end_of_hdr);;
    mret true
  else
    advance bytes_read;;
    mret false.

Fixpoint readMessagesV1_loop (n : nat) (end_of_hdr obj_hdr_flags : Z) : M unit :=
  let SIZE_OF_V1_PREFIX := 8 in
  p ← gets pos;
  if p <? end_of_hdr - SIZE_OF_V1_PREFIX then
    match n with
    | O => out_of_fuel
    | S n' =>
        stop ← readMessagesV1_iter end_of_hdr obj_hdr_flags;
        if stop : bool then skip
        else readMessagesV1_loop n' end_of_hdr obj_hdr_flags
    end
  else skip.

Definition readMessagesV1 (end_of_hdr obj_hdr_flags : Z) : M Z :=
  starting_position ← gets pos;
  readMessagesV1_loop fuel end_of_hdr obj_hdr_flags;;
  p ← gets pos;
  when_ (p <? end_of_hdr) (modify (set_pos end_of_hdr));;
  p' ← gets pos;
  when_ (errorChecking && negb (p' =? end_of_hdr))
    (fatal "did not read correct number of bytes" [p'; end_of_hdr]);;
  mret (p' - starting_position).

Definition readObjHdrV1 : M Z :=
  starting_position ← gets pos;
  advance 1;;
  (if verbose then
     num_hdr_msgs ← readField 2;
     obj_ref_count ← readField 4;
     skip
   else advance 6);;
  wl ← length_size;
  obj_hdr_size ← readField wl;
  p ← gets pos;
  advance_by_call (readMessagesV1 (p + obj_hdr_size) CUSTOM_V1_FLAG);;
  ending_position ← gets pos;
  mret (ending_position - starting_position).

Definition readObjHdr : M unit :=
  obj_hdr_version ← readField 1;
  if obj_hdr_version =? 0 then
    _ ← readObjHdrV0; skip
  else if obj_hdr_version =? 1 then
    _ ← readObjHdrV1; skip
  else fatal "unsupported object header version" [obj_hdr_version].

(** [self.datasetPath[self.datasetLevel]] *)
Definition path_component : M string :=
  path ← gets datasetPath;
  level ← gets datasetLevel;
  match path !! Z.to_nat level with
  | Some c => mret c
  | None => raise (PyError IndexError)
  end.

Definition linkMsgHandler (msg_size obj_hdr_flags : Z) : M Z :=
  let SIZE_OF_LEN_OF_NAME_MASK := 0x03 in
  let CREATE_ORDER_PRESENT_BIT := 0x04 in
  let LINK_TYPE_PRESENT_BIT := 0x08 in
  let CHAR_SET_PRESENT_BIT := 0x10 in
  let HARD_LINK := 0 in
  let SOFT_LINK := 1 in
  let EXTERNAL_LINK := 64 in
  consumed (
    version ← readField 1;
    flags ← readField 1;
    when_ (errorChecking && negb (version =? 1))
      (fatal "unsupported link message version" [version]);;
    link_type ← (if truthy (Z.land flags LINK_TYPE_PRESENT_BIT) then readField 1
                 else mret 0);
    when_ (truthy (Z.land flags CREATE_ORDER_PRESENT_BIT)) (
      create_order ← readField 8;
      skip);;
    when_ (truthy (Z.land flags CHAR_SET_PRESENT_BIT)) (
      char_set ← readField 1;
      skip);;
    let link_name_len_of_len := Z.shiftl 1 (Z.land flags SIZE_OF_LEN_OF_NAME_MASK) in
    when_ (errorChecking && (8 <? link_name_len_of_len))
      (fatal "invalid link name length of length" [link_name_len_of_len]);;
    link_name_len ← readField link_name_len_of_len;
    link_name_raw ← readArray link_name_len;
    let link_name := decode_utf8 link_name_raw in
    component ← path_component;
    follow_link ← (if String.eqb link_name component then
                     modify (fun s => set_datasetLevel (datasetLevel s + 1) s);;
                     mret true
                   else mret false);
    (if link_type =? HARD_LINK then
       wo ← offset_size;
       obj_hdr_addr ← readField wo;
       when_ follow_link (
         return_position ← gets pos;
         modify (set_pos obj_hdr_addr);;
         readObjHdr;;
         modify (set_pos return_position))
     else if link_type =? SOFT_LINK then
       soft_link_len ← readField 2;
       soft_link ← readArray soft_link_len;
       when_ (errorChecking && follow_link)
         (fatal "unsupported soft link encountered" [])
     else if link_type =? EXTERNAL_LINK then
       ext_link_len ← readField 2;
       ext_link ← readArray ext_link_len;
       when_ (errorChecking && follow_link)
         (fatal "unsupported external link encountered" [])
     else
       when_ errorChecking (fatal "unsupported link type" [link_type]))).

(** Without [CUSTOM_V1_FLAG] the handler calls [self.readMessages], a
    method the class does not define: [AttributeError]. *)
Definition headercontMsgHandler (msg_size obj_hdr_flags : Z) : M Z :=
  wo ← offset_size;
  wl ← length_size;
  hc_offset ← readField wo;
  hc_length ← readField wl;
  return_position ← gets pos;
  modify (set_pos hc_offset);;
  (if truthy (Z.land obj_hdr_flags CUSTOM_V1_FLAG) then
     advance_by_call (readMessagesV1 (hc_offset + hc_length) obj_hdr_flags)
   else
     (if errorChecking then
        signature ← readField 4;
        when_ (negb (signature =? H5_OCHK_SIGNATURE_LE))
          (fatal "invalid header continuation signature" [signature])
      else advance 4);;
     raise (PyError (AttributeError "readMessages")));;
  let bytes_read := wo + wl in
  modify (set_pos (return_position + bytes_read));;
  mret bytes_read.

(** The descent to the left-most node of the group B-tree. *)
Fixpoint symboltable_descend (n : nat) : M unit :=
  (if errorChecking then
     signature ← readField 4;
     node_type ← readField 1;
     when_ (negb (signature =? H5_TREE_SIGNATURE_LE))
       (fatal "invalid group b-tree signature" [signature]);;
     when_ (negb (node_type =? 0))
       (fatal "only group b-trees supported" [node_type])
   else advance 5);;
  node_level ← readField 1;
  if node_level =? 0 then skip
  else
    match n with
    | O => out_of_fuel
    | S n' =>
        wo ← offset_size;
        wl ← length_size;
        advance (2 + 2 * wo + wl);;
        child ← readField wo;
        modify (set_pos child);;
        symboltable_descend n'
    end.

(** The scan of the leaves, left to right. *)
Fixpoint symboltable_traverse (n : nat) (head_data_addr : Z) : M unit :=
  wo ← offset_size;
  wl ← length_size;
  entries_used ← readField 2;
  left_sibling ← readField wo;
  right_sibling ← readField wo;
  key0 ← readField wl;
  for_each_break (range entries_used) (fun _ =>
    symbol_table_addr ← readField wo;
    current_node_pos ← gets pos;
    modify (set_pos symbol_table_addr);;
    _ ← readSymbolTable head_data_addr;
    modify (set_pos current_node_pos);;
    advance wl;;
    gets datasetFound);;
  invalid ← invalid_offset;
  found ← gets datasetFound;
  if (right_sibling =? invalid) || found then skip
  else
    match n with
    | O => out_of_fuel
    | S n' =>
        modify (set_pos right_sibling);;
        (if errorChecking then
           signature ← readField 4;
           node_type ← readField 1;
           node_level ← readField 1;
           when_ (negb (signature =? H5_TREE_SIGNATURE_LE))
             (fatal "invalid group b-tree signature" [signature]);;
           when_ (negb (node_type =? 0))
             (fatal "only group b-trees supported" [node_type]);;
           when_ (negb (node_level =? 0))
             (fatal "traversed to non-leaf node" [node_level])
         else advance 6);;
        symboltable_traverse n' head_data_addr
    end.

Definition symboltableMsgHandler (msg_size obj_hdr_flags : Z) : M Z :=
  wo ← offset_size;
  wl ← length_size;
  btree_addr ← readField wo;
  heap_addr ← readField wo;
  return_position ← gets pos;
  modify (set_pos heap_addr);;
  (if errorChecking then
     signature ← readField 4;
     version ← readField 1;
     when_ (negb (signature =? H5_HEAP_SIGNATURE_LE))
       (fatal "invalid heap signature" [signature]);;
     when_ (negb (version =? 0))
       (fatal "unsupported version of heap" [version]);;
     advance 19
   else advance 24);;
  head_data_addr ← readField wo;
  modify (set_pos btree_addr);;
  symboltable_descend fuel;;
  symboltable_traverse fuel head_data_addr;;
  let bytes_read := wo + wl in
  modify (set_pos (return_position + bytes_read));;
  mret bytes_read.

(** [msg_handler_table] *)
Definition msg_handler_table (msg_type : Z) : option (Z -> Z -> M Z) :=
  if msg_type =? DATASPACE_MSG then Some dataspaceMsgHandler
  else if msg_type =? LINK_INFO_MSG then Some linkinfoMsgHandler
  else if msg_type =? DATATYPE_MSG then Some datatypeMsgHandler
  else if msg_type =? FILL_VALUE_MSG then Some fillvalueMsgHandler
  else if msg_type =? LINK_MSG then Some linkMsgHandler
  else if msg_type =? DATA_LAYOUT_MSG then Some datalayoutMsgHandler
  else if msg_type =? FILTER_MSG then Some filterMsgHandler
  else if msg_type =? ATTRIBUTE_MSG then Some attributeMsgHandler
  else if msg_type =? HEADER_CONT_MSG then Some headercontMsgHandler
  else if msg_type =? SYMBOL_TABLE_MSG then Some symboltableMsgHandler
  else if msg_type =? ATTRIBUTE_INFO_MSG then Some attributeinfoMsgHandler
  else None.

(** The body of [readMessage]: a message type outside the table raises
    [KeyError], which [except FatalError] lets through. *)
Definition readMessage_body (msg_type msg_size obj_hdr_flags : Z) : M Z :=
  match msg_handler_table msg_type with
  | None => raise (PyError (KeyError msg_type))
  | Some handler =>
      try_except_FatalError (handler msg_size obj_hdr_flags) (mret msg_size)
  end.

End Walker.

Fixpoint readMessage (fuel : nat) (msg_type msg_size obj_hdr_flags : Z) : M Z :=
  match fuel with
  | O => out_of_fuel
  | S fuel' =>
      readMessage_body fuel (readMessage fuel') msg_type msg_size obj_hdr_flags
  end.

End Reader.

(** ** [readDataset] *)

(** [TO_DATATYPE[type][signed][size]]: the name of the numpy type, or
    [None] where one of the three lookups raises [KeyError]. *)
Definition TO_DATATYPE (ty : option Z) (signed : bool) (size : Z) : option string :=
  match ty with
  | Some 0 =>
      if signed then
        if size =? 1 then Some "int8" else if size =? 2 then Some "int16"
        else if size =? 4 then Some "int32" else if size =? 8 then Some "int64"
        else None
      else
        if size =? 1 then Some "uint8" else if size =? 2 then Some "uint16"
        else if size =? 4 then Some "uint32" else if size =? 8 then Some "uint64"
        else None
  | Some 1 =>
      if signed then
        if size =? 4 then Some "single" else if size =? 8 then Some "double"
        else None
      else None
  | Some 3 => if signed && (size =? 1) then Some "byte" else None
  | _ => None
  end.

(** [self.dimensions[d]] *)
Definition dimension_at (d : Z) : M Z :=
  dims ← gets dimensions;
  match dims !! Z.to_nat d with
  | Some v => mret v
  | None => raise (PyError IndexError)
  end.

(** [self.filter[f]] *)
Definition filter_flag (f : Z) : M bool :=
  flt ← gets filter_;
  match flt !! f with
  | Some b => mret b
  | None => raise (PyError (KeyError f))
  end.

Section ReadDataset.

Variable cfg : Config.
Local Abbreviation errorChecking := (cfg_errorChecking cfg).

(** [row_size = self.typeSize; for d in range(1, self.ndims): row_size *= self.dimensions[d]] *)
Fixpoint row_size_loop (ds : list Z) (row_size : Z) : M Z :=
  match ds with
  | [] => mret row_size
  | d :: ds' => v ← dimension_at d; row_size_loop ds' (row_size * v)
  end.

(** [readDataset] after the call of [readObjHdr], in the three steps the
    source marks with comments.

    First the sanity checks and the sizes: the row size, the number of
    rows (stored in [datasetNumRows]) and the size of the buffer. *)
Definition readDataset_sizes : M (Z * Z) :=
  ts ← gets typeSize;
  nd ← gets ndims;
  when_ (ts <=? 0) (fatal "missing data type information" []);;
  n ← match nd with
      | None => fatal "missing data dimension information" []
      | Some n => mret n
      end;
  invalid ← invalid_offset;
  a ← gets address;
  when_ (a =? invalid) (fatal "invalid data address" []);;
  row_size ← row_size_loop (seqZ 1 (n - 1)) ts;
  first_dimension ← (if 0 <? n then
                       d0 ← dimension_at 0;
                       mret (if truthy d0 then d0 else 1)
                     else mret 1);
  rows ← gets datasetNumRows;
  let num_rows :=
    if rows =? ALL_ROWS then (if truthy first_dimension then first_dimension else rows)
    else rows in
  modify (set_datasetNumRows num_rows);;
  start ← gets datasetStartRow;
  when_ (first_dimension <? start + num_rows)
    (fatal "read exceeds number of rows" [start; num_rows; first_dimension]);;
  mret (row_size, row_size * num_rows).

(** "allocate and initialize buffer".  The local [buffer] is bound only in
    the chunked branch: [Some] holds what [numpy.empty] allocated, whose
    contents are arbitrary and taken as zeros, [None] is the unbound
    local.  The statement that builds [fill_value] reads [self.fill], an
    attribute that no method assigns: [AttributeError], raised before the
    loop that would copy the fill value into the buffer. *)
Definition readDataset_allocate (buffer_size : Z) : M (option bytes) :=
  meta ← gets metaOnly;
  lay ← gets layout;
  if negb meta && (0 <? buffer_size) then
    if bool_decide (lay = Some CHUNKED_LAYOUT) then
      fs ← gets fillsize;
      when_ (0 <? fs) (raise (PyError (AttributeError "fill")));;
      mret (Some (replicate (Z.to_nat buffer_size) 0))
    else mret None
  else mret None.

(** "populate result" to the end.  [result['data'] = buffer] raises
    [UnboundLocalError] (a [NameError]) when [buffer] is unbound;
    [self.ioRequest] is not a method of [H5Dataset]; the call
    [self.readBTreeV1(self.address, buffer, buffer_offset)] passes three
    arguments to a method declared with [(buffer, buffer_offset)] and
    raises [TypeError], so the flattening below it never runs.  The
    entries of [result] that cannot raise are left out. *)
Definition readDataset_read (row_size buffer_size : Z) (buffer : option bytes) : M unit :=
  when_ (negb (bool_decide (is_Some buffer))) (raise (PyError (NameError "buffer")));;
  ts ← gets typeSize;
  ty ← gets type_;
  sg ← gets signedval;
  when_ (negb (bool_decide (is_Some (TO_DATATYPE ty sg ts))))
    (fatal "unable to set data type" []);;
  start ← gets datasetStartRow;
  let buffer_offset := row_size * start in
  sz ← gets size_;
  meta ← gets metaOnly;
  lay ← gets layout;
  when_ errorChecking (
    when_ (negb (sz =? 0) && (sz <? buffer_offset + buffer_size))
      (fatal "read exceeds available data" [sz; buffer_offset; buffer_size]);;
    deflate ← filter_flag DEFLATE_FILTER;
    filtered ← (if deflate : bool then mret true else filter_flag SHUFFLE_FILTER);
    when_ (filtered &&
           (bool_decide (lay = Some COMPACT_LAYOUT)
            || bool_decide (lay = Some CONTIGUOUS_LAYOUT)))
      (fatal "filters unsupported on non-chunked layouts" []));;
  when_ (negb meta && (0 <? buffer_size)) (
    if bool_decide (lay = Some COMPACT_LAYOUT)
       || bool_decide (lay = Some CONTIGUOUS_LAYOUT) then
      raise (PyError (AttributeError "ioRequest"))
    else if bool_decide (lay = Some CHUNKED_LAYOUT) then
      when_ errorChecking (
        es ← gets elementSize;
        ce ← gets chunkElements;
        if negb (es =? ts) then
          fatal "chunk element size does not match data element size" [es; ts]
        else
          when_ (ce <=? 0) (fatal "invalid number of chunk elements" [ce]));;
      modify (fun s => set_dataChunkBufferSize (chunkElements s * ts) s);;
      raise (PyError (TypeError "readBTreeV1"))
    else
      when_ errorChecking (fatal "invalid data layout" [])).

Definition readDataset_body : M unit :=
  '(row_size, buffer_size) ← readDataset_sizes;
  buffer ← readDataset_allocate buffer_size;
  readDataset_read row_size buffer_size buffer.

Definition readDataset (fuel : nat) : M unit :=
  readObjHdr cfg fuel (readMessage cfg fuel);;
  readDataset_body.

End ReadDataset.

(** ** The chunk B-tree: [readBTreeNodeV1] and [readBTreeV1] *)

(** A key of a B-tree node is a Python [dict] with string keys, created
    empty by [node = {}]; every value the source stores in it is an
    integer. *)
Definition key_dict : Type := gmap string Z.

Section BTree.

Variable cfg : Config.
Local Abbreviation errorChecking := (cfg_errorChecking cfg).

(** [readBTreeNodeV1(ndims)].  [range(ndims)] raises [TypeError] when
    [ndims] is [None].  In [node['slice'].append(self.readField(8))] the
    subscription [node['slice']] is evaluated before the argument of the
    call: [KeyError] when the dictionary has no such entry, before any byte
    of the chunk origin is read ([append] is not an attribute of an
    integer entry either).  [trailing_zero % self.typeSize] divides by
    zero when no datatype was read.  The row key is taken from
    [node['slice'][0]] when [ndims > 0]. *)
Definition readBTreeNodeV1 (ndims : option Z) : M key_dict :=
  let node : key_dict := ∅ in
  chunk_size ← readField cfg 4;
  let node := <["chunk_size" := chunk_size]> node in
  filter_mask ← readField cfg 4;
  let node := <["filter_mask" := filter_mask]> node in
  n ← match ndims with
      | Some n => mret n
      | None => raise (PyError (TypeError "range"))
      end;
  for_each (range n) (fun _ =>
    match node !! "slice" with
    | None => raise (PyError (KeyError_str "slice"))
    | Some _ => raise (PyError (AttributeError "append"))
    end);;
  trailing_zero ← readField cfg 8;
  ts ← gets typeSize;
  when_ errorChecking (
    if ts =? 0 then raise (PyError ZeroDivisionError)
    else when_ (negb (trailing_zero mod ts =? 0))
           (fatal "key did not include a trailing zero" [trailing_zero]));;
  if 0 <? n then
    match node !! "slice" with
    | None => raise (PyError (KeyError_str "slice"))
    | Some _ => raise (PyError (TypeError "__getitem__"))
    end
  else mret (<["row_key" := 0]> node).

(** [readBTreeV1] from "check signature and node type" to "skip sibling
    addresses": the result is [(node_level, entries_used)]. *)
Definition readBTreeV1_header : M (Z * Z) :=
  (if errorChecking then
     signature ← readField cfg 4;
     node_type ← readField cfg 1;
     when_ (negb (signature =? H5_TREE_SIGNATURE_LE))
       (fatal "invalid b-tree signature" [signature]);;
     when_ (negb (node_type =? 1))
       (fatal "only raw data chunk b-trees supported" [node_type])
   else advance 5);;
  node_level ← readField cfg 1;
  entries_used ← readField cfg 2;
  wo ← offset_size;
  advance (wo * 2);;
  mret (node_level, entries_used).

(** One turn of the loop under "read children".  After the address of the
    child and the key behind it are read, [child_key1 = curr_node.row_key]
    asks a [dict] for an attribute: [AttributeError].  The rest of the
    turn (the inclusion test, the descent, the placement and the read of
    the chunk) is never executed and is not part of the model. *)
Definition readBTreeV1_child (curr_node : key_dict) : M unit :=
  wo ← offset_size;
  child_addr ← readField cfg wo;
  nd ← gets ndims;
  next_node ← readBTreeNodeV1 nd;
  raise (PyError (AttributeError "row_key")).

(** [readBTreeV1(buffer, buffer_offset)].  The method reads the node at
    the cursor.  As no turn of the loop reaches its last statement,
    [curr_node = next_node], every turn is given the first key. *)
Definition readBTreeV1 (buffer : bytes) (buffer_offset : Z) : M unit :=
  starting_position ← gets pos;
  data_key1 ← gets datasetStartRow;
  data_key2 ← gets (fun s => datasetStartRow s + datasetNumRows s - 1);
  '(node_level, entries_used) ← readBTreeV1_header;
  nd ← gets ndims;
  curr_node ← readBTreeNodeV1 nd;
  for_each (range entries_used) (fun e => readBTreeV1_child curr_node).

End BTree.

(** ** Files and states used to run the code *)
Module Fixtures.

(** A resource object with an empty cache. *)
Definition resource (wo wl base root : Z) : H5Coro :=
  mkH5Coro ∅ [] wo wl base root.

(** A driver over the unbounded content [i mod 256]. *)
Definition counting_driver : Z -> Z -> bytes := range_driver (fun i => i mod 256).

Definition config (file : bytes) (checking verbose : bool) : Config :=
  mkConfig (file_driver file) checking verbose.

(** A root object header (version byte 0, [OHDR], version 2, flags 0,
    16 bytes of messages) with one link message, name [a], hard link to
    the header at offset 32; that header holds one datatype message
    (fixed point, signed, 4 bytes). *)
Definition linked_file : bytes :=
  [ 0; 0x4F; 0x48; 0x44; 0x52; 2; 0; 16;
    6; 12; 0; 0;
    1; 0; 1; 0x61; 32; 0; 0; 0; 0; 0; 0; 0;
    0; 0; 0; 0;  0; 0; 0; 0;
    0; 0x4F; 0x48; 0x44; 0x52; 2; 0; 16;
    3; 12; 0; 0;
    0x10; 0x08; 0; 0;  4; 0; 0; 0;  0; 0; 32; 0;
    0; 0; 0; 0 ].

(** An object header with one dataspace message of 16 bytes: version 1,
    rank 1, no flags, 5 reserved bytes, one dimension of 100. *)
Definition dataspace_file : bytes :=
  [ 0; 0x4F; 0x48; 0x44; 0x52; 2; 0; 20;
    1; 16; 0; 0;
    1; 1; 0; 0; 0; 0; 0; 0;  100; 0; 0; 0; 0; 0; 0; 0;
    0; 0; 0; 0 ].

(** An object header with one link-info message of 18 bytes whose heap
    address is [heap]: version [version], flags 0, heap address, name
    index [0xFF..FF]; zeros follow the header up to offset 192. *)
Definition linkinfo_file (version : Z) (heap : bytes) : bytes :=
  [ 0; 0x4F; 0x48; 0x44; 0x52; 2; 0; 22;
    2; 18; 0; 0;
    version; 0 ] ++ heap ++
  [ 0xFF; 0xFF; 0xFF; 0xFF; 0xFF; 0xFF; 0xFF; 0xFF;
    0; 0; 0; 0 ] ++ replicate 158 0.

Definition present_heap : bytes := [0; 1; 0; 0; 0; 0; 0; 0].
Definition null_heap : bytes := [0xFF; 0xFF; 0xFF; 0xFF; 0xFF; 0xFF; 0xFF; 0xFF].

(** The dataset object of a worker on a file with 8-byte offsets and
    lengths, with the cursor put at [p]. *)
Definition worker (path : string) (p : Z) : Dataset :=
  set_pos p (H5Dataset (resource 8 8 0 0) path).

(** An object header that the walker, run without error checking and
    without logging, reads in full: it steps over each message body twice,
    so the four messages lie at 8, 36, 72 and 100.  They are a datatype
    (fixed point, signed, 4 bytes), a dataspace (version 1, one dimension
    of 10), a fill value (version 2, defined, 4 bytes, value 7) and a
    chunked layout (version 3, one chunk dimension of 5, element size 4,
    B-tree at 200). *)
Definition chunked_fill_file : bytes :=
  [ 0; 0x4F; 0x48; 0x44; 0x52; 2; 0; 134 ]
  ++ [ 3; 12; 0; 0;  0x10; 0x08; 0; 0;  4; 0; 0; 0;  0; 0; 32; 0 ]
  ++ replicate 12 0
  ++ [ 1; 16; 0; 0;  1; 1; 0; 0; 0; 0; 0; 0;  10; 0; 0; 0; 0; 0; 0; 0 ]
  ++ replicate 16 0
  ++ [ 5; 12; 0; 0;  2; 0; 0; 1;  4; 0; 0; 0;  7; 0; 0; 0 ]
  ++ replicate 12 0
  ++ [ 8; 19; 0; 0;  3; 2; 2;  200; 0; 0; 0; 0; 0; 0; 0;  5; 0; 0; 0;  4; 0; 0; 0 ]
  ++ replicate 23 0.

(** The state of a walk that found a chunked dataset of 10 rows of 4-byte
    integers with a 4-byte fill value. *)
Definition chunked_with_fill : Dataset :=
  set_fillvalue (Some 7) (set_fillsize 4
    (set_layout (Some CHUNKED_LAYOUT) (set_address 64
      (set_type (Some FIXED_POINT_TYPE) (set_typeSize 4
        (set_dimensions [10] (set_ndims (Some 1) (worker "d" 0)))))))).

(** The state of a walk that found a chunked dataset of 10 rows of 4-byte
    integers stored in one chunk of 10 elements, with the rows 0 to 9
    requested and the cursor on the B-tree of the chunks. *)
Definition chunked_rows_0_9 : Dataset :=
  set_datasetNumRows 10 (set_elementSize 4 (set_chunkElements 10
    (set_layout (Some CHUNKED_LAYOUT) (set_type (Some FIXED_POINT_TYPE)
      (set_typeSize 4 (set_dimensions [10] (set_ndims (Some 1) (worker "d" 0)))))))).

(** The leaf node of the chunk B-tree of that dataset, stored in one chunk
    of 40 bytes at offset 200: [TREE], node type 1, level 0, one entry,
    two undefined sibling addresses; at 24 the key of the chunk (size 40,
    filter mask 0, origin row 0, trailing 0), at 48 the address of the
    chunk, at 56 the closing key (size 0, origin row 10). *)
Definition btree_leaf_file : bytes :=
  [ 0x54; 0x52; 0x45; 0x45; 1; 0; 1; 0 ]
  ++ replicate 16 0xFF
  ++ [ 40; 0; 0; 0;  0; 0; 0; 0;  0; 0; 0; 0; 0; 0; 0; 0;  0; 0; 0; 0; 0; 0; 0; 0 ]
  ++ [ 200; 0; 0; 0; 0; 0; 0; 0 ]
  ++ [ 0; 0; 0; 0;  0; 0; 0; 0;  10; 0; 0; 0; 0; 0; 0; 0;  0; 0; 0; 0; 0; 0; 0; 0 ].

(** A root object header (version byte 0, [OHDR], version 2, flags 0,
    20 bytes of messages) with one link message of 8 bytes at 12: version
    1, link type present, soft link, name [a], target [b]. *)
Definition soft_link_file : bytes :=
  [ 0; 0x4F; 0x48; 0x44; 0x52; 2; 0; 20;
    6; 8; 0; 0;
    1; 0x08; 1; 1; 0x61; 1; 0; 0x62 ]
  ++ replicate 12 0.

(** A version-1 message prefix (type, size, flags, three reserved bytes)
    followed by a link-info message of version 1, 18 bytes, at offset 8. *)
Definition linkinfo_v1_message : bytes :=
  [ 2; 0; 18; 0; 0; 0; 0; 0;
    1; 0 ] ++ present_heap ++
  [ 0xFF; 0xFF; 0xFF; 0xFF; 0xFF; 0xFF; 0xFF; 0xFF ] ++ replicate 6 0.

End Fixtures.

(** ** Predicates used in the properties *)

(** [c] keeps the property [P] of the state, however it ends. *)
Definition preserves {A} (P : Dataset -> Prop) (c : M A) : Prop :=
  forall s, P s -> P (c s).2.

(** The dataset has not been marked as found. *)
Definition not_found (s : Dataset) : Prop := datasetFound s = false.

(** ** [H5Coro]: construction and [readSuperblock] *)

Definition H5_SIGNATURE_LE : Z := 0x0A1A0A0D46444889.

Definition set_offsetSize (v : Z) (r : H5Coro) : H5Coro :=
  mkH5Coro (cache r) (driver_log r) v (lengthSize r) (baseAddress r) (rootAddress r).
Definition set_lengthSize (v : Z) (r : H5Coro) : H5Coro :=
  mkH5Coro (cache r) (driver_log r) (offsetSize r) v (baseAddress r) (rootAddress r).
Definition set_baseAddress (v : Z) (r : H5Coro) : H5Coro :=
  mkH5Coro (cache r) (driver_log r) (offsetSize r) (lengthSize r) v (rootAddress r).
Definition set_rootAddress (v : Z) (r : H5Coro) : H5Coro :=
  mkH5Coro (cache r) (driver_log r) (offsetSize r) (lengthSize r) (baseAddress r) v.

(** Methods of [H5Coro]: transformers of the resource object that may
    raise. *)
Definition R (A : Type) : Type := H5Coro -> outcome A * H5Coro.

#[global] Instance R_ret : MRet R := fun A a r => (Ret a, r).

#[global] Instance R_bind : MBind R := fun A B f c r =>
  match c r with
  | (Ret a, r1) => f a r1
  | (Raise e, r1) => (Raise e, r1)
  | (OutOfFuel, r1) => (OutOfFuel, r1)
  end.

Definition R_raise {A} (e : exn) : R A := fun r => (Raise e, r).
Definition R_gets {A} (f : H5Coro -> A) : R A := fun r => (Ret (f r), r).
Definition R_modify (f : H5Coro -> H5Coro) : R unit := fun r => (Ret tt, f r).
Definition R_when (b : bool) (c : R unit) : R unit := if b then c else mret tt.

(** [struct.unpack('<' + fmt, block)] for a format of one unsigned field of
    [size] bytes: [struct.error] unless the block has that length. *)
Definition R_unpack (size : Z) (block : bytes) : R Z :=
  if Z.of_nat (length block) =? size then mret (little_endian_to_Z 8 block)
  else R_raise (PyError StructError).

(** [struct.unpack('<BB', block)] *)
Definition R_unpack_BB (block : bytes) : R (Z * Z) :=
  match block with
  | [b0; b1] => mret (little_endian_to_Z 8 [b0], little_endian_to_Z 8 [b1])
  | _ => R_raise (PyError StructError)
  end.

(** [struct.unpack('<QB', block)] *)
Definition R_unpack_QB (block : bytes) : R (Z * Z) :=
  if Z.of_nat (length block) =? 9 then
    mret (little_endian_to_Z 8 (take 8 block), little_endian_to_Z 8 (drop 8 block))
  else R_raise (PyError StructError).

(** [struct.unpack(f'<{SIZE_2_FORMAT[size]}', block)[0]] *)
Definition R_unpack_field (size : Z) (block : bytes) : R Z :=
  match SIZE_2_FORMAT size with
  | None => R_raise (PyError (KeyError size))
  | Some _ => R_unpack size block
  end.

Section Superblock.

Variable cfg : Config.

Definition R_ioRequest (p size : Z) : R bytes := fun r =>
  let '(data, r1) := ioRequest (cfg_driver cfg) p size r in (Ret data, r1).

(** The three reads shared by the two branches of [readSuperblock]: the
    sizes at [sizes_at], the base address at [base_at] and the root group
    offset [slots] offsets further. *)
Definition read_sizes_base_root (sizes_at base_at slots : Z) : R Z :=
  block ← R_ioRequest sizes_at 2;
  '(wo, wl) ← R_unpack_BB block;
  R_modify (set_offsetSize wo);;
  R_modify (set_lengthSize wl);;
  block ← R_ioRequest base_at wo;
  base ← R_unpack_field wo block;
  R_modify (set_baseAddress base);;
  block ← R_ioRequest (base_at + slots * wo) wo;
  R_unpack_field wo block.

Definition readSuperblock : R Z :=
  block ← R_ioRequest 0 9;
  '(signature, superblock_version) ← R_unpack_QB block;
  R_when (negb (signature =? H5_SIGNATURE_LE))
    (R_raise (FatalError "invalid file signature" [signature]));;
  R_when (negb (superblock_version =? 0) && negb (superblock_version =? 2))
    (R_raise (FatalError "unsupported superblock version" [superblock_version]));;
  if superblock_version =? 0 then
    R_when (cfg_errorChecking cfg) (
      block ← R_ioRequest 9 2;
      '(freespace_version, roottable_version) ← R_unpack_BB block;
      R_when (negb (freespace_version =? 0))
        (R_raise (FatalError "unsupported free space version" [freespace_version]));;
      R_when (negb (roottable_version =? 0))
        (R_raise (FatalError "unsupported root table version" [roottable_version])));;
    read_sizes_base_root 13 24 5
  else
    read_sizes_base_root 9 12 3.

(** [H5Coro.__init__] up to the start of the workers: an empty cache, the
    three parameters at 0, and [rootAddress] from [readSuperblock]. *)
Definition H5Coro_init : outcome unit * H5Coro :=
  match readSuperblock (mkH5Coro ∅ [] 0 0 0 0) with
  | (Ret root, r) => (Ret tt, set_rootAddress root r)
  | (Raise e, r) => (Raise e, r)
  | (OutOfFuel, r) => (OutOfFuel, r)
  end.

End Superblock.

(** Where the two branches of [readSuperblock] read: the offset of the
    two size bytes, the offset of the base address, and the number of
    offset-sized slots from there to the root group offset. *)
Definition superblock_layout (version : Z) : Z * Z * Z :=
  if version =? 0 then (13, 24, 5) else (9, 12, 3).

(** A superblock of version 0 with 8-byte offsets and lengths, base
    address 0, end of file at 200 and the root group object header at
    96. *)
Definition superblock_v0_file : bytes :=
  [ 0x89; 0x48; 0x44; 0x46; 0x0D; 0x0A; 0x1A; 0x0A;
    0; 0; 0; 0; 0; 8; 8; 0;
    4; 0; 16; 0;  0; 0; 0; 0;
    0; 0; 0; 0; 0; 0; 0; 0;
    0xFF; 0xFF; 0xFF; 0xFF; 0xFF; 0xFF; 0xFF; 0xFF;
    200; 0; 0; 0; 0; 0; 0; 0;
    0xFF; 0xFF; 0xFF; 0xFF; 0xFF; 0xFF; 0xFF; 0xFF;
    0; 0; 0; 0; 0; 0; 0; 0;
    96; 0; 0; 0; 0; 0; 0; 0 ].

(** ** [highestBit] *)

(** The loop [while value != 0: value >>= 1; bit += 1]; [None] when the
    bound on the number of turns is reached. *)
Fixpoint highestBit_loop (fuel : nat) (value bit : Z) : option Z :=
  if value =? 0 then Some bit
  else match fuel with
       | O => None
       | S fuel' => highestBit_loop fuel' (Z.shiftr value 1) (bit + 1)
       end.

Definition highestBit (fuel : nat) (value : Z) : option Z :=
  highestBit_loop fuel (Z.shiftr value 1) 0.

(** ** The message prefix of [readMessagesV1]

    The statements at the top of the loop of [readMessagesV1], up to the
    call of [readMessage]: type, size, flags and the reserved fields. *)
Definition readMessagesV1_prefix (cfg : Config) : M (Z * Z) :=
  msg_type ← readField cfg 2;
  msg_size ← readField cfg 2;
  msg_flags ← readField cfg 1;
  (if cfg_errorChecking cfg then
     reserved1 ← readField cfg 1;
     reserved2 ← readField cfg 2;
     when_ (negb (reserved1 =? 0) && negb (reserved2 =? 0))
       (fatal "invalid reserved fields" [reserved1; reserved2])
   else advance 3);;
  mret (msg_type, msg_size).

(** ** Runs that end in an exception *)

(** The state [s] has the path and the level of [s0]. *)
Definition keeps_level (s0 s : Dataset) : Prop :=
  datasetPath s = datasetPath s0 /\ datasetLevel s = datasetLevel s0.

(** From a state with the path and level of [s0], [c] ends in an
    exception that satisfies [E]. *)
Definition crashes {A} (E : exn -> Prop) (s0 : Dataset) (c : M A) : Prop :=
  forall s, keeps_level s0 s -> exists e s', c s = (Raise e, s') /\ E e.

(** From such a state, [c] either returns and keeps the path and the
    level, or ends in an exception that satisfies [E]. *)
Definition steps {A} (E : exn -> Prop) (s0 : Dataset) (c : M A) : Prop :=
  forall s, keeps_level s0 s ->
    (exists a s', c s = (Ret a, s') /\ keeps_level s0 s')
    \/ (exists e s', c s = (Raise e, s') /\ E e).

(** [c] is not cut short by the bound the model puts on loops. *)
Definition ends {A} (c : M A) : Prop := forall s, (c s).1 <> OutOfFuel.

(** The exceptions a handler may end in: a [FatalError] only under error
    checking. *)
Definition allowed (cfg : Config) (e : exn) : Prop :=
  is_fatal e = true -> cfg_errorChecking cfg = true.

(** What [readMessage] makes of a handler that always raises: an error of
    the interpreter leaves it, a [FatalError] is turned into the return
    value [msg_size]. *)
Definition stops_or_skips (cfg : Config) (o : outcome Z) (msg_size : Z) : Prop :=
  (exists e, o = Raise (PyError e))
  \/ (cfg_errorChecking cfg = true /\ o = Ret msg_size).

(** A root object header with two link messages, [a] to the header at 64
    and [b] to the header at 96, laid out as the walker steps (the second
    message follows the first at twice the size of its body); both
    headers hold one datatype message (fixed point, signed, 4 bytes). *)
Definition two_links_file : bytes :=
  [ 0; 0x4F; 0x48; 0x44; 0x52; 2; 0; 56;
    6; 12; 0; 0;
    1; 0; 1; 0x61; 64; 0; 0; 0; 0; 0; 0; 0;
    0; 0; 0; 0;  0; 0; 0; 0;  0; 0; 0; 0;
    6; 12; 0; 0;
    1; 0; 1; 0x62; 96; 0; 0; 0; 0; 0; 0; 0;
    0; 0; 0; 0;  0; 0; 0; 0;  0; 0; 0; 0;
    0; 0x4F; 0x48; 0x44; 0x52; 2; 0; 16;
    3; 12; 0; 0;
    0x10; 0x08; 0; 0;  4; 0; 0; 0;  0; 0; 32; 0;
    0; 0; 0; 0;  0; 0; 0; 0;
    0; 0x4F; 0x48; 0x44; 0x52; 2; 0; 16;
    3; 12; 0; 0;
    0x10; 0x08; 0; 0;  4; 0; 0; 0;  0; 0; 32; 0;
    0; 0; 0; 0 ].

(** The number [readDataset] calls [first_dimension],
    [(self.ndims > 0) and self.dimensions[0] or 1], where the rank is
    known and [dimensions[0]] exists. *)
Definition first_dimension (s : Dataset) : Z :=
  match ndims s with
  | Some n =>
      if 0 <? n then
        match dimensions s !! 0%nat with
        | Some d0 => if d0 =? 0 then 1 else d0
        | None => 1
        end
      else 1
  | None => 1
  end.


(** * Properties of the code *)

Import Fixtures.

(** ** Reasoning about runs *)

Lemma bind_run {A B} (c : M A) (k : A -> M B) (s : Dataset) :
  (x ← c; k x) s =
  match c s with
  | (Ret a, s1) => k a s1
  | (Raise e, s1) => (Raise e, s1)
  | (OutOfFuel, s1) => (OutOfFuel, s1)
  end.
Proof. reflexivity. Qed.

Lemma bind_ret {A B} (c : M A) (k : A -> M B) (s s1 : Dataset) (a : A) :
  c s = (Ret a, s1) -> (x ← c; k x) s = k a s1.
Proof. intros H. rewrite bind_run, H. reflexivity. Qed.

Lemma bind_raise {A B} (c : M A) (k : A -> M B) (s s1 : Dataset) (e : exn) :
  c s = (Raise e, s1) -> (x ← c; k x) s = (Raise e, s1).
Proof. intros H. rewrite bind_run, H. reflexivity. Qed.

(** A method written as [consumed body] returns the distance its cursor
    has moved. *)
Lemma consumed_advances (body : M unit) (s s' : Dataset) (n : Z) :
  consumed body s = (Ret n, s') -> pos s' = pos s + n.
Proof.
  unfold consumed. rewrite bind_run. cbn [gets].
  rewrite bind_run. destruct (body s) as [[[]|e|] s1]; try discriminate.
  rewrite bind_run. cbn [gets]. intros [= <- <-]. lia.
Qed.

Lemma readMessage_S cfg fuel t sz fl :
  readMessage cfg (S fuel) t sz fl
  = readMessage_body cfg (S fuel) (readMessage cfg fuel) t sz fl.
Proof. reflexivity. Qed.

(** [readMessage] turns a [FatalError] of the handler into the return
    value [msg_size], whatever the handler did to the state. *)
Lemma readMessage_body_catches cfg fuel rm t sz fl h s s' msg vals :
  msg_handler_table cfg fuel rm t = Some h ->
  h sz fl s = (Raise (FatalError msg vals), s') ->
  readMessage_body cfg fuel rm t sz fl s = (Ret sz, s').
Proof.
  intros Ht Hh. unfold readMessage_body. rewrite Ht.
  unfold try_except_FatalError. rewrite Hh. reflexivity.
Qed.

Lemma readMessage_body_returns cfg fuel rm t sz fl h s s' n :
  msg_handler_table cfg fuel rm t = Some h ->
  h sz fl s = (Ret n, s') ->
  readMessage_body cfg fuel rm t sz fl s = (Ret n, s').
Proof.
  intros Ht Hh. unfold readMessage_body. rewrite Ht.
  unfold try_except_FatalError. rewrite Hh. reflexivity.
Qed.

Lemma readMessage_body_never_fatal cfg fuel rm t sz fl s msg vals s' :
  readMessage_body cfg fuel rm t sz fl s <> (Raise (FatalError msg vals), s').
Proof.
  unfold readMessage_body. destruct (msg_handler_table cfg fuel rm t) as [h|].
  - unfold try_except_FatalError.
    destruct (h sz fl s) as [[n|[m v|e]|] s1]; discriminate.
  - discriminate.
Qed.

Ltac run_step :=
  rewrite bind_run;
  match goal with
  | |- context [match ?c ?s with _ => _ end] =>
      destruct (c s) as [[?|?|] ?]; try discriminate
  end.


(** ** The byte-range cache *)

(** On a 64-bit address the mask clears the four low bits. *)

Lemma land_mask (a : Z) :
  0 <= a < 2 ^ 64 -> Z.land a CACHE_LINE_MASK = a - a mod 16.
Proof.
  intros Ha.
  change CACHE_LINE_MASK with (Z.shiftl (Z.ones 60) 4).
  assert (E : Z.land a (Z.shiftl (Z.ones 60) 4) = Z.shiftl (Z.land (Z.shiftr a 4) (Z.ones 60)) 4).
  { apply Z.bits_inj'. intros n Hn.
    rewrite Z.land_spec.
    destruct (Z.lt_ge_cases n 4) as [H4|H4].
    - rewrite !Z.shiftl_spec_low by lia. apply andb_false_r.
    - rewrite !Z.shiftl_spec by lia. rewrite Z.land_spec, Z.shiftr_spec by lia.
      f_equal. f_equal. lia. }
  rewrite E, Z.land_ones by lia.
  rewrite Z.shiftr_div_pow2, Z.shiftl_mul_pow2 by lia.
  change (2 ^ 4) with 16.
  rewrite Z.mod_small.
  - pose proof (Z.div_mod a 16). lia.
  - split. { apply Z.div_pos; lia. } apply Z.div_lt_upper_bound; lia.
Qed.

Lemma slice_range_driver (content : Z -> Z) (line a b : Z) :
  0 <= a -> a <= b -> b <= 16 ->
  slice (range_driver content line 16) a b = range_driver content (line + a) (b - a).
Proof.
  intros Ha Hab Hb. unfold slice, range_driver.
  rewrite length_fmap, length_seqZ.
  unfold slice_index.
  destruct (Z.ltb_spec a 0); [lia|]. destruct (Z.ltb_spec b 0); [lia|].
  rewrite !Z2Nat.id by lia.
  rewrite !Z.min_l by lia.
  replace 16 with (a + ((b - a) + (16 - b))) at 1 by lia.
  rewrite seqZ_app by lia. rewrite (seqZ_app (line + a)) by lia.
  rewrite !fmap_app.
  rewrite drop_app_length' by (rewrite length_fmap, length_seqZ; lia).
  rewrite take_app_length' by (rewrite length_fmap, length_seqZ; lia).
  reflexivity.
Qed.

Lemma populate_coherent content line r :
  cache_coherent (range_driver content) r ->
  cache_coherent (range_driver content) (populate (range_driver content) line r).
Proof.
  intros Hc. unfold populate. destruct (cache r !! line) eqn:E; [exact Hc|].
  intros l d. simpl. rewrite lookup_insert. case_decide; [|apply Hc].
  intros [= <-]. subst. reflexivity.
Qed.

Lemma populate_get content line r :
  cache_coherent (range_driver content) r ->
  cache_get line (populate (range_driver content) line r) = range_driver content line 16.
Proof.
  intros Hc. unfold populate, cache_get.
  destruct (cache r !! line) eqn:E.
  - rewrite E. simpl. apply (Hc _ _ E).
  - simpl. rewrite lookup_insert_eq. reflexivity.
Qed.

Lemma populate_log drv line r :
  (length (driver_log (populate drv line r)) <= S (length (driver_log r)))%nat.
Proof. unfold populate. destruct (cache r !! line); simpl; lia. Qed.

Lemma populate_base drv line r : baseAddress (populate drv line r) = baseAddress r.
Proof. unfold populate. destruct (cache r !! line); reflexivity. Qed.

Lemma populate_keeps drv line line' r data :
  cache r !! line' = Some data -> cache (populate drv line r) !! line' = Some data.
Proof.
  intros H. unfold populate. destruct (cache r !! line) eqn:E; [exact H|].
  simpl. rewrite lookup_insert_ne; [exact H|]. intros ->. congruence.
Qed.

Lemma populate_present drv line r : is_Some (cache (populate drv line r) !! line).
Proof.
  unfold populate. destruct (cache r !! line) eqn:E; [rewrite E; eauto|].
  simpl. rewrite lookup_insert_eq. eauto.
Qed.

Lemma populate_id drv line r : is_Some (cache r !! line) -> populate drv line r = r.
Proof. intros [d E]. unfold populate. rewrite E. reflexivity. Qed.


(** C4.  For a driver that returns exactly the bytes of the requested
    range, a cache that holds only lines read from that driver, and a
    request that lies within the 64-bit address space, [ioRequest(pos, size)]
    returns exactly [size] bytes, equal to
    [driver.read(pos + baseAddress, size)]; it issues at most two driver
    reads whatever the size (hence for every size up to twice the line
    size), and a request larger than a line is one direct read.  The
    cache stays coherent with the driver. *)

Theorem ioRequest_exact (content : Z -> Z) (r : H5Coro) (pos size : Z) :
  cache_coherent (range_driver content) r ->
  0 <= pos + baseAddress r < 2 ^ 64 -> 0 <= size -> pos + baseAddress r + size <= 2 ^ 64 ->
  let res := ioRequest (range_driver content) pos size r in
  res.1 = range_driver content (pos + baseAddress r) size /\
  length res.1 = Z.to_nat size /\
  (length (driver_log res.2) <= length (driver_log r) + 2)%nat /\
  (CACHE_LINE_SIZE < size ->
   driver_log res.2 = (pos + baseAddress r, size) :: driver_log r) /\
  cache_coherent (range_driver content) res.2.
Proof.
  intros Hc Hpos Hsz Hmax.
  set (a := pos + baseAddress r) in *.
  assert (Hlen : length (range_driver content a size) = Z.to_nat size).
  { unfold range_driver. rewrite length_fmap, length_seqZ. reflexivity. }
  unfold ioRequest. fold a. unfold CACHE_LINE_SIZE.
  destruct (Z.leb_spec size 16) as [Hs|Hs].
  2:{ cbn [fst snd driver_call set_cache driver_log]. split; [reflexivity|]. split; [exact Hlen|].
      split. { simpl. lia. } split; [reflexivity|]. exact Hc. }
  assert (Ha : 0 <= a < 2 ^ 64) by lia.
  rewrite (land_mask a Ha).
  pose proof (Z.mod_pos_bound a 16 ltac:(lia)) as Hm.
  set (line := a - a mod 16) in *.
  replace (a - line) with (a mod 16) by (unfold line; lia).
  pose proof (populate_coherent content line r Hc) as Hc1.
  destruct (Z.leb_spec (a mod 16 + size) 16) as [Hone|Hcross].
  - cbn [fst snd]. rewrite populate_get by assumption.
    rewrite slice_range_driver by lia.
    replace (line + a mod 16) with a by (unfold line; lia).
    replace (a mod 16 + size - a mod 16) with size by lia.
    repeat split; try assumption; try lia.
    pose proof (populate_log (range_driver content) line r). lia.
  - cbn [fst snd].
    assert (Hnext : Z.land (line + (a mod 16 + size)) CACHE_LINE_MASK = line + 16).
    { assert (Hq : line = 16 * (a / 16))
        by (unfold line; pose proof (Z.div_mod a 16); lia).
      rewrite land_mask by lia.
      replace (line + (a mod 16 + size))
        with ((a mod 16 + size - 16) + (a / 16 + 1) * 16) by lia.
      rewrite Z.mod_add by lia.
      rewrite (Z.mod_small (a mod 16 + size - 16)) by lia. lia. }
    rewrite Hnext.
    set (r1 := populate (range_driver content) line r) in *.
    pose proof (populate_coherent content (line + 16) r1 Hc1) as Hc2.
    rewrite (populate_get content (line + 16) r1 Hc1).
    assert (Hg1 : cache_get line (populate (range_driver content) (line + 16) r1)
                  = range_driver content line 16).
    { destruct (populate_present (range_driver content) line r) as [d Hd]. fold r1 in Hd.
      unfold cache_get.
      rewrite (populate_keeps _ _ _ _ _ Hd). simpl.
      apply (Hc1 _ _ Hd). }
    rewrite Hg1.
    unfold slice_from, slice_to.
    replace (Z.of_nat (length (range_driver content line 16))) with 16
      by (unfold range_driver; rewrite length_fmap, length_seqZ; reflexivity).
    rewrite !slice_range_driver by lia.
    assert (Hd : range_driver content (line + a mod 16) (16 - a mod 16)
                 ++ range_driver content (line + 16 + 0) (a mod 16 + size - 16 - 0)
                 = range_driver content a size).
    { unfold range_driver. rewrite <- fmap_app. f_equal.
      transitivity (seqZ a ((16 - a mod 16) + (a mod 16 + size - 16 - 0))).
      - rewrite seqZ_app by lia. f_equal; f_equal; unfold line; lia.
      - f_equal. lia. }
    rewrite Hd.
    repeat split; try assumption; try lia.
    pose proof (populate_log (range_driver content) line r).
    pose proof (populate_log (range_driver content) (line + 16) r1).
    fold r1 in H. lia.
Qed.


(** The request [ioRequest(13, 5)] on an empty cache straddles the lines at
    0 and 16. *)
Lemma ioRequest_exact_witness :
  let r := resource 8 8 0 0 in
  let res := ioRequest counting_driver 13 5 r in
  res.1 = counting_driver (13 + baseAddress r) 5
  /\ length res.1 = Z.to_nat 5
  /\ (length (driver_log res.2) <= length (driver_log r) + 2)%nat
  /\ (CACHE_LINE_SIZE < 5 -> driver_log res.2 = (13 + baseAddress r, 5) :: driver_log r)
  /\ cache_coherent counting_driver res.2.
Proof.
  apply (ioRequest_exact (fun i => i mod 256) (resource 8 8 0 0) 13 5).
  - intros line data. cbn [resource cache]. rewrite lookup_empty. discriminate.
  - split; [discriminate | reflexivity].
  - discriminate.
  - discriminate.
Defined.

Example ioRequest_straddles_two_lines :
  let res := ioRequest counting_driver 13 5 (resource 8 8 0 0) in
  res.1 = [13; 14; 15; 16; 17] /\ driver_log res.2 = [(16, 16); (0, 16)].
Proof. vm_compute. split; reflexivity. Qed.

(** Scenario S6 of the specification: [ioRequest(0, 9)] then
    [ioRequest(13, 2)] issue one driver read, the two ranges share a line. *)
Example ioRequest_shared_line :
  let r1 := (ioRequest counting_driver 0 9 (resource 8 8 0 0)).2 in
  driver_log (ioRequest counting_driver 13 2 r1).2 = [(0, 16)].
Proof. vm_compute. reflexivity. Qed.

(** C5 (amended).  Two successive calls [ioRequest(pos, size)] with the
    same arguments: when [size] is at most the line size the second call
    returns the same bytes and leaves the resource object, and with it the
    list of driver reads, unchanged; when [size] exceeds the line size the
    request goes past the cache both times, so the second call returns the
    same bytes and issues exactly one more driver read. *)

Theorem ioRequest_idempotent (drv : Z -> Z -> bytes) (r : H5Coro) (pos size : Z) :
  let res := ioRequest drv pos size r in
  (size <= CACHE_LINE_SIZE -> ioRequest drv pos size res.2 = res) /\
  (CACHE_LINE_SIZE < size ->
     (ioRequest drv pos size res.2).1 = res.1 /\
     driver_log (ioRequest drv pos size res.2).2
       = (pos + baseAddress r, size) :: driver_log res.2).
Proof.
  unfold ioRequest. split.
  - intros Hs. destruct (Z.leb_spec size CACHE_LINE_SIZE); [|lia].
    set (line := Z.land (pos + baseAddress r) CACHE_LINE_MASK).
    destruct (Z.leb_spec (pos + baseAddress r - line + size) CACHE_LINE_SIZE).
    + cbn [fst snd]. rewrite populate_base. fold line.
      destruct (Z.leb_spec (pos + baseAddress r - line + size) CACHE_LINE_SIZE); [|lia].
      rewrite (populate_id drv line (populate drv line r)) by apply populate_present.
      reflexivity.
    + cbn [fst snd]. rewrite !populate_base. fold line.
      destruct (Z.leb_spec (pos + baseAddress r - line + size) CACHE_LINE_SIZE); [lia|].
      set (next := Z.land (line + (pos + baseAddress r - line + size)) CACHE_LINE_MASK).
      set (r1 := populate drv line r). set (r2 := populate drv next r1).
      assert (E1 : populate drv line r2 = r2).
      { apply populate_id. destruct (populate_present drv line r) as [d Hd].
        exists d. apply populate_keeps. exact Hd. }
      rewrite E1.
      rewrite (populate_id drv next r2) by apply populate_present.
      reflexivity.
  - intros Hs. destruct (Z.leb_spec size CACHE_LINE_SIZE); [lia|].
    simpl. split; reflexivity.
Qed.


Lemma ioRequest_idempotent_witness :
  let r1 := (ioRequest counting_driver 13 5 (resource 8 8 0 0)).2 in
  ioRequest counting_driver 13 5 r1
  = ioRequest counting_driver 13 5 (resource 8 8 0 0).
Proof.
  apply (proj1 (ioRequest_idempotent counting_driver
                  (resource 8 8 0 0) 13 5)).
  discriminate.
Defined.

(** C5 as stated fails on the bypass path: the second [ioRequest(0, 17)]
    issues a driver read. *)
Lemma ioRequest_bypass_reads_again :
  let r1 := (ioRequest counting_driver 0 17 (resource 8 8 0 0)).2 in
  let r2 := (ioRequest counting_driver 0 17 r1).2 in
  driver_log r1 = [(0, 17)]
  /\ driver_log r2 = [(0, 17); (0, 17)]
  /\ length (driver_log r2) <> length (driver_log r1).
Proof. vm_compute. repeat split; discriminate. Qed.

(** ** Object-header iteration *)

(** C1.  One turn of the loop of [readMessagesV0] on a dataspace message
    whose handler returns [msg_size] without setting [datasetFound]: the
    handler has already moved the cursor over the body, and the loop adds
    the bytes read once more, so the turn ends [2 * msg_size] bytes past the
    start of the body, not [msg_size]. *)
Theorem readMessagesV0_iter_counts_twice cfg fuel end_of_hdr flags s sz s1 n s2 :
  readMessagesV0_prefix cfg flags s = (Ret (DATASPACE_MSG, sz), s1) ->
  dataspaceMsgHandler cfg sz flags s1 = (Ret n, s2) ->
  n = sz ->
  datasetFound s2 = false ->
  exists s',
    readMessagesV0_iter cfg (readMessage cfg (S fuel)) end_of_hdr flags s
      = (Ret false, s')
    /\ pos s' = pos s1 + 2 * sz.
Proof.
  intros Hp Hh -> Hf.
  exists (set_pos (pos s2 + sz) s2). split.
  - unfold readMessagesV0_iter.
    rewrite (bind_ret _ _ _ _ _ Hp).
    assert (Hrm : readMessage cfg (S fuel) DATASPACE_MSG sz flags s1 = (Ret sz, s2)).
    { rewrite readMessage_S.
      apply readMessage_body_returns with (h := dataspaceMsgHandler cfg); [reflexivity|exact Hh]. }
    rewrite (bind_ret _ _ _ _ _ Hrm).
    rewrite Z.eqb_refl, andb_false_r.
    unfold when_, skip. rewrite bind_run. cbn [mret M_ret].
    rewrite bind_run. cbn [gets]. rewrite Hf.
    reflexivity.
  - unfold dataspaceMsgHandler in Hh. apply consumed_advances in Hh.
    cbn [pos set_pos]. lia.
Qed.

(** The header of [dataspace_file]: body at 12, [msg_size] 16, end of the
    messages at 28; the turn leaves the cursor at 44. *)
Lemma readMessagesV0_iter_counts_twice_witness :
  exists s',
    readMessagesV0_iter (config dataspace_file false false)
      (readMessage (config dataspace_file false false) 1) 28 0 (worker "x" 8)
      = (Ret false, s')
    /\ pos s' = 12 + 2 * 16.
Proof.
  pose (cfg := config dataspace_file false false).
  pose (s1 := (readMessagesV0_prefix cfg 0 (worker "x" 8)).2).
  pose (s2 := (dataspaceMsgHandler cfg 16 0 s1).2).
  apply (readMessagesV0_iter_counts_twice cfg 0 28 0 (worker "x" 8) 16 s1 16 s2).
  - vm_compute. reflexivity.
  - vm_compute. reflexivity.
  - reflexivity.
  - vm_compute. reflexivity.
Defined.

(** With error checking on, as the module sets it, the handler raises after
    8 bytes, [readMessage] answers 16 and the cursor ends at 12 + 8 + 16. *)
Example readMessagesV0_iter_checked_dataspace :
  let cfg := config dataspace_file true true in
  let r := readMessagesV0_iter cfg (readMessage cfg 1) 28 0 (worker "x" 8) in
  r.1 = Ret false /\ pos r.2 = 36.
Proof. vm_compute. split; reflexivity. Qed.

(** The walk of the same header then fails its own check of the end
    position. *)
Example readObjHdr_checked_dataspace :
  let cfg := config dataspace_file true true in
  (readObjHdr cfg 2 (readMessage cfg 2) (worker "x" 0)).1
  = Raise (FatalError "did not read correct number of bytes" [36; 28]).
Proof. vm_compute. reflexivity. Qed.

(** ** Link-info and attribute-info: the fractal heap *)

(** The table holds [2^(8w) - 1] for each width [w]. *)
Lemma INVALID_VALUE_sentinel w inv :
  INVALID_VALUE w = Some inv -> inv = 2 ^ (8 * w) - 1.
Proof.
  unfold INVALID_VALUE.
  repeat match goal with
  | |- context [?a =? ?b] => destruct (Z.eqb_spec a b) as [->|]
  end; intros [= <-]; reflexivity.
Qed.

(** The fractal heap reader has no normal exit: it ends in an exception
    whatever the file holds. *)
Lemma readFractalHeap_never_returns cfg msg_type heap_address fl s n s' :
  readFractalHeap cfg msg_type heap_address fl s <> (Ret n, s').
Proof.
  unfold readFractalHeap.
  do 28 run_step.
  rewrite bind_run.
  destruct (cfg_errorChecking cfg).
  - unfold when_ at 1.
    rewrite bind_run.
    destruct (negb (_ =? H5_FRHP_SIGNATURE_LE)); [discriminate|].
    unfold when_ at 1, skip at 1. cbn [mret M_ret].
    destruct (negb (_ =? 0)); [discriminate|].
    unfold when_ at 1, skip at 1. cbn [mret M_ret].
    rewrite bind_run. unfold when_ at 1.
    destruct (0 <? _).
    + do 2 run_step.
    + unfold skip at 1. cbn [mret M_ret]. rewrite bind_run.
      unfold advance, modify. destruct (_ =? 0); discriminate.
  - unfold when_ at 1, skip at 1. cbn [mret M_ret].
    rewrite bind_run. unfold when_ at 1.
    destruct (0 <? _).
    + do 2 run_step.
    + unfold skip at 1. cbn [mret M_ret]. rewrite bind_run.
      unfold advance, modify. destruct (_ =? 0); discriminate.
Qed.

(** C2.  The test before the descent is inverted: with [inv] the null
    sentinel of the offset width, a heap address different from [inv] is
    not followed (the state is untouched, nothing is read), and the heap
    address [inv] is followed into [readFractalHeap], from which the
    handler cannot return normally. *)
Theorem follow_heap_inverted cfg msg_type heap_address fl s inv :
  INVALID_VALUE (offsetSize (resourceObject s)) = Some inv ->
  (heap_address <> inv ->
     follow_heap cfg msg_type heap_address fl s = (Ret tt, s)) /\
  (heap_address = inv ->
     follow_heap cfg msg_type heap_address fl s
     = (_ ← readFractalHeap cfg msg_type heap_address fl; skip) s
     /\ forall s', follow_heap cfg msg_type heap_address fl s <> (Ret tt, s')).
Proof.
  intros Hinv.
  assert (Hi : invalid_offset s = (Ret inv, s)).
  { unfold invalid_offset, offset_size. rewrite bind_run. cbn [gets]. rewrite Hinv. reflexivity. }
  unfold follow_heap. rewrite (bind_ret _ _ _ _ _ Hi). split.
  - intros Hne. apply Z.eqb_neq in Hne. rewrite Hne. reflexivity.
  - intros ->. rewrite Z.eqb_refl. split; [reflexivity|].
    intros s'. cbn [when_]. rewrite bind_run.
    pose proof (readFractalHeap_never_returns cfg msg_type inv fl s) as Hnever.
    destruct (readFractalHeap cfg msg_type inv fl s) as [[n|e|] s1]; try discriminate.
    exfalso. exact (Hnever n s1 eq_refl).
Qed.

Lemma follow_heap_inverted_witness :
  follow_heap (config [] true true) LINK_MSG 256 0 (worker "x" 0)
  = (Ret tt, worker "x" 0).
Proof.
  apply (follow_heap_inverted (config [] true true) LINK_MSG 256 0 (worker "x" 0)
           0xFFFFFFFFFFFFFFFF); [reflexivity | lia].
Defined.

(** On a link-info message with heap address [0x100] the handler returns
    the 18 bytes of the body and reads nothing else; with the null heap
    address it reads a heap header at the cursor and fails on its
    signature. *)
Example linkinfo_present_heap_not_followed :
  let cfg := config (linkinfo_file 0 present_heap) true true in
  let r := linkinfoMsgHandler cfg 18 0 (worker "x" 12) in
  r.1 = Ret 18 /\ pos r.2 = 30 /\
  driver_log (resourceObject r.2) = [(16, 16); (0, 16)].
Proof. vm_compute. repeat split; reflexivity. Qed.

Example linkinfo_null_heap_followed :
  let cfg := config (linkinfo_file 0 null_heap) true true in
  let r := linkinfoMsgHandler cfg 18 0 (worker "x" 12) in
  r.1 = Raise (FatalError "invalid heap signature" [0]) /\ pos r.2 = 172.
Proof. vm_compute. repeat split; reflexivity. Qed.

Example attributeinfo_null_heap_followed :
  let cfg := config (linkinfo_file 0 null_heap) false false in
  let r := attributeinfoMsgHandler cfg 18 0 (worker "x" 12) in
  r.1 = Raise (PyError (TypeError "readDirectBlock")) /\ pos r.2 = 176.
Proof. vm_compute. repeat split; reflexivity. Qed.

Example attributeinfo_present_heap_not_followed :
  let cfg := config (linkinfo_file 0 present_heap) false false in
  let r := attributeinfoMsgHandler cfg 18 0 (worker "x" 12) in
  r.1 = Ret 18 /\ pos r.2 = 30.
Proof. vm_compute. repeat split; reflexivity. Qed.

(** ** The dataspace handler *)

(** C3.  With error checking on, once the three header fields are read the
    dataspace handler raises the unsupported-version error for every value
    of the version field, 1 and 2 included: [version != 1 or version != 2]
    holds of every integer. *)
Theorem dataspaceMsgHandler_rejects_every_version cfg sz fl s version s1 dimensionality s2 flags s3 :
  cfg_errorChecking cfg = true ->
  readField cfg 1 s = (Ret version, s1) ->
  readField cfg 1 s1 = (Ret dimensionality, s2) ->
  readField cfg 1 s2 = (Ret flags, s3) ->
  dataspaceMsgHandler cfg sz fl s
  = (Raise (FatalError "unsupported dataspace version" [version]),
     set_pos (pos s3 + (if version =? 1 then 5 else 1)) s3).
Proof.
  intros Hec H1 H2 H3.
  unfold dataspaceMsgHandler, consumed.
  rewrite bind_run. cbn [gets].
  apply bind_raise.
  rewrite (bind_ret _ _ _ _ _ H1), (bind_ret _ _ _ _ _ H2), (bind_ret _ _ _ _ _ H3).
  rewrite bind_run. unfold advance at 1, modify at 1.
  apply bind_raise. rewrite Hec. unfold when_ at 1.
  apply bind_raise.
  assert (Hv : negb (version =? 1) || negb (version =? 2) = true).
  { destruct (Z.eqb_spec version 1) as [->|]; reflexivity. }
  rewrite Hv. reflexivity.
Qed.

Lemma dataspaceMsgHandler_rejects_every_version_witness :
  let cfg := config dataspace_file true true in
  (dataspaceMsgHandler cfg 16 0 (worker "x" 12)).1
  = Raise (FatalError "unsupported dataspace version" [1]).
Proof.
  intros cfg.
  pose (s := worker "x" 12).
  pose (s1 := (readField cfg 1 s).2).
  pose (s2 := (readField cfg 1 s1).2).
  pose (s3 := (readField cfg 1 s2).2).
  apply (f_equal fst
    (dataspaceMsgHandler_rejects_every_version cfg 16 0 s 1 s1 1 s2 0 s3
       eq_refl ltac:(vm_compute; reflexivity) ltac:(vm_compute; reflexivity)
       ltac:(vm_compute; reflexivity))).
Defined.

Example dataspaceMsgHandler_rejects_version_2 :
  let file := [2; 1; 0; 0; 100; 0; 0; 0; 0; 0; 0; 0] in
  (dataspaceMsgHandler (config file true true) 12 0 (worker "x" 0)).1
  = Raise (FatalError "unsupported dataspace version" [2]).
Proof. vm_compute. reflexivity. Qed.

(** Without error checking the same message is parsed. *)
Example dataspaceMsgHandler_unchecked_accepts :
  let file := [2; 1; 0; 0; 100; 0; 0; 0; 0; 0; 0; 0] in
  let r := dataspaceMsgHandler (config file false true) 12 0 (worker "x" 0) in
  r.1 = Ret 12 /\ ndims r.2 = Some 1 /\ dimensions r.2 = [100].
Proof. vm_compute. repeat split; reflexivity. Qed.

(** ** An invariant of the walk: [datasetFound] is never set *)

Section Preserves.

Variable P : Dataset -> Prop.

Lemma preserves_ret {A} (a : A) : preserves P (mret a).
Proof. intros s H. exact H. Qed.

Lemma preserves_raise {A} (e : exn) : preserves P (@raise A e).
Proof. intros s H. exact H. Qed.

Lemma preserves_out_of_fuel {A} : preserves P (@out_of_fuel A).
Proof. intros s H. exact H. Qed.

Lemma preserves_gets {A} (f : Dataset -> A) : preserves P (gets f).
Proof. intros s H. exact H. Qed.

Lemma preserves_modify (f : Dataset -> Dataset) :
  (forall s, P s -> P (f s)) -> preserves P (modify f).
Proof. intros Hf s H. apply Hf, H. Qed.

Lemma preserves_bind {A B} (c : M A) (k : A -> M B) :
  preserves P c -> (forall a, preserves P (k a)) -> preserves P (x ← c; k x).
Proof.
  intros Hc Hk s H. specialize (Hc s H).
  change ((x ← c; k x) s) with
    (match c s with
     | (Ret a, s1) => k a s1
     | (Raise e, s1) => (Raise e, s1)
     | (OutOfFuel, s1) => (OutOfFuel, s1)
     end).
  destruct (c s) as [[a|e|] s1]; cbn [snd] in *; [apply Hk, Hc | exact Hc | exact Hc].
Qed.

Lemma preserves_try {A} (c h : M A) :
  preserves P c -> preserves P h -> preserves P (try_except_FatalError c h).
Proof.
  intros Hc Hh s H. specialize (Hc s H). unfold try_except_FatalError.
  destruct (c s) as [[a|[m v|e]|] s1]; cbn [snd] in *; try exact Hc.
  apply Hh, Hc.
Qed.

Lemma preserves_for_each {A} (l : list A) (body : A -> M unit) :
  (forall x, preserves P (body x)) -> preserves P (for_each l body).
Proof.
  intros Hb. induction l as [|x l IH]; cbn [for_each].
  - apply preserves_ret.
  - apply preserves_bind; [apply Hb | intros _; exact IH].
Qed.

Lemma preserves_for_each_break {A} (l : list A) (body : A -> M bool) :
  (forall x, preserves P (body x)) -> preserves P (for_each_break l body).
Proof.
  intros Hb. induction l as [|x l IH]; cbn [for_each_break].
  - apply preserves_ret.
  - apply preserves_bind; [apply Hb | intros [|]; [apply preserves_ret | exact IH]].
Qed.

End Preserves.

Lemma not_found_resource_ioRequest cfg p size :
  preserves not_found (resource_ioRequest cfg p size).
Proof.
  intros s H. unfold resource_ioRequest.
  destruct (ioRequest (cfg_driver cfg) p size (resourceObject s)) as [raw r]. exact H.
Qed.

Create HintDb not_found discriminated.

(** Splits a method along its binds, branches and loops; the calls of
    methods already shown to keep the invariant are closed from the hint
    database. *)
Ltac preserves_step :=
  first
    [ solve [auto 1 with not_found nocore]
    | apply preserves_bind; [|intros ?]
    | apply preserves_ret
    | apply preserves_raise
    | apply preserves_out_of_fuel
    | apply preserves_gets
    | apply preserves_modify; intros ? ?; assumption
    | apply preserves_for_each; intros ?
    | apply preserves_for_each_break; intros ?
    | apply preserves_try
    | apply not_found_resource_ioRequest
    | match goal with
      | |- preserves _ (if ?b then _ else _) => destruct b
      | |- preserves _ (match ?x with _ => _ end) => destruct x
      | |- preserves _ (let '(_, _) := ?x in _) => destruct x
      end ].

Ltac preserves_auto :=
  unfold consumed, when_, skip, fatal, advance, advance_by_call,
         offset_size, length_size, invalid_offset, unpack, path_component;
  repeat preserves_step.

Lemma not_found_readField cfg size : preserves not_found (readField cfg size).
Proof. unfold readField. preserves_auto. Qed.

Lemma not_found_readArray cfg size : preserves not_found (readArray cfg size).
Proof. unfold readArray. preserves_auto. Qed.

#[local] Hint Resolve not_found_readField not_found_readArray : not_found.

Lemma not_found_dataspaceMsgHandler cfg sz fl :
  preserves not_found (dataspaceMsgHandler cfg sz fl).
Proof. unfold dataspaceMsgHandler. preserves_auto. Qed.

Lemma not_found_datatypeMsgHandler cfg sz fl :
  preserves not_found (datatypeMsgHandler cfg sz fl).
Proof. unfold datatypeMsgHandler. preserves_auto. Qed.

Lemma not_found_fillvalueMsgHandler cfg sz fl :
  preserves not_found (fillvalueMsgHandler cfg sz fl).
Proof. unfold fillvalueMsgHandler. preserves_auto. Qed.

Lemma not_found_datalayoutMsgHandler cfg sz fl :
  preserves not_found (datalayoutMsgHandler cfg sz fl).
Proof. unfold datalayoutMsgHandler. preserves_auto. Qed.

Lemma not_found_filterMsgHandler cfg sz fl :
  preserves not_found (filterMsgHandler cfg sz fl).
Proof. unfold filterMsgHandler. preserves_auto. Qed.

Lemma not_found_attributeMsgHandler cfg sz fl :
  preserves not_found (attributeMsgHandler cfg sz fl).
Proof. unfold attributeMsgHandler. preserves_auto. Qed.

Lemma not_found_readFractalHeap cfg t h fl :
  preserves not_found (readFractalHeap cfg t h fl).
Proof. unfold readFractalHeap. preserves_auto. Qed.

#[local] Hint Resolve not_found_readFractalHeap : not_found.

Lemma not_found_linkinfoMsgHandler cfg sz fl :
  preserves not_found (linkinfoMsgHandler cfg sz fl).
Proof. unfold linkinfoMsgHandler, follow_heap. preserves_auto. Qed.

Lemma not_found_attributeinfoMsgHandler cfg sz fl :
  preserves not_found (attributeinfoMsgHandler cfg sz fl).
Proof. unfold attributeinfoMsgHandler, follow_heap. preserves_auto. Qed.

Lemma not_found_readSymbolTable cfg heap :
  preserves not_found (readSymbolTable cfg heap).
Proof. unfold readSymbolTable. preserves_auto. Qed.

#[local] Hint Resolve not_found_readSymbolTable : not_found.

Section WalkerInvariant.

Variable cfg : Config.
Variable fuel : nat.
Variable rm : Z -> Z -> Z -> M Z.
Hypothesis rm_not_found : forall t sz fl, preserves not_found (rm t sz fl).

Lemma not_found_readMessagesV0_loop n e fl :
  preserves not_found (readMessagesV0_loop cfg rm n e fl).
Proof.
  induction n as [|n IH]; cbn [readMessagesV0_loop];
    unfold readMessagesV0_iter, readMessagesV0_prefix; preserves_auto.
Qed.

Lemma not_found_readMessagesV1_loop n e fl :
  preserves not_found (readMessagesV1_loop cfg rm n e fl).
Proof.
  induction n as [|n IH]; cbn [readMessagesV1_loop];
    unfold readMessagesV1_iter; preserves_auto.
Qed.

#[local] Hint Resolve not_found_readMessagesV0_loop not_found_readMessagesV1_loop
  : not_found.

Lemma not_found_readMessagesV1 e fl :
  preserves not_found (readMessagesV1 cfg fuel rm e fl).
Proof. unfold readMessagesV1. preserves_auto. Qed.

#[local] Hint Resolve not_found_readMessagesV1 : not_found.

Lemma not_found_readObjHdr : preserves not_found (readObjHdr cfg fuel rm).
Proof.
  unfold readObjHdr, readObjHdrV0, readObjHdrV1, readMessagesV0. preserves_auto.
Qed.

#[local] Hint Resolve not_found_readObjHdr : not_found.

Lemma not_found_linkMsgHandler sz fl :
  preserves not_found (linkMsgHandler cfg fuel rm sz fl).
Proof. unfold linkMsgHandler. preserves_auto. Qed.

Lemma not_found_headercontMsgHandler sz fl :
  preserves not_found (headercontMsgHandler cfg fuel rm sz fl).
Proof. unfold headercontMsgHandler. preserves_auto. Qed.

Lemma not_found_symboltable_descend n :
  preserves not_found (symboltable_descend cfg n).
Proof. induction n as [|n IH]; cbn [symboltable_descend]; preserves_auto. Qed.

Lemma not_found_symboltable_traverse n heap :
  preserves not_found (symboltable_traverse cfg n heap).
Proof. induction n as [|n IH]; cbn [symboltable_traverse]; preserves_auto. Qed.

#[local] Hint Resolve not_found_symboltable_descend not_found_symboltable_traverse
  : not_found.

Lemma not_found_symboltableMsgHandler sz fl :
  preserves not_found (symboltableMsgHandler cfg fuel sz fl).
Proof. unfold symboltableMsgHandler. preserves_auto. Qed.

Lemma not_found_readMessage_body t sz fl :
  preserves not_found (readMessage_body cfg fuel rm t sz fl).
Proof.
  unfold readMessage_body, msg_handler_table.
  repeat match goal with
  | |- context [if ?a =? ?b then _ else _] => destruct (a =? b)
  end;
  first
    [ apply preserves_raise
    | apply preserves_try; [|apply preserves_ret] ].
  - apply not_found_dataspaceMsgHandler.
  - apply not_found_linkinfoMsgHandler.
  - apply not_found_datatypeMsgHandler.
  - apply not_found_fillvalueMsgHandler.
  - apply not_found_linkMsgHandler.
  - apply not_found_datalayoutMsgHandler.
  - apply not_found_filterMsgHandler.
  - apply not_found_attributeMsgHandler.
  - apply not_found_headercontMsgHandler.
  - apply not_found_symboltableMsgHandler.
  - apply not_found_attributeinfoMsgHandler.
Qed.

End WalkerInvariant.

Lemma not_found_readMessage cfg fuel t sz fl :
  preserves not_found (readMessage cfg fuel t sz fl).
Proof.
  revert t sz fl. induction fuel as [|fuel IH]; intros t sz fl.
  - apply preserves_out_of_fuel.
  - cbn [readMessage]. apply not_found_readMessage_body. exact IH.
Qed.

(** X17.  No run of the walker sets [datasetFound]: of the two assignments of
    the source, the one in [attributeMsgHandler] lies behind the call of
    [datasetPath.length()] and the one in [readSymbolTable] behind the read
    of [resourceObject.offsetsize], and both raise [AttributeError]. *)
Theorem readObjHdr_never_finds cfg fuel s :
  datasetFound s = false ->
  datasetFound (readObjHdr cfg fuel (readMessage cfg fuel) s).2 = false.
Proof.
  intros H. apply (not_found_readObjHdr cfg fuel (readMessage cfg fuel)); [|exact H].
  intros t sz fl. apply not_found_readMessage.
Qed.

(** ** Errors inside [readMessage] *)

(** The loop of [readMessagesV1] calls [readMessage] right after the
    prefix. *)
Lemma readMessagesV1_iter_prefix cfg rm end_of_hdr fl s :
  readMessagesV1_iter cfg rm end_of_hdr fl s
  = ('(msg_type, msg_size) ← readMessagesV1_prefix cfg;
     bytes_read0 ← rm msg_type msg_size fl;
     let bytes_read := bytes_read0 + pad8 bytes_read0 in
     when_ (cfg_errorChecking cfg && negb (bytes_read =? msg_size))
       (fatal "header message different size than specified" [bytes_read; msg_size]);;
     found ← gets datasetFound;
     if found : bool then
       modify (set_pos end_of_hdr);;
       mret true
     else
       advance bytes_read;;
       mret false) s.
Proof.
  unfold readMessagesV1_iter, readMessagesV1_prefix.
  rewrite !bind_run.
  destruct (readField cfg 2 s) as [[msg_type|e|] s1]; [|reflexivity|reflexivity].
  rewrite !bind_run.
  destruct (readField cfg 2 s1) as [[msg_size|e|] s2]; [|reflexivity|reflexivity].
  rewrite !bind_run.
  destruct (readField cfg 1 s2) as [[msg_flags|e|] s3]; [|reflexivity|reflexivity].
  rewrite !bind_run.
  destruct (cfg_errorChecking cfg).
  - rewrite !bind_run.
    destruct (readField cfg 1 s3) as [[reserved1|e|] s4]; [|reflexivity|reflexivity].
    rewrite !bind_run.
    destruct (readField cfg 2 s4) as [[reserved2|e|] s5]; [|reflexivity|reflexivity].
    destruct (negb (reserved1 =? 0) && negb (reserved2 =? 0)); reflexivity.
  - reflexivity.
Qed.

Lemma pad8_aligned (n : Z) : (n + pad8 n =? n) = (n mod 8 =? 0).
Proof.
  unfold pad8.
  pose proof (Z.mod_pos_bound n 8 ltac:(lia)) as Hn.
  destruct (Z.eqb_spec (n mod 8) 0) as [H0|H0].
  - rewrite H0. change ((8 - 0) mod 8) with 0. apply Z.eqb_eq. lia.
  - rewrite (Z.mod_small (8 - n mod 8) 8) by lia. apply Z.eqb_neq. lia.
Qed.



(** The same message under version-0 framing, in the header of
    [linkinfo_file]: the turn ends normally. *)
Example caught_error_v0_turn :
  let cfg := config (linkinfo_file 1 present_heap) true true in
  (linkinfoMsgHandler cfg 18 0 (worker "x" 12)).1
  = Raise (FatalError "unsupported link info version" [1])
  /\ (readMessagesV0_iter cfg (readMessage cfg 1) 30 0 (worker "x" 8)).1 = Ret false.
Proof. vm_compute. split; reflexivity. Qed.


(** An unknown message type is not skipped: the table lookup raises
    [KeyError], which is not a [FatalError]. *)
Example unknown_message_type_propagates :
  let cfg := config (linkinfo_file 1 present_heap) true true in
  (readMessage cfg 1 0x7 18 0 (worker "x" 12)).1 = Raise (PyError (KeyError 0x7)).
Proof. vm_compute. reflexivity. Qed.

(** ** [readDataset]: the fill value *)

(** C9.  When the dataset is not meta-only, the buffer is not empty, the
    layout is chunked and [fillsize > 0], the allocation step raises
    [AttributeError] on [self.fill]: the buffer is never filled with
    [fillvalue] and no chunk is read after it. *)
Theorem readDataset_allocate_never_fills (buffer_size : Z) (s : Dataset) :
  metaOnly s = false ->
  0 < buffer_size ->
  layout s = Some CHUNKED_LAYOUT ->
  0 < fillsize s ->
  readDataset_allocate buffer_size s = (Raise (PyError (AttributeError "fill")), s).
Proof.
  intros Hm Hb Hl Hf. unfold readDataset_allocate.
  rewrite bind_run. cbn [gets]. rewrite bind_run. cbn [gets].
  rewrite Hm, Hl. apply Z.ltb_lt in Hb. rewrite Hb. cbn [negb andb].
  rewrite bool_decide_eq_true_2 by reflexivity.
  rewrite bind_run. cbn [gets]. apply Z.ltb_lt in Hf. rewrite Hf. reflexivity.
Qed.

Lemma readDataset_allocate_never_fills_witness :
  readDataset_allocate 40 chunked_with_fill
  = (Raise (PyError (AttributeError "fill")), chunked_with_fill).
Proof.
  apply readDataset_allocate_never_fills; [reflexivity | lia | reflexivity | vm_compute; reflexivity].
Defined.

Example readDataset_body_chunked_with_fill :
  (readDataset_body (config [] true true) chunked_with_fill).1
  = Raise (PyError (AttributeError "fill")).
Proof. vm_compute. reflexivity. Qed.

(** The same end to end: the walk of [chunked_fill_file] collects type,
    dimensions, fill value and chunked layout, and [readDataset] stops at
    [self.fill]. *)
Example readDataset_chunked_fill_file :
  let cfg := config chunked_fill_file false false in
  let walk := readObjHdr cfg 5 (readMessage cfg 5) (H5Dataset (resource 8 8 0 0) "d") in
  (walk.1 = Ret tt /\ typeSize walk.2 = 4 /\ ndims walk.2 = Some 1
   /\ dimensions walk.2 = [10] /\ layout walk.2 = Some CHUNKED_LAYOUT
   /\ fillsize walk.2 = 4 /\ fillvalue walk.2 = Some 7)
  /\ (readDataset cfg 5 (H5Dataset (resource 8 8 0 0) "d")).1
     = Raise (PyError (AttributeError "fill")).
Proof. vm_compute. repeat split; reflexivity. Qed.

(** The fill-value handler stores what it parses in [fillsize] and
    [fillvalue]: version 2, defined, 4 bytes, value 7. *)
Example fillvalueMsgHandler_stores_fillvalue :
  let file := [2; 0; 0; 1; 4; 0; 0; 0; 7; 0; 0; 0] in
  let r := fillvalueMsgHandler (config file true true) 12 0 (worker "d" 0) in
  r.1 = Ret 12 /\ fillsize r.2 = 4 /\ fillvalue r.2 = Some 7.
Proof. vm_compute. repeat split; reflexivity. Qed.

(** The allocation step binds the buffer only for a chunked, non-empty,
    non-meta read, and leaves the state as it was. *)
Lemma readDataset_allocate_Some buffer_size s b s' :
  readDataset_allocate buffer_size s = (Ret (Some b), s') ->
  s' = s /\ metaOnly s = false /\ (0 <? buffer_size) = true
  /\ layout s = Some CHUNKED_LAYOUT.
Proof.
  unfold readDataset_allocate.
  rewrite bind_run. cbn [gets]. rewrite bind_run. cbn [gets].
  destruct (metaOnly s); cbn [negb andb]; [cbn; discriminate|].
  destruct (0 <? buffer_size); [|cbn; discriminate].
  destruct (bool_decide (layout s = Some CHUNKED_LAYOUT)) eqn:Hl; [|cbn; discriminate].
  apply bool_decide_eq_true_1 in Hl.
  rewrite bind_run. cbn [gets]. rewrite bind_run.
  destruct (0 <? fillsize s); cbn; [discriminate|].
  intros [= <- <-]. auto.
Qed.

Lemma readDataset_read_never_returns cfg row_size buffer_size buffer s s' :
  (forall b, buffer = Some b ->
     metaOnly s = false /\ (0 <? buffer_size) = true /\ layout s = Some CHUNKED_LAYOUT) ->
  readDataset_read cfg row_size buffer_size buffer s <> (Ret tt, s').
Proof.
  intros Hb. unfold readDataset_read.
  destruct buffer as [b|]; [|discriminate].
  destruct (Hb b eq_refl) as (Hm & Hs & Hl). clear Hb.
  change (bool_decide (is_Some (Some b))) with true.
  rewrite bind_run. cbn [negb when_ skip mret M_ret].
  do 3 (rewrite bind_run; cbn [gets]).
  rewrite bind_run.
  destruct (negb _); cbn [when_ skip mret M_ret fatal raise]; [discriminate|].
  do 4 (rewrite bind_run; cbn [gets]).
  rewrite Hm, Hs, Hl. cbn [negb andb].
  rewrite (bool_decide_eq_false_2 (Some CHUNKED_LAYOUT = Some COMPACT_LAYOUT)) by discriminate.
  rewrite (bool_decide_eq_false_2 (Some CHUNKED_LAYOUT = Some CONTIGUOUS_LAYOUT)) by discriminate.
  rewrite (bool_decide_eq_true_2 (Some CHUNKED_LAYOUT = Some CHUNKED_LAYOUT)) by reflexivity.
  cbn [orb andb].
  rewrite bind_run.
  match goal with
  | |- context [match ?c s with _ => _ end] =>
      destruct (c s) as [[[]|?|] s1]; try discriminate
  end.
  cbn [when_]. rewrite bind_run.
  match goal with
  | |- context [match ?c s1 with _ => _ end] =>
      destruct (c s1) as [[[]|?|] s2]; try discriminate
  end.
Qed.

(** [readDataset] has no normal exit: whatever the walk found, the steps
    after it end in an exception. *)
Theorem readDataset_body_never_returns cfg s s' :
  readDataset_body cfg s <> (Ret tt, s').
Proof.
  unfold readDataset_body. rewrite bind_run.
  destruct (readDataset_sizes s) as [[[row_size buffer_size]|e|] s1]; try discriminate.
  rewrite bind_run.
  destruct (readDataset_allocate buffer_size s1) as [[buffer|e|] s2] eqn:Ha;
    try discriminate.
  apply readDataset_read_never_returns.
  intros b ->. apply readDataset_allocate_Some in Ha.
  destruct Ha as (-> & H). exact H.
Qed.

(** ** Dataset paths *)

Lemma split_slash_leading (p : string) :
  split_slash (String "/" p) = EmptyString :: split_slash p.
Proof. reflexivity. Qed.

(** A path always has a first component. *)
Lemma split_slash_nonempty (p : string) : split_slash p <> [].
Proof.
  induction p as [|c p IH]; [discriminate|]. cbn [split_slash].
  destruct (Ascii.eqb c "/"); [discriminate|].
  destruct (split_slash p); [contradiction|discriminate].
Qed.

(** C10.  A leading slash is not ignored.  The path ["/" + p] splits into
    the empty string followed by the components of [p], and the first
    component a link name is compared with is that empty string.  On
    [linked_file], whose root links [a] to a header with a datatype
    message, the walk for ["a"] follows the link (level 1, type size 4)
    and the walk for ["/a"] does not (level 0, no type); [readDataset]
    then fails on the missing dimensions for ["a"] and already on the
    missing type for ["/a"]. *)
Theorem leading_slash_not_ignored :
  (forall r p, datasetPath (H5Dataset r (String "/" p))
               = EmptyString :: datasetPath (H5Dataset r p))
  /\ (forall r p, path_component (H5Dataset r (String "/" p))
                  = (Ret EmptyString, H5Dataset r (String "/" p)))
  /\ let cfg := config linked_file false false in
     let plain := readObjHdr cfg 3 (readMessage cfg 3)
                    (H5Dataset (resource 8 8 0 0) "a") in
     let slashed := readObjHdr cfg 3 (readMessage cfg 3)
                      (H5Dataset (resource 8 8 0 0) "/a") in
     (plain.1 = Ret tt /\ datasetLevel plain.2 = 1 /\ typeSize plain.2 = 4)
     /\ (slashed.1 = Ret tt /\ datasetLevel slashed.2 = 0 /\ typeSize slashed.2 = 0)
     /\ (readDataset cfg 3 (H5Dataset (resource 8 8 0 0) "a")).1
        = Raise (FatalError "missing data dimension information" [])
     /\ (readDataset cfg 3 (H5Dataset (resource 8 8 0 0) "/a")).1
        = Raise (FatalError "missing data type information" []).
Proof.
  split; [|split].
  - intros r p. reflexivity.
  - intros r p. reflexivity.
  - vm_compute. repeat split; reflexivity.
Qed.

(** ** More on the byte-range cache *)

(** A cache line key is a multiple of the line size inside the 64-bit
    address space, whatever is masked. *)
Lemma land_mask_aligned (a : Z) :
  let line := Z.land a CACHE_LINE_MASK in
  line mod 16 = 0 /\ 0 <= line <= CACHE_LINE_MASK.
Proof.
  cbv zeta.
  assert (E : Z.land a CACHE_LINE_MASK = 16 * (Z.land (Z.shiftr a 4) (Z.ones 60))).
  { change CACHE_LINE_MASK with (Z.shiftl (Z.ones 60) 4).
    transitivity (Z.shiftl (Z.land (Z.shiftr a 4) (Z.ones 60)) 4).
    - apply Z.bits_inj'. intros n Hn.
      rewrite Z.land_spec.
      destruct (Z.lt_ge_cases n 4) as [H4|H4].
      + rewrite !Z.shiftl_spec_low by lia. apply andb_false_r.
      + rewrite !Z.shiftl_spec by lia. rewrite Z.land_spec, Z.shiftr_spec by lia.
        f_equal. f_equal. lia.
    - rewrite Z.shiftl_mul_pow2 by lia. change (2 ^ 4) with 16. lia. }
  rewrite E. split.
  - rewrite Z.mul_comm. apply Z.mod_mul. lia.
  - rewrite Z.land_ones by lia.
    pose proof (Z.mod_pos_bound (Z.shiftr a 4) (2 ^ 60) ltac:(lia)).
    unfold CACHE_LINE_MASK. lia.
Qed.

Lemma populate_params drv line r :
  offsetSize (populate drv line r) = offsetSize r
  /\ lengthSize (populate drv line r) = lengthSize r
  /\ baseAddress (populate drv line r) = baseAddress r
  /\ rootAddress (populate drv line r) = rootAddress r.
Proof. unfold populate. destruct (cache r !! line); repeat split; reflexivity. Qed.

Lemma populate_coherent_any drv line r :
  cache_coherent drv r -> cache_coherent drv (populate drv line r).
Proof.
  intros Hc. unfold populate. destruct (cache r !! line) eqn:E; [exact Hc|].
  intros l d. simpl. rewrite lookup_insert. case_decide; [|apply Hc].
  intros [= <-]. subst. reflexivity.
Qed.

Lemma populate_reads drv line r :
  line mod 16 = 0 -> 0 <= line <= CACHE_LINE_MASK ->
  (driver_log (populate drv line r) = driver_log r /\ populate drv line r = r)
  \/ (driver_log (populate drv line r) = (line, CACHE_LINE_SIZE) :: driver_log r
      /\ cache r !! line = None).
Proof.
  intros. unfold populate. destruct (cache r !! line) eqn:E; [left|right]; auto.
Qed.

(** The key of the second line of a request that straddles two lines. *)
Lemma next_line_key (a size : Z) :
  0 <= a < 2 ^ 64 -> a + size <= 2 ^ 64 -> size <= 16 -> 16 < a mod 16 + size ->
  Z.land (a - a mod 16 + (a - (a - a mod 16) + size)) CACHE_LINE_MASK
  = a - a mod 16 + 16.
Proof.
  intros Ha Hmax Hs Hcross.
  pose proof (Z.mod_pos_bound a 16 ltac:(lia)) as Hm.
  pose proof (Z.div_mod a 16 ltac:(lia)) as Hq.
  rewrite land_mask by lia.
  replace (a - a mod 16 + (a - (a - a mod 16) + size))
    with ((a mod 16 + size - 16) + (a / 16 + 1) * 16) by lia.
  rewrite Z.mod_add by lia.
  rewrite (Z.mod_small (a mod 16 + size - 16)) by lia. lia.
Qed.

Lemma ioRequest_coherent drv r pos size :
  cache_coherent drv r -> cache_coherent drv (ioRequest drv pos size r).2.
Proof.
  intros Hc. unfold ioRequest.
  destruct (size <=? CACHE_LINE_SIZE); [|exact Hc].
  match goal with |- context [if ?b then _ else _] => destruct b end; cbn [snd];
    repeat apply populate_coherent_any; exact Hc.
Qed.

Lemma ioRequest_params drv r pos size :
  offsetSize (ioRequest drv pos size r).2 = offsetSize r
  /\ lengthSize (ioRequest drv pos size r).2 = lengthSize r
  /\ baseAddress (ioRequest drv pos size r).2 = baseAddress r
  /\ rootAddress (ioRequest drv pos size r).2 = rootAddress r.
Proof.
  unfold ioRequest.
  destruct (size <=? CACHE_LINE_SIZE); [|repeat split; reflexivity].
  match goal with |- context [if ?b then _ else _] => destruct b end; cbn [snd].
  - apply populate_params.
  - pose proof (populate_params drv (Z.land (pos + baseAddress r) CACHE_LINE_MASK) r) as (?&?&?&?).
    match goal with |- context [populate drv ?l ?x] =>
      pose proof (populate_params drv l x) as (?&?&?&?) end.
    repeat split; congruence.
Qed.

Lemma ioRequest_keeps drv r pos size line data :
  cache r !! line = Some data -> cache (ioRequest drv pos size r).2 !! line = Some data.
Proof.
  intros H. unfold ioRequest.
  destruct (size <=? CACHE_LINE_SIZE); [|exact H].
  match goal with |- context [if ?b then _ else _] => destruct b end; cbn [snd];
    repeat apply populate_keeps; exact H.
Qed.

(** X1.  A request never drops or changes a cached line: every line
    cached before is cached after with the same bytes; a key that is new
    is a multiple of the line size inside the 64-bit address space; a
    cache that holds only what the driver returned stays so; and the four
    parameters of the resource object are left alone. *)
Theorem ioRequest_keeps_lines (drv : Z -> Z -> bytes) (r : H5Coro) (pos size : Z) :
  let r' := (ioRequest drv pos size r).2 in
  (forall line data, cache r !! line = Some data -> cache r' !! line = Some data)
  /\ (forall line, is_Some (cache r' !! line) ->
        is_Some (cache r !! line)
        \/ (line mod 16 = 0 /\ 0 <= line <= CACHE_LINE_MASK))
  /\ (cache_coherent drv r -> cache_coherent drv r')
  /\ offsetSize r' = offsetSize r /\ lengthSize r' = lengthSize r
  /\ baseAddress r' = baseAddress r /\ rootAddress r' = rootAddress r.
Proof.
  assert (Hnew : forall line l r0, l mod 16 = 0 /\ 0 <= l <= CACHE_LINE_MASK ->
            is_Some (cache (populate drv l r0) !! line) ->
            is_Some (cache r0 !! line) \/ (line mod 16 = 0 /\ 0 <= line <= CACHE_LINE_MASK)).
  { intros line l r0 Hl. unfold populate. destruct (cache r0 !! l) eqn:E; [auto|].
    simpl. rewrite lookup_insert. case_decide; [subst; auto | auto]. }
  cbv zeta. unfold ioRequest.
  destruct (size <=? CACHE_LINE_SIZE).
  2:{ cbn. repeat split; auto. }
  set (line := Z.land (pos + baseAddress r) CACHE_LINE_MASK).
  pose proof (land_mask_aligned (pos + baseAddress r)) as Hl. cbv zeta in Hl. fold line in Hl.
  destruct (pos + baseAddress r - line + size <=? CACHE_LINE_SIZE); cbn [snd].
  - split; [intros; apply populate_keeps; assumption|].
    split; [intros l; apply Hnew; exact Hl|].
    split; [apply populate_coherent_any|].
    apply populate_params.
  - set (next := Z.land _ CACHE_LINE_MASK).
    pose proof (land_mask_aligned (line + (pos + baseAddress r - line + size))) as Hn.
    cbv zeta in Hn. fold next in Hn.
    split; [intros; do 2 apply populate_keeps; assumption|].
    split.
    { intros l Hs. apply (Hnew l next _ Hn) in Hs. destruct Hs as [Hs|Hs]; [|auto].
      apply (Hnew l line _ Hl) in Hs. exact Hs. }
    split; [intros; do 2 apply populate_coherent_any; assumption|].
    destruct (populate_params drv next (populate drv line r)) as (-> & -> & -> & ->).
    apply populate_params.
Qed.

Lemma ioRequest_keeps_lines_witness :
  let r1 := (ioRequest counting_driver 0 9 (resource 8 8 0 0)).2 in
  cache (ioRequest counting_driver 40 20 r1).2 !! 0 = Some (counting_driver 0 16)
  /\ cache (ioRequest counting_driver 30 5 r1).2 !! 0 = Some (counting_driver 0 16).
Proof.
  intros r1. split.
  - apply (proj1 (ioRequest_keeps_lines counting_driver r1 40 20)). vm_compute. reflexivity.
  - apply (proj1 (ioRequest_keeps_lines counting_driver r1 30 5)). vm_compute. reflexivity.
Defined.

(** X2.  The driver reads of one request, whatever the driver: at most
    two; for a request larger than a line the one direct read of the
    range; otherwise only whole lines, at keys that are multiples of the
    line size, and only lines that were not in the cache. *)
Theorem ioRequest_driver_reads (drv : Z -> Z -> bytes) (r : H5Coro) (pos size : Z) :
  let r' := (ioRequest drv pos size r).2 in
  exists reads,
    driver_log r' = reads ++ driver_log r
    /\ (length reads <= 2)%nat
    /\ (CACHE_LINE_SIZE < size -> reads = [(pos + baseAddress r, size)])
    /\ (size <= CACHE_LINE_SIZE ->
        forall read, In read reads ->
          read.2 = CACHE_LINE_SIZE /\ read.1 mod 16 = 0
          /\ 0 <= read.1 <= CACHE_LINE_MASK /\ cache r !! read.1 = None).
Proof.
  cbv zeta. unfold ioRequest.
  destruct (Z.leb_spec size CACHE_LINE_SIZE) as [Hs|Hs].
  2:{ exists [(pos + baseAddress r, size)]. cbn. repeat split; auto; lia. }
  set (line := Z.land (pos + baseAddress r) CACHE_LINE_MASK).
  pose proof (land_mask_aligned (pos + baseAddress r)) as Hl. cbv zeta in Hl. fold line in Hl.
  destruct Hl as [Hl1 Hl2].
  assert (Hdone : forall reads : list (Z * Z),
            (length reads <= 2)%nat ->
            (forall read, In read reads ->
               read.2 = CACHE_LINE_SIZE /\ read.1 mod 16 = 0
               /\ 0 <= read.1 <= CACHE_LINE_MASK /\ cache r !! read.1 = None) ->
            forall r', driver_log r' = reads ++ driver_log r ->
            exists reads0,
              driver_log r' = reads0 ++ driver_log r
              /\ (length reads0 <= 2)%nat
              /\ (CACHE_LINE_SIZE < size -> reads0 = [(pos + baseAddress r, size)])
              /\ (size <= CACHE_LINE_SIZE ->
                  forall read, In read reads0 ->
                    read.2 = CACHE_LINE_SIZE /\ read.1 mod 16 = 0
                    /\ 0 <= read.1 <= CACHE_LINE_MASK /\ cache r !! read.1 = None)).
  { intros reads Hlen Hall r' Hlog. exists reads.
    split; [exact Hlog|]. split; [exact Hlen|]. split; [intros; lia|].
    intros _ read Hin. apply (Hall read Hin). }
  destruct (populate_reads drv line r Hl1 Hl2) as [[E1 Eid]|[E1 Hnone]].
  - destruct (pos + baseAddress r - line + size <=? CACHE_LINE_SIZE); cbn [snd].
    + apply (Hdone []); [cbn; lia | intros read [] | rewrite E1; reflexivity].
    + set (next := Z.land _ CACHE_LINE_MASK).
      pose proof (land_mask_aligned (line + (pos + baseAddress r - line + size))) as Hn.
      cbv zeta in Hn. fold next in Hn. destruct Hn as [Hn1 Hn2].
      rewrite Eid.
      destruct (populate_reads drv next r Hn1 Hn2) as [[E2 _]|[E2 Hnone2]].
      * apply (Hdone []); [cbn; lia | intros read [] | rewrite E2; reflexivity].
      * apply (Hdone [(next, CACHE_LINE_SIZE)]); [cbn; lia | | rewrite E2; reflexivity].
        intros read [<-|[]]. cbn. auto.
  - destruct (pos + baseAddress r - line + size <=? CACHE_LINE_SIZE); cbn [snd].
    + apply (Hdone [(line, CACHE_LINE_SIZE)]); [cbn; lia | | rewrite E1; reflexivity].
      intros read [<-|[]]. cbn. auto.
    + set (next := Z.land _ CACHE_LINE_MASK).
      pose proof (land_mask_aligned (line + (pos + baseAddress r - line + size))) as Hn.
      cbv zeta in Hn. fold next in Hn. destruct Hn as [Hn1 Hn2].
      destruct (populate_reads drv next (populate drv line r) Hn1 Hn2) as [[E2 _]|[E2 Hnone2]].
      * apply (Hdone [(line, CACHE_LINE_SIZE)]); [cbn; lia | | rewrite E2, E1; reflexivity].
        intros read [<-|[]]. cbn. auto.
      * apply (Hdone [(next, CACHE_LINE_SIZE); (line, CACHE_LINE_SIZE)]);
          [cbn; lia | | rewrite E2, E1; reflexivity].
        intros read [<-|[<-|[]]]; cbn; repeat split; auto; try lia.
        destruct (cache r !! next) eqn:En; [|reflexivity].
        rewrite (populate_keeps drv line next r _ En) in Hnone2. discriminate.
Qed.

Lemma ioRequest_driver_reads_witness :
  let r1 := (ioRequest counting_driver 0 9 (resource 8 8 0 0)).2 in
  exists reads,
    driver_log (ioRequest counting_driver 13 5 r1).2 = reads ++ driver_log r1
    /\ (length reads <= 2)%nat
    /\ forall read, In read reads ->
         read.2 = CACHE_LINE_SIZE /\ read.1 mod 16 = 0
         /\ 0 <= read.1 <= CACHE_LINE_MASK /\ cache r1 !! read.1 = None.
Proof.
  intros r1.
  destruct (ioRequest_driver_reads counting_driver r1 13 5) as (reads & H1 & H2 & _ & H4).
  exists reads. split; [exact H1|]. split; [exact H2|].
  apply H4. discriminate.
Defined.

(** X3.  A hit: when the line of the first byte is cached, and the next
    line too if the request runs into it, the request reads nothing from
    the driver and leaves the resource object as it was. *)
Theorem ioRequest_hit (drv : Z -> Z -> bytes) (r : H5Coro) (pos size : Z) :
  let a := pos + baseAddress r in
  0 <= a < 2 ^ 64 -> a + size <= 2 ^ 64 -> size <= CACHE_LINE_SIZE ->
  is_Some (cache r !! (a - a mod 16)) ->
  (16 < a mod 16 + size -> is_Some (cache r !! (a - a mod 16 + 16))) ->
  (ioRequest drv pos size r).2 = r.
Proof.
  intros a Ha Hmax Hs H1 H2. unfold ioRequest. fold a.
  destruct (Z.leb_spec size CACHE_LINE_SIZE); [|lia].
  rewrite (land_mask a Ha).
  rewrite (populate_id drv _ r H1).
  replace (a - (a - a mod 16) + size) with (a mod 16 + size) by lia.
  unfold CACHE_LINE_SIZE in *.
  destruct (Z.leb_spec (a mod 16 + size) 16) as [Hone|Hcross]; [reflexivity|].
  cbn [snd].
  replace (a mod 16 + size) with (a - (a - a mod 16) + size) by lia.
  rewrite next_line_key by lia.
  apply populate_id, H2, Hcross.
Qed.

Lemma ioRequest_hit_witness :
  let r1 := (ioRequest counting_driver 0 9 (resource 8 8 0 0)).2 in
  (ioRequest counting_driver 13 2 r1).2 = r1.
Proof.
  intros r1.
  apply (ioRequest_hit counting_driver r1 13 2).
  - split; [discriminate | reflexivity].
  - discriminate.
  - discriminate.
  - vm_compute. eauto.
  - intros H. vm_compute in H. discriminate.
Defined.

(** ** The cache over a local file *)

Lemma take_min_length {A} (n k : nat) (l : list A) :
  (n `min` length l = k `min` length l)%nat -> take n l = take k l.
Proof.
  intros H.
  destruct (Nat.le_gt_cases n (length l)), (Nat.le_gt_cases k (length l)).
  - f_equal. lia.
  - rewrite (take_ge l k) by lia. rewrite take_ge by lia. reflexivity.
  - rewrite (take_ge l n) by lia. rewrite take_ge by lia. reflexivity.
  - rewrite !take_ge by lia. reflexivity.
Qed.

Lemma length_file_driver content offset size :
  Z.of_nat (length (file_driver content offset size))
  = Z.max 0 (Z.min size (Z.of_nat (length content) - Z.max 0 offset)).
Proof. unfold file_driver. rewrite length_take, length_drop. lia. Qed.

Lemma slice_file_driver content line i j :
  0 <= line -> 0 <= i <= j -> j <= 16 ->
  slice (file_driver content line 16) i j = file_driver content (line + i) (j - i).
Proof.
  intros Hl Hi Hj. unfold slice.
  pose proof (length_file_driver content line 16) as Hlen.
  set (m := Z.of_nat (length (file_driver content line 16))) in *.
  unfold slice_index.
  destruct (Z.ltb_spec i 0); [lia|]. destruct (Z.ltb_spec j 0); [lia|].
  unfold file_driver.
  rewrite skipn_firstn_comm, take_take, drop_drop.
  replace (Z.to_nat (line + i)) with (Z.to_nat line + Z.to_nat i)%nat by lia.
  destruct (Z.le_gt_cases i m) as [Him|Him].
  - rewrite (Z.min_l i m) by lia.
    apply take_min_length. rewrite length_drop. lia.
  - rewrite !(take_ge (drop _ _)); [|rewrite length_drop; lia|rewrite length_drop; lia].
    rewrite !drop_ge by lia. reflexivity.
Qed.

Lemma slice_from_file_driver content line i :
  0 <= line -> 0 <= i <= 16 ->
  slice_from (file_driver content line 16) i = file_driver content (line + i) (16 - i).
Proof.
  intros Hl Hi. rewrite <- slice_file_driver by lia.
  unfold slice_from, slice.
  pose proof (length_file_driver content line 16) as Hlen.
  set (m := Z.of_nat (length (file_driver content line 16))) in *.
  f_equal. unfold slice_index.
  destruct (Z.ltb_spec m 0); [lia|]. destruct (Z.ltb_spec 16 0); [lia|]. lia.
Qed.

Lemma file_driver_app content a n k :
  0 <= a -> 0 <= n -> 0 <= k ->
  file_driver content a n ++ file_driver content (a + n) k = file_driver content a (n + k).
Proof.
  intros. unfold file_driver.
  replace (Z.to_nat (a + n)) with (Z.to_nat a + Z.to_nat n)%nat by lia.
  rewrite <- drop_drop, take_take_drop. f_equal. lia.
Qed.

Lemma populate_get_any drv line r :
  cache_coherent drv r -> cache_get line (populate drv line r) = drv line CACHE_LINE_SIZE.
Proof.
  intros Hc. destruct (populate_present drv line r) as [d Hd].
  unfold cache_get. rewrite Hd. simpl.
  apply (populate_coherent_any drv line r Hc _ _ Hd).
Qed.

(** What a request returns over a local file. *)
Lemma ioRequest_file (content : bytes) (r : H5Coro) (pos size : Z) :
  cache_coherent (file_driver content) r ->
  0 <= pos + baseAddress r < 2 ^ 64 -> 0 <= size ->
  pos + baseAddress r + size <= 2 ^ 64 ->
  (ioRequest (file_driver content) pos size r).1
  = file_driver content (pos + baseAddress r) size.
Proof.
  intros Hc Hpos Hsz Hmax.
  set (a := pos + baseAddress r) in *.
  unfold ioRequest. fold a. unfold CACHE_LINE_SIZE.
  destruct (Z.leb_spec size 16) as [Hs|Hs]; [|reflexivity].
  rewrite (land_mask a Hpos).
  pose proof (Z.mod_pos_bound a 16 ltac:(lia)) as Hm.
  pose proof (next_line_key a size Hpos Hmax Hs) as Hnext.
  replace (a - (a - a mod 16) + size) with (a mod 16 + size) in Hnext by lia.
  set (line := a - a mod 16) in *.
  replace (a - line) with (a mod 16) by (unfold line; lia).
  pose proof (populate_coherent_any _ line r Hc) as Hc1.
  assert (Hline : 0 <= line) by (pose proof (Z.mod_le a 16); unfold line; lia).
  destruct (Z.leb_spec (a mod 16 + size) 16) as [Hone|Hcross].
  - cbn [fst]. rewrite populate_get_any by assumption.
    unfold CACHE_LINE_SIZE. rewrite slice_file_driver by (unfold line; lia).
    f_equal; unfold line; lia.
  - cbn [fst]. rewrite (Hnext Hcross).
    set (r1 := populate (file_driver content) line r) in *.
    rewrite (populate_get_any _ (line + 16) r1 Hc1).
    assert (Hg1 : cache_get line (populate (file_driver content) (line + 16) r1)
                  = file_driver content line 16).
    { destruct (populate_present (file_driver content) line r) as [d Hd]. fold r1 in Hd.
      unfold cache_get.
      rewrite (populate_keeps _ _ _ _ _ Hd). simpl.
      apply (Hc1 _ _ Hd). }
    rewrite Hg1. unfold CACHE_LINE_SIZE.
    rewrite slice_from_file_driver by (unfold line; lia).
    unfold slice_to. rewrite slice_file_driver by (unfold line; lia).
    replace (line + 16 + 0) with (line + a mod 16 + (16 - a mod 16)) by lia.
    rewrite file_driver_app by (unfold line; lia).
    f_equal; unfold line; lia.
Qed.

(** X4.  Over a local file the cache is transparent, at the end of the file
    too: a request answers what a direct [seek] and [read] would, the
    bytes of the range that the file has, all of them when the range lies
    inside the file; and the cache stays sound. *)
Theorem ioRequest_file_transparent (content : bytes) (r : H5Coro) (pos size : Z) :
  cache_coherent (file_driver content) r ->
  0 <= pos + baseAddress r < 2 ^ 64 -> 0 <= size ->
  pos + baseAddress r + size <= 2 ^ 64 ->
  let res := ioRequest (file_driver content) pos size r in
  res.1 = take (Z.to_nat size) (drop (Z.to_nat (pos + baseAddress r)) content)
  /\ Z.of_nat (length res.1)
     = Z.max 0 (Z.min size (Z.of_nat (length content) - (pos + baseAddress r)))
  /\ (pos + baseAddress r + size <= Z.of_nat (length content) ->
      Z.of_nat (length res.1) = size)
  /\ cache_coherent (file_driver content) res.2.
Proof.
  intros Hc Hpos Hsz Hmax res.
  assert (E : res.1 = file_driver content (pos + baseAddress r) size)
    by (apply ioRequest_file; assumption).
  split; [exact E|].
  assert (L : Z.of_nat (length res.1)
              = Z.max 0 (Z.min size (Z.of_nat (length content) - (pos + baseAddress r)))).
  { rewrite E, length_file_driver. lia. }
  split; [exact L|]. split; [intros Hin; rewrite L; lia|].
  apply ioRequest_coherent, Hc.
Qed.

Lemma ioRequest_file_transparent_witness :
  (ioRequest (file_driver dataspace_file) 28 8
     (ioRequest (file_driver dataspace_file) 14 4 (resource 8 8 0 0)).2).1
  = [0; 0; 0; 0].
Proof.
  apply (proj1 (ioRequest_file_transparent dataspace_file
                  (ioRequest (file_driver dataspace_file) 14 4 (resource 8 8 0 0)).2 28 8
                  ltac:(apply ioRequest_coherent; intros line data H;
                        vm_compute in H; discriminate)
                  ltac:(split; [discriminate|reflexivity])
                  ltac:(discriminate) ltac:(discriminate))).
Defined.

(** ** Reading fields *)

Lemma readField_run cfg size s :
  readField cfg size s
  = (match SIZE_2_FORMAT size with
     | None => Raise (PyError (KeyError size))
     | Some _ =>
         let raw := (ioRequest (cfg_driver cfg) (pos s) size (resourceObject s)).1 in
         if Z.of_nat (length raw) =? size then Ret (little_endian_to_Z 8 raw)
         else Raise (PyError StructError)
     end,
     set_pos (pos s + size)
       (set_resourceObject (ioRequest (cfg_driver cfg) (pos s) size (resourceObject s)).2 s)).
Proof.
  unfold readField. rewrite bind_run. cbn [gets].
  rewrite bind_run. unfold resource_ioRequest.
  destruct (ioRequest (cfg_driver cfg) (pos s) size (resourceObject s)) as [raw r].
  rewrite bind_run. cbn [advance modify fst snd].
  unfold unpack. destruct (SIZE_2_FORMAT size); [|reflexivity].
  destruct (Z.of_nat (length raw) =? size); reflexivity.
Qed.

Lemma readArray_run cfg size s :
  readArray cfg size s
  = (Ret (ioRequest (cfg_driver cfg) (pos s) size (resourceObject s)).1,
     set_pos (pos s + size)
       (set_resourceObject (ioRequest (cfg_driver cfg) (pos s) size (resourceObject s)).2 s)).
Proof.
  unfold readArray. rewrite bind_run. cbn [gets].
  rewrite bind_run. unfold resource_ioRequest.
  destruct (ioRequest (cfg_driver cfg) (pos s) size (resourceObject s)) as [raw r].
  reflexivity.
Qed.

Lemma SIZE_2_FORMAT_Some size :
  is_Some (SIZE_2_FORMAT size) <-> size = 1 \/ size = 2 \/ size = 4 \/ size = 8.
Proof.
  unfold SIZE_2_FORMAT.
  destruct (Z.eqb_spec size 1); [split; eauto|].
  destruct (Z.eqb_spec size 2); [split; eauto|].
  destruct (Z.eqb_spec size 4); [split; eauto|].
  destruct (Z.eqb_spec size 8); [split; eauto|].
  split; [intros [? [=]]|lia].
Qed.

(** X5.  A value stored little-endian in [size] bytes of a local file is what
    [readField] returns at that place, and the cursor ends behind it. *)
Theorem readField_round_trip (cfg : Config) (content : bytes) (s : Dataset) (size v : Z) :
  cfg_driver cfg = file_driver content ->
  cache_coherent (file_driver content) (resourceObject s) ->
  let a := pos s + baseAddress (resourceObject s) in
  0 <= a -> a + size <= 2 ^ 64 ->
  size = 1 \/ size = 2 \/ size = 4 \/ size = 8 ->
  0 <= v < 2 ^ (8 * size) ->
  file_driver content a size = Z_to_little_endian size 8 v ->
  (readField cfg size s).1 = Ret v
  /\ pos (readField cfg size s).2 = pos s + size
  /\ cache_coherent (file_driver content) (resourceObject (readField cfg size s).2).
Proof.
  intros Hdrv Hc a Ha Hmax Hsize Hv Hfile.
  rewrite readField_run. cbn [fst snd]. rewrite Hdrv.
  split; [|split].
  - destruct (proj2 (SIZE_2_FORMAT_Some size) Hsize) as [f ->].
    cbv zeta. rewrite ioRequest_file by first [assumption | fold a; lia].
    fold a. rewrite Hfile.
    rewrite length_Z_to_little_endian by lia. rewrite Z.eqb_refl.
    rewrite little_endian_to_Z_to_little_endian by lia.
    rewrite Z.mod_small; [reflexivity|]. rewrite Z.mul_comm. exact Hv.
  - reflexivity.
  - cbn. apply ioRequest_coherent, Hc.
Qed.

Lemma readField_round_trip_witness :
  (readField (config dataspace_file false false) 8 (worker "" 20)).1 = Ret 100.
Proof.
  apply (readField_round_trip (config dataspace_file false false) dataspace_file
           (worker "" 20) 8 100).
  - reflexivity.
  - intros line data H. vm_compute in H. discriminate.
  - discriminate.
  - discriminate.
  - right; right; right; reflexivity.
  - split; [discriminate|reflexivity].
  - vm_compute. reflexivity.
Defined.

(** X6.  A field that does not lie inside the file in full makes [readField]
    raise [struct.error], which is no [FatalError]; the cursor has moved
    over the field all the same. *)
Theorem readField_past_end (cfg : Config) (content : bytes) (s : Dataset) (size : Z) :
  cfg_driver cfg = file_driver content ->
  cache_coherent (file_driver content) (resourceObject s) ->
  let a := pos s + baseAddress (resourceObject s) in
  0 <= a -> a + size <= 2 ^ 64 ->
  size = 1 \/ size = 2 \/ size = 4 \/ size = 8 ->
  Z.of_nat (length content) < a + size ->
  readField cfg size s
  = (Raise (PyError StructError),
     set_pos (pos s + size)
       (set_resourceObject (ioRequest (file_driver content) (pos s) size (resourceObject s)).2 s)).
Proof.
  intros Hdrv Hc a Ha Hmax Hsize Hend.
  rewrite readField_run. rewrite Hdrv. f_equal.
  destruct (proj2 (SIZE_2_FORMAT_Some size) Hsize) as [f ->].
  cbv zeta. rewrite ioRequest_file by first [assumption | fold a; lia].
  fold a. rewrite length_file_driver.
  destruct (Z.eqb_spec (Z.max 0 (Z.min size (Z.of_nat (length content) - Z.max 0 a))) size);
    [lia|reflexivity].
Qed.

Lemma readField_past_end_witness :
  (readField (config dataspace_file false false) 4 (worker "" 30)).1
  = Raise (PyError StructError)
  /\ pos (readField (config dataspace_file false false) 4 (worker "" 30)).2 = 34.
Proof.
  rewrite (readField_past_end (config dataspace_file false false) dataspace_file
             (worker "" 30) 4).
  - split; reflexivity.
  - reflexivity.
  - intros line data H. vm_compute in H. discriminate.
  - discriminate.
  - discriminate.
  - right; right; left; reflexivity.
  - reflexivity.
Defined.

(** X7.  [readArray] never raises: inside a local file it returns the bytes
    of the range, and over the end of the file what is left of them, a
    shorter array, without an error. *)
Theorem readArray_short_at_end (cfg : Config) (content : bytes) (s : Dataset) (size : Z) :
  cfg_driver cfg = file_driver content ->
  cache_coherent (file_driver content) (resourceObject s) ->
  let a := pos s + baseAddress (resourceObject s) in
  0 <= a < 2 ^ 64 -> 0 <= size -> a + size <= 2 ^ 64 ->
  exists raw,
    (readArray cfg size s).1 = Ret raw
    /\ raw = take (Z.to_nat size) (drop (Z.to_nat a) content)
    /\ Z.of_nat (length raw) = Z.max 0 (Z.min size (Z.of_nat (length content) - a))
    /\ pos (readArray cfg size s).2 = pos s + size.
Proof.
  intros Hdrv Hc a Ha Hsize Hmax.
  rewrite readArray_run. cbn [fst snd]. rewrite Hdrv.
  rewrite ioRequest_file by first [assumption | fold a; lia]. fold a.
  eexists. split; [reflexivity|]. split; [reflexivity|]. split; [|reflexivity].
  rewrite length_file_driver. lia.
Qed.

Lemma readArray_short_at_end_witness :
  exists raw,
    (readArray (config dataspace_file false false) 8 (worker "" 28)).1 = Ret raw
    /\ Z.of_nat (length raw) = 4.
Proof.
  destruct (readArray_short_at_end (config dataspace_file false false) dataspace_file
              (worker "" 28) 8) as (raw & H1 & _ & H3 & _).
  - reflexivity.
  - intros line data H. vm_compute in H. discriminate.
  - split; [discriminate|reflexivity].
  - discriminate.
  - discriminate.
  - exists raw. split; [exact H1|exact H3].
Defined.

(** ** The superblock *)

Lemma R_bind_run {A B} (c : R A) (k : A -> R B) (r : H5Coro) :
  (x ← c; k x) r =
  match c r with
  | (Ret a, r1) => k a r1
  | (Raise e, r1) => (Raise e, r1)
  | (OutOfFuel, r1) => (OutOfFuel, r1)
  end.
Proof. reflexivity. Qed.

Lemma R_ioRequest_run cfg p size r :
  R_ioRequest cfg p size r
  = (Ret (ioRequest (cfg_driver cfg) p size r).1, (ioRequest (cfg_driver cfg) p size r).2).
Proof. unfold R_ioRequest. destruct (ioRequest _ _ _ _); reflexivity. Qed.

(** A read of the superblock from a local file: the bytes of the range,
    and a resource object that differs in its cache only. *)
Lemma R_ioRequest_file cfg content p size r :
  cfg_driver cfg = file_driver content ->
  cache_coherent (file_driver content) r ->
  0 <= p + baseAddress r < 2 ^ 64 -> 0 <= size -> p + baseAddress r + size <= 2 ^ 64 ->
  exists r1,
    R_ioRequest cfg p size r = (Ret (file_driver content (p + baseAddress r) size), r1)
    /\ cache_coherent (file_driver content) r1
    /\ offsetSize r1 = offsetSize r /\ lengthSize r1 = lengthSize r
    /\ baseAddress r1 = baseAddress r /\ rootAddress r1 = rootAddress r.
Proof.
  intros Hdrv Hc Hp Hs Hmax.
  exists (ioRequest (file_driver content) p size r).2.
  rewrite R_ioRequest_run, Hdrv.
  rewrite ioRequest_file by assumption.
  split; [reflexivity|]. split; [apply ioRequest_coherent, Hc|].
  apply ioRequest_params.
Qed.

Lemma little_endian_to_Z_byte (b : Z) : little_endian_to_Z 8 [b] = b.
Proof. cbn. rewrite Z.shiftl_0_l. apply Z.lor_0_r. Qed.

Lemma unpack_little_endian (size v : Z) :
  size = 1 \/ size = 2 \/ size = 4 \/ size = 8 -> 0 <= v < 2 ^ (8 * size) ->
  forall r, R_unpack_field size (Z_to_little_endian size 8 v) r = (Ret v, r).
Proof.
  intros Hsize Hv r. unfold R_unpack_field, R_unpack.
  destruct (proj2 (SIZE_2_FORMAT_Some size) Hsize) as [f ->].
  rewrite length_Z_to_little_endian by lia. rewrite Z.eqb_refl.
  rewrite little_endian_to_Z_to_little_endian by lia.
  rewrite Z.mod_small; [reflexivity|]. rewrite Z.mul_comm. exact Hv.
Qed.

Lemma read_sizes_base_root_file cfg content r sizes_at base_at slots wo wl base root :
  cfg_driver cfg = file_driver content ->
  cache_coherent (file_driver content) r -> baseAddress r = 0 ->
  0 <= sizes_at < 2 ^ 63 -> 0 <= base_at -> 0 <= slots ->
  file_driver content sizes_at 2 = [wo; wl] ->
  wo = 1 \/ wo = 2 \/ wo = 4 \/ wo = 8 ->
  0 <= base < 2 ^ (8 * wo) -> 0 <= root < 2 ^ (8 * wo) ->
  base_at + slots * wo + base + wo <= 2 ^ 64 ->
  file_driver content base_at wo = Z_to_little_endian wo 8 base ->
  file_driver content (base_at + slots * wo + base) wo = Z_to_little_endian wo 8 root ->
  exists r',
    read_sizes_base_root cfg sizes_at base_at slots r = (Ret root, r')
    /\ cache_coherent (file_driver content) r'
    /\ offsetSize r' = wo /\ lengthSize r' = wl /\ baseAddress r' = base
    /\ rootAddress r' = rootAddress r.
Proof.
  intros Hdrv Hc Hb0 Hsz Hba Hsl Hsizes Hwo Hbase Hroot Hmax Hfb Hfr.
  unfold read_sizes_base_root.
  destruct (R_ioRequest_file cfg content sizes_at 2 r Hdrv Hc)
    as (r1 & E1 & Hc1 & Ho1 & Hl1 & Hb1 & Hr1); try lia.
  rewrite R_bind_run, E1, Hb0, Z.add_0_r, Hsizes.
  rewrite R_bind_run. cbn [R_unpack_BB mret R_ret]. rewrite !little_endian_to_Z_byte.
  rewrite R_bind_run. cbn [R_modify]. rewrite R_bind_run. cbn [R_modify].
  set (r2 := set_lengthSize wl (set_offsetSize wo r1)).
  assert (Hc2 : cache_coherent (file_driver content) r2) by exact Hc1.
  assert (Hb2 : baseAddress r2 = 0) by (cbn; congruence).
  destruct (R_ioRequest_file cfg content base_at wo r2 Hdrv Hc2)
    as (r3 & E3 & Hc3 & Ho3 & Hl3 & Hb3 & Hr3); try nia.
  rewrite R_bind_run, E3, Hb2, Z.add_0_r, Hfb.
  rewrite R_bind_run, (unpack_little_endian wo base Hwo Hbase).
  rewrite R_bind_run. cbn [R_modify].
  set (r4 := set_baseAddress base r3).
  assert (Hc4 : cache_coherent (file_driver content) r4) by exact Hc3.
  assert (Hb4 : baseAddress r4 = base) by reflexivity.
  destruct (R_ioRequest_file cfg content (base_at + slots * wo) wo r4 Hdrv Hc4)
    as (r5 & E5 & Hc5 & Ho5 & Hl5 & Hb5 & Hr5); try (rewrite ?Hb4; nia).
  rewrite R_bind_run, E5, Hb4, Hfr.
  rewrite (unpack_little_endian wo root Hwo Hroot).
  exists r5. split; [reflexivity|]. split; [exact Hc5|].
  rewrite Ho5, Hl5, Hb5, Hr5. cbn. rewrite Hl3, Ho3, Hr3. cbn.
  repeat split; congruence.
Qed.

(** X8.  A local file that starts with a well-formed superblock of version 0
    or 2 is accepted: the sizes, the base address and the root group
    offset stored in it end in the resource object.  The root group
    offset is read at its place plus the base address just read. *)
Theorem H5Coro_init_accepts (cfg : Config) (content : bytes)
    (version wo wl base root : Z) :
  cfg_driver cfg = file_driver content ->
  version = 0 \/ version = 2 ->
  file_driver content 0 9 = Z_to_little_endian 8 8 H5_SIGNATURE_LE ++ [version] ->
  (version = 0 -> cfg_errorChecking cfg = true -> file_driver content 9 2 = [0; 0]) ->
  let '(sizes_at, base_at, slots) := superblock_layout version in
  file_driver content sizes_at 2 = [wo; wl] ->
  wo = 1 \/ wo = 2 \/ wo = 4 \/ wo = 8 ->
  0 <= base < 2 ^ (8 * wo) -> 0 <= root < 2 ^ (8 * wo) ->
  base_at + slots * wo + base + wo <= 2 ^ 64 ->
  file_driver content base_at wo = Z_to_little_endian wo 8 base ->
  file_driver content (base_at + slots * wo + base) wo = Z_to_little_endian wo 8 root ->
  exists r,
    H5Coro_init cfg = (Ret tt, r)
    /\ offsetSize r = wo /\ lengthSize r = wl /\ baseAddress r = base
    /\ rootAddress r = root /\ cache_coherent (file_driver content) r.
Proof.
  intros Hdrv Hver Hsig Hv0.
  destruct (superblock_layout version) as [[sizes_at base_at] slots] eqn:Hlay.
  intros Hsizes Hwo Hbase Hroot Hmax Hfb Hfr.
  unfold H5Coro_init, readSuperblock.
  set (r0 := mkH5Coro ∅ [] 0 0 0 0).
  assert (Hc0 : cache_coherent (file_driver content) r0).
  { intros line data H. cbn in H. rewrite lookup_empty in H. discriminate. }
  destruct (R_ioRequest_file cfg content 0 9 r0 Hdrv Hc0)
    as (r1 & E1 & Hc1 & Ho1 & Hl1 & Hb1 & Hr1); try (cbn; lia).
  rewrite R_bind_run, E1. cbn [baseAddress r0]. rewrite Z.add_0_r, Hsig.
  rewrite R_bind_run. unfold R_unpack_QB.
  change (Z.of_nat (length (Z_to_little_endian 8 8 H5_SIGNATURE_LE ++ [version])) =? 9)
    with true.
  cbn [mret R_ret].
  change (take 8 (Z_to_little_endian 8 8 H5_SIGNATURE_LE ++ [version]))
    with (Z_to_little_endian 8 8 H5_SIGNATURE_LE).
  change (drop 8 (Z_to_little_endian 8 8 H5_SIGNATURE_LE ++ [version])) with [version].
  rewrite little_endian_to_Z_byte.
  change (little_endian_to_Z 8 (Z_to_little_endian 8 8 H5_SIGNATURE_LE))
    with H5_SIGNATURE_LE.
  rewrite Z.eqb_refl. cbn [negb R_when].
  rewrite R_bind_run. cbn [mret R_ret].
  assert (Hb1' : baseAddress r1 = 0) by (rewrite Hb1; reflexivity).
  assert (Hfin : forall r2, cache_coherent (file_driver content) r2 ->
            baseAddress r2 = 0 ->
            exists r,
              match read_sizes_base_root cfg sizes_at base_at slots r2 with
              | (Ret root0, r3) => (Ret tt, set_rootAddress root0 r3)
              | (Raise e, r3) => (Raise e, r3)
              | (OutOfFuel, r3) => (OutOfFuel, r3)
              end = (Ret tt, r)
              /\ offsetSize r = wo /\ lengthSize r = wl /\ baseAddress r = base
              /\ rootAddress r = root /\ cache_coherent (file_driver content) r).
  { intros r2 Hc2 Hb2.
    assert (0 <= sizes_at < 2 ^ 63 /\ 0 <= base_at /\ 0 <= slots) as (?&?&?).
    { unfold superblock_layout in Hlay.
      destruct (version =? 0); injection Hlay as <- <- <-; lia. }
    destruct (read_sizes_base_root_file cfg content r2 sizes_at base_at slots wo wl base root)
      as (r3 & E3 & Hc3 & Ho3 & Hl3 & Hb3 & Hr3); try assumption.
    rewrite E3. eexists. split; [reflexivity|]. cbn.
    repeat split; assumption. }
  destruct Hver as [-> | ->].
  - cbn [Z.eqb negb andb R_when]. rewrite R_bind_run. cbn [mret R_ret].
    cbn in Hlay. injection Hlay as <- <- <-.
    rewrite R_bind_run.
    destruct (cfg_errorChecking cfg) eqn:Hchk; cbn [R_when].
    + destruct (R_ioRequest_file cfg content 9 2 r1 Hdrv Hc1)
        as (r2 & E2 & Hc2 & Ho2 & Hl2 & Hb2 & Hr2); try (rewrite ?Hb1'; lia).
      rewrite R_bind_run, E2, Hb1', Z.add_0_r, (Hv0 eq_refl eq_refl).
      rewrite R_bind_run. cbn [R_unpack_BB mret R_ret].
      rewrite !little_endian_to_Z_byte. cbn [Z.eqb negb R_when].
      rewrite R_bind_run. cbn [mret R_ret].
      apply Hfin; [exact Hc2 | congruence].
    + cbn [mret R_ret]. apply Hfin; assumption.
  - cbn [Z.eqb negb andb R_when]. rewrite R_bind_run. cbn [mret R_ret].
    cbn in Hlay. injection Hlay as <- <- <-.
    apply Hfin; assumption.
Qed.

Lemma H5Coro_init_accepts_witness :
  exists r,
    H5Coro_init (config superblock_v0_file true false) = (Ret tt, r)
    /\ offsetSize r = 8 /\ lengthSize r = 8 /\ baseAddress r = 0
    /\ rootAddress r = 96 /\ cache_coherent (file_driver superblock_v0_file) r.
Proof.
  apply (H5Coro_init_accepts (config superblock_v0_file true false) superblock_v0_file
           0 8 8 0 96).
  - reflexivity.
  - left; reflexivity.
  - vm_compute. reflexivity.
  - intros _ _. vm_compute. reflexivity.
  - vm_compute. reflexivity.
  - right; right; right; reflexivity.
  - split; [discriminate|reflexivity].
  - split; [discriminate|reflexivity].
  - discriminate.
  - vm_compute. reflexivity.
  - vm_compute. reflexivity.
Defined.

Lemma read_sizes_base_root_width cfg sizes_at base_at slots r root r' :
  read_sizes_base_root cfg sizes_at base_at slots r = (Ret root, r') ->
  is_Some (SIZE_2_FORMAT (offsetSize r')).
Proof.
  unfold read_sizes_base_root.
  rewrite R_bind_run, R_ioRequest_run.
  set (r1 := (ioRequest (cfg_driver cfg) sizes_at 2 r).2).
  destruct ((ioRequest (cfg_driver cfg) sizes_at 2 r).1) as [|b0 [|b1 [|]]];
    try (rewrite R_bind_run; cbn; discriminate).
  rewrite R_bind_run. cbn [R_unpack_BB mret R_ret]. rewrite !little_endian_to_Z_byte.
  rewrite R_bind_run. cbn [R_modify]. rewrite R_bind_run. cbn [R_modify].
  rewrite R_bind_run, R_ioRequest_run.
  set (r2 := set_lengthSize b1 (set_offsetSize b0 r1)).
  pose proof (ioRequest_params (cfg_driver cfg) r2 base_at b0) as (Ho3 & _).
  set (r3 := (ioRequest (cfg_driver cfg) base_at b0 r2).2) in *.
  rewrite R_bind_run. unfold R_unpack_field at 1.
  destruct (SIZE_2_FORMAT b0) eqn:Hf; [|cbn; discriminate].
  unfold R_unpack at 1.
  match goal with |- context [if ?b then _ else _] => destruct b end; [|cbn; discriminate].
  cbn [mret R_ret]. rewrite R_bind_run. cbn [R_modify].
  rewrite R_bind_run, R_ioRequest_run.
  match goal with |- context [ioRequest ?d ?p ?n ?x] =>
    pose proof (ioRequest_params d x p n) as (Ho5 & _);
    set (r5 := (ioRequest d p n x).2) in *;
    generalize ((ioRequest d p n x).1) end.
  intros block. unfold R_unpack_field, R_unpack. rewrite Hf.
  match goal with |- context [if ?b then _ else _] => destruct b end; [|cbn; discriminate].
  intros [= _ <-]. rewrite Ho5. cbn. rewrite Ho3. cbn. rewrite Hf. eauto.
Qed.

Lemma little_endian_bytes (m : Z) (bs : list Z) (v : Z) :
  Z.of_nat (length bs) = m -> Forall (fun b => 0 <= b < 256) bs ->
  little_endian_to_Z 8 bs = v -> bs = Z_to_little_endian m 8 v.
Proof.
  intros Hm Hb <-. symmetry. apply Z_to_little_endian_to_Z; [lia|lia|exact Hb].
Qed.

(** X9.  The constructor succeeds only on a file that starts with the eight
    signature bytes of HDF5 followed by the version 0 or 2, and then the
    width of offsets it has stored is one of 1, 2, 4 and 8. *)
Theorem H5Coro_init_only_hdf5 (cfg : Config) (content : bytes) (r : H5Coro) :
  cfg_driver cfg = file_driver content ->
  Forall (fun b => 0 <= b < 256) content ->
  H5Coro_init cfg = (Ret tt, r) ->
  take 8 content = [0x89; 0x48; 0x44; 0x46; 0x0D; 0x0A; 0x1A; 0x0A]
  /\ (content !! 8%nat = Some 0 \/ content !! 8%nat = Some 2)
  /\ (offsetSize r = 1 \/ offsetSize r = 2 \/ offsetSize r = 4 \/ offsetSize r = 8).
Proof.
  intros Hdrv Hbytes. unfold H5Coro_init, readSuperblock.
  set (r0 := mkH5Coro ∅ [] 0 0 0 0).
  assert (Hc0 : cache_coherent (file_driver content) r0).
  { intros line data H. cbn in H. rewrite lookup_empty in H. discriminate. }
  rewrite R_bind_run, R_ioRequest_run, Hdrv.
  rewrite ioRequest_file by (try assumption; cbn; lia).
  set (r1 := (ioRequest (file_driver content) 0 9 r0).2).
  change (0 + baseAddress r0) with 0.
  unfold file_driver at 1. change (Z.to_nat 0) with 0%nat. change (Z.to_nat 9) with 9%nat.
  rewrite drop_0. rewrite R_bind_run. unfold R_unpack_QB.
  destruct (Z.eqb_spec (Z.of_nat (length (take 9 content))) 9) as [Hlen|Hlen];
    [|cbn; discriminate].
  cbn [mret R_ret].
  rewrite take_take. change (8 `min` 9)%nat with 8%nat.
  rewrite length_take in Hlen.
  destruct (Z.eqb_spec (little_endian_to_Z 8 (take 8 content)) H5_SIGNATURE_LE)
    as [Hsig|Hsig]; [|cbn; discriminate].
  cbn [negb R_when]. rewrite R_bind_run. cbn [mret R_ret].
  assert (Htake : take 8 content = [0x89; 0x48; 0x44; 0x46; 0x0D; 0x0A; 0x1A; 0x0A]).
  { apply (little_endian_bytes 8) in Hsig.
    - rewrite Hsig. reflexivity.
    - rewrite length_take. lia.
    - apply Forall_take, Hbytes. }
  assert (Hv : exists v, content !! 8%nat = Some v /\ drop 8 (take 9 content) = [v]).
  { destruct (lookup_lt_is_Some_2 content 8 ltac:(lia)) as [v Hv]. exists v.
    split; [exact Hv|].
    rewrite skipn_firstn_comm. change (9 - 8)%nat with 1%nat.
    rewrite (drop_S _ _ _ Hv). reflexivity. }
  destruct Hv as (v & Hv & ->). rewrite little_endian_to_Z_byte.
  assert (Hwidth : forall rr a b c,
    match read_sizes_base_root cfg a b c rr with
    | (Ret root, r2) => (Ret tt, set_rootAddress root r2)
    | (Raise e, r2) => (Raise e, r2)
    | (OutOfFuel, r2) => (@OutOfFuel unit, r2)
    end = (Ret tt, r) ->
    offsetSize r = 1 \/ offsetSize r = 2 \/ offsetSize r = 4 \/ offsetSize r = 8).
  { intros rr a b c.
    destruct (read_sizes_base_root cfg a b c rr) as [[root|e|] r2] eqn:E; try discriminate.
    intros [= <-]. apply SIZE_2_FORMAT_Some.
    apply (read_sizes_base_root_width _ _ _ _ _ _ _ E). }
  destruct (Z.eqb_spec v 0) as [->|H0].
  - cbn [negb andb R_when]. rewrite R_bind_run. cbn [mret R_ret].
    intros H. split; [exact Htake|]. split; [left; exact Hv|]. revert H.
    rewrite R_bind_run.
    destruct (R_when (cfg_errorChecking cfg) _ r1) as [[[]|e|] r2] eqn:E;
      try discriminate.
    apply Hwidth.
  - destruct (Z.eqb_spec v 2) as [->|H2]; [|cbn; discriminate].
    cbn [negb andb R_when]. rewrite R_bind_run. cbn [mret R_ret].
    intros H. split; [exact Htake|]. split; [right; exact Hv|].
    apply (Hwidth _ _ _ _ H).
Qed.

Lemma H5Coro_init_only_hdf5_witness :
  let r := (H5Coro_init (config superblock_v0_file true false)).2 in
  take 8 superblock_v0_file = [0x89; 0x48; 0x44; 0x46; 0x0D; 0x0A; 0x1A; 0x0A]
  /\ (superblock_v0_file !! 8%nat = Some 0 \/ superblock_v0_file !! 8%nat = Some 2)
  /\ (offsetSize r = 1 \/ offsetSize r = 2 \/ offsetSize r = 4 \/ offsetSize r = 8).
Proof.
  apply (H5Coro_init_only_hdf5 (config superblock_v0_file true false) superblock_v0_file).
  - reflexivity.
  - repeat (constructor; [split; [discriminate|reflexivity]|]). constructor.
  - vm_compute. reflexivity.
Defined.

(** ** Parsing a dataspace message *)

(** A field read from a local file, with the state it leaves. *)
Lemma readField_file cfg content s size v :
  cfg_driver cfg = file_driver content ->
  cache_coherent (file_driver content) (resourceObject s) ->
  0 <= pos s + baseAddress (resourceObject s) ->
  pos s + baseAddress (resourceObject s) + size <= 2 ^ 64 ->
  size = 1 \/ size = 2 \/ size = 4 \/ size = 8 ->
  0 <= v < 2 ^ (8 * size) ->
  file_driver content (pos s + baseAddress (resourceObject s)) size
    = Z_to_little_endian size 8 v ->
  exists r,
    readField cfg size s = (Ret v, set_pos (pos s + size) (set_resourceObject r s))
    /\ cache_coherent (file_driver content) r
    /\ lengthSize r = lengthSize (resourceObject s)
    /\ baseAddress r = baseAddress (resourceObject s)
    /\ offsetSize r = offsetSize (resourceObject s).
Proof.
  intros Hdrv Hc Ha Hmax Hsize Hv Hfile.
  exists (ioRequest (file_driver content) (pos s) size (resourceObject s)).2.
  split; [|split; [apply ioRequest_coherent, Hc|]].
  - rewrite readField_run, Hdrv. f_equal.
    destruct (proj2 (SIZE_2_FORMAT_Some size) Hsize) as [f ->].
    cbv zeta. rewrite ioRequest_file by first [assumption | lia].
    rewrite Hfile, length_Z_to_little_endian by lia. rewrite Z.eqb_refl.
    rewrite little_endian_to_Z_to_little_endian by lia.
    rewrite Z.mod_small; [reflexivity|]. rewrite Z.mul_comm. exact Hv.
  - destruct (ioRequest_params (file_driver content) (resourceObject s) (pos s) size)
      as (? & ? & ? & _). auto.
Qed.

Lemma readField_byte cfg content s b :
  cfg_driver cfg = file_driver content ->
  cache_coherent (file_driver content) (resourceObject s) ->
  0 <= pos s + baseAddress (resourceObject s) ->
  pos s + baseAddress (resourceObject s) + 1 <= 2 ^ 64 ->
  file_driver content (pos s + baseAddress (resourceObject s)) 1 = [b] ->
  exists r,
    readField cfg 1 s = (Ret b, set_pos (pos s + 1) (set_resourceObject r s))
    /\ cache_coherent (file_driver content) r
    /\ lengthSize r = lengthSize (resourceObject s)
    /\ baseAddress r = baseAddress (resourceObject s)
    /\ offsetSize r = offsetSize (resourceObject s).
Proof.
  intros Hdrv Hc Ha Hmax Hfile.
  exists (ioRequest (file_driver content) (pos s) 1 (resourceObject s)).2.
  split; [|split; [apply ioRequest_coherent, Hc|]].
  - rewrite readField_run, Hdrv. f_equal.
    cbn [SIZE_2_FORMAT Z.eqb]. cbv zeta.
    rewrite ioRequest_file by first [assumption | lia].
    rewrite Hfile. cbn [length Z.of_nat Pos.of_succ_nat Z.eqb Pos.eqb].
    f_equal. cbn. rewrite Z.shiftl_0_l. apply Z.lor_0_r.
  - destruct (ioRequest_params (file_driver content) (resourceObject s) (pos s) 1)
      as (? & ? & ? & _). auto.
Qed.

Section Dataspace.

Variable cfg : Config.
Variable content : bytes.
Variable wl : Z.
Hypothesis Hdrv : cfg_driver cfg = file_driver content.
Hypothesis Hwl : wl = 1 \/ wl = 2 \/ wl = 4 \/ wl = 8.

(** The loop that reads the dimensions. *)
Lemma read_dimensions (dims : list Z) : forall (k : Z) (s : Dataset),
  cache_coherent (file_driver content) (resourceObject s) ->
  lengthSize (resourceObject s) = wl ->
  0 <= pos s + baseAddress (resourceObject s) ->
  pos s + baseAddress (resourceObject s) + Z.of_nat (length dims) * wl <= 2 ^ 64 ->
  Forall (fun d => 0 <= d < 2 ^ (8 * wl)) dims ->
  (forall (i : nat) d, dims !! i = Some d ->
     file_driver content (pos s + baseAddress (resourceObject s) + Z.of_nat i * wl) wl
     = Z_to_little_endian wl 8 d) ->
  exists s',
    for_each (seqZ k (Z.of_nat (length dims))) (fun _ =>
      w ← length_size;
      dimension ← readField cfg w;
      modify (fun s => set_dimensions (dimensions s ++ [dimension]) s)) s
    = (Ret tt, s')
    /\ pos s' = pos s + Z.of_nat (length dims) * wl
    /\ dimensions s' = dimensions s ++ dims
    /\ ndims s' = ndims s
    /\ lengthSize (resourceObject s') = wl.
Proof.
  induction dims as [|d dims IH]; intros k s Hc Hl Ha Hmax Hb Hfile.
  - exists s. cbn. rewrite app_nil_r. repeat split; [lia|exact Hl].
  - rewrite seqZ_cons by (cbn [length]; lia). cbn [for_each].
    apply Forall_cons in Hb. destruct Hb as (Hd & Hb).
    pose proof (Hfile 0%nat d eq_refl) as H0. rewrite Z.mul_0_l, Z.add_0_r in H0.
    cbn [length] in Hmax.
    destruct (readField_file cfg content s wl d Hdrv Hc Ha ltac:(lia) Hwl Hd H0)
      as (r & E & Hcr & Hlr & Hbr & _).
    rewrite bind_run. unfold length_size at 1. rewrite bind_run. cbn [gets]. rewrite Hl.
    rewrite bind_run, E. cbn [modify].
    set (s1 := set_dimensions _ _).
    replace (Z.pred (Z.of_nat (length (d :: dims)))) with (Z.of_nat (length dims))
      by (cbn [length]; lia).
    destruct (IH (Z.succ k) s1) as (s' & E' & Hp & Hdm & Hn & Hl').
    + exact Hcr.
    + cbn. congruence.
    + cbn. rewrite Hbr. lia.
    + cbn. rewrite Hbr. lia.
    + exact Hb.
    + intros i d' Hi. cbn. rewrite Hbr.
      rewrite <- (Hfile (S i) d' Hi). f_equal. lia.
    + exists s'. split; [exact E'|]. cbn in Hp, Hdm, Hn.
      split; [cbn [length]; lia|]. split; [|split; assumption].
      rewrite Hdm, <- app_assoc. reflexivity.
Qed.

End Dataspace.

Lemma when_true (c : M unit) : when_ true c = c.
Proof. reflexivity. Qed.

Lemma when_false (c : M unit) : when_ false c = skip.
Proof. reflexivity. Qed.

Lemma skip_run (s : Dataset) : skip s = (Ret tt, s).
Proof. reflexivity. Qed.

Lemma file_driver_3 content a x y z :
  0 <= a -> file_driver content a 3 = [x; y; z] ->
  file_driver content a 1 = [x] /\ file_driver content (a + 1) 1 = [y]
  /\ file_driver content (a + 2) 1 = [z].
Proof.
  intros Ha H.
  pose proof (file_driver_app content a 1 2 Ha ltac:(lia) ltac:(lia)) as H12.
  pose proof (file_driver_app content (a + 1) 1 1 ltac:(lia) ltac:(lia) ltac:(lia)) as H11.
  change (1 + 2) with 3 in H12. change (1 + 1) with 2 in H11.
  replace (a + 1 + 1) with (a + 2) in H11 by lia.
  rewrite <- H12, <- H11 in H. clear H12 H11.
  assert (L : forall p, (length (file_driver content p 1) <= 1)%nat).
  { intros p. unfold file_driver. rewrite length_take. lia. }
  pose proof (L a). pose proof (L (a + 1)). pose proof (L (a + 2)).
  destruct (file_driver content a 1) as [|x' [|]]; cbn [length] in *; try lia;
  destruct (file_driver content (a + 1) 1) as [|y' [|]]; cbn [length] in *; try lia;
  destruct (file_driver content (a + 2) 1) as [|z' [|]]; cbn [length] in *; try lia;
  cbn in H; try discriminate H.
  injection H as -> -> ->. auto.
Qed.

(** X10.  Without error checking, a well-formed dataspace message is parsed:
    the rank kept is the one stored, cut to [MAX_NDIMS]; that many
    dimensions, each [lengthSize] bytes little-endian, are appended to
    [dimensions]; and the handler returns the bytes from the start of the
    message to the end of the dimensions, plus the maximum dimensions
    when the flag says they follow. *)
Theorem dataspaceMsgHandler_parses (cfg : Config) (content : bytes) (s : Dataset)
    (sz fl version rank flags wl : Z) (dims : list Z) :
  cfg_driver cfg = file_driver content ->
  cfg_errorChecking cfg = false ->
  cache_coherent (file_driver content) (resourceObject s) ->
  lengthSize (resourceObject s) = wl ->
  wl = 1 \/ wl = 2 \/ wl = 4 \/ wl = 8 ->
  let a := pos s + baseAddress (resourceObject s) in
  let body := a + 3 + (if version =? 1 then 5 else 1) in
  let n := Z.min rank MAX_NDIMS in
  0 <= a -> body + n * wl <= 2 ^ 64 ->
  0 <= rank ->
  file_driver content a 3 = [version; rank; flags] ->
  Z.of_nat (length dims) = n ->
  Forall (fun d => 0 <= d < 2 ^ (8 * wl)) dims ->
  (forall (i : nat) d, dims !! i = Some d ->
     file_driver content (body + Z.of_nat i * wl) wl = Z_to_little_endian wl 8 d) ->
  exists s',
    dataspaceMsgHandler cfg sz fl s
    = (Ret (3 + (if version =? 1 then 5 else 1) + n * wl
            + (if (0 <? n) && truthy (Z.land flags 1) then rank * wl else 0)), s')
    /\ ndims s' = Some n
    /\ dimensions s' = dimensions s ++ dims.
Proof.
  intros Hdrv Hchk Hc Hl Hwl a body n Ha Hmax Hrank Hhead Hlen Hb Hfile.
  destruct (file_driver_3 content a version rank flags Ha Hhead) as (Hv & Hr & Hf).
  assert (Hn : 0 <= n <= 2) by (unfold n, MAX_NDIMS; lia).
  assert (Hskip : 1 <= (if version =? 1 then 5 else 1) <= 5) by (destruct (version =? 1); lia).
  assert (Hwl' : 1 <= wl <= 8) by lia.
  unfold dataspaceMsgHandler, consumed.
  rewrite bind_run. cbn [gets].
  rewrite bind_run, bind_run.
  destruct (readField_byte cfg content s version Hdrv Hc)
    as (r1 & E1 & Hc1 & Hl1 & Hb1 & _); [fold a; lia | fold a; lia | exact Hv |].
  rewrite E1. set (s1 := set_pos (pos s + 1) (set_resourceObject r1 s)).
  rewrite bind_run.
  destruct (readField_byte cfg content s1 rank Hdrv Hc1)
    as (r2 & E2 & Hc2 & Hl2 & Hb2 & _).
  { cbn. rewrite Hb1. fold a. lia. }
  { cbn. rewrite Hb1. fold a. lia. }
  { cbn. rewrite Hb1. replace (pos s + 1 + _) with (a + 1) by (unfold a; lia). exact Hr. }
  rewrite E2. set (s2 := set_pos (pos s1 + 1) (set_resourceObject r2 s1)).
  cbn in Hl2, Hb2.
  rewrite bind_run.
  destruct (readField_byte cfg content s2 flags Hdrv Hc2)
    as (r3 & E3 & Hc3 & Hl3 & Hb3 & _).
  { cbn. rewrite Hb2, Hb1. fold a. lia. }
  { cbn. rewrite Hb2, Hb1. fold a. lia. }
  { cbn. rewrite Hb2, Hb1.
    replace (pos s + 1 + 1 + _) with (a + 2) by (unfold a; lia). exact Hf. }
  rewrite E3. set (s3 := set_pos (pos s2 + 1) (set_resourceObject r3 s2)).
  cbn in Hl3, Hb3.
  assert (Hb3' : baseAddress r3 = baseAddress (resourceObject s)) by congruence.
  assert (Hl3' : lengthSize r3 = wl) by congruence.
  assert (Hp3 : pos s3 = pos s + 3) by (cbn; lia).
  rewrite bind_run. cbn [advance modify].
  rewrite Hchk. cbn [when_]. rewrite bind_run. unfold skip. cbn [mret M_ret].
  rewrite bind_run. cbn [modify]. fold n.
  set (s4 := set_ndims (Some n) _).
  assert (Hp4 : pos s4 = body - baseAddress (resourceObject s)).
  { cbn [s4 pos set_ndims set_pos]. rewrite Hp3. unfold body, a. lia. }
  destruct (read_dimensions cfg content wl Hdrv Hwl dims 0 s4) as (s5 & E5 & Hp5 & Hd5 & Hn5 & Hl5).
  { exact Hc3. }
  { exact Hl3'. }
  { change (baseAddress (resourceObject s4)) with (baseAddress r3).
    rewrite Hp4, Hb3'. unfold body. lia. }
  { change (baseAddress (resourceObject s4)) with (baseAddress r3).
    rewrite Hp4, Hb3', Hlen. lia. }
  { exact Hb. }
  { intros i d Hi.
    change (baseAddress (resourceObject s4)) with (baseAddress r3).
    rewrite Hp4, Hb3'. rewrite <- (Hfile i d Hi). f_equal. lia. }
  rewrite Hlen in E5, Hp5.
  unfold range.
  destruct (Z.ltb_spec 0 n) as [Hpos|Hzero].
  - rewrite when_true. cbn [andb]. rewrite bind_run, E5.
    destruct (truthy (Z.land flags 1)).
    + rewrite when_true. rewrite bind_run. unfold length_size at 1. cbn [gets].
      rewrite Hl5. cbn [advance modify]. rewrite bind_run. cbn [gets mret M_ret].
      exists (set_pos (pos s5 + rank * wl) s5).
      split; [|split; [exact Hn5|cbn [dimensions set_pos]; rewrite Hd5; reflexivity]].
      unfold mret, M_ret. cbn [pos set_pos].
      match goal with |- (Ret ?x, _) = (Ret ?y, _) => replace x with y by (rewrite ?Hp5, ?Hp4; unfold body, a; lia) end; reflexivity.
    + rewrite when_false, skip_run. rewrite bind_run. cbn [gets]. unfold mret, M_ret.
      exists s5. split; [|split; [exact Hn5|rewrite Hd5; reflexivity]].
      match goal with |- (Ret ?x, _) = (Ret ?y, _) => replace x with y by (rewrite ?Hp5, ?Hp4; unfold body, a; lia) end; reflexivity.
  - rewrite when_false, skip_run. cbn [andb]. rewrite bind_run. cbn [gets]. unfold mret, M_ret.
    assert (dims = []) as -> by (apply length_zero_iff_nil; lia).
    exists s4. split; [|split; [reflexivity|cbn; rewrite app_nil_r; reflexivity]].
    match goal with |- (Ret ?x, _) = (Ret ?y, _) => replace x with y by (rewrite ?Hp5, ?Hp4; unfold body, a; lia) end; reflexivity.
Qed.

Lemma dataspaceMsgHandler_parses_witness :
  exists s',
    dataspaceMsgHandler (config dataspace_file false false) 16 0 (worker "x" 12)
    = (Ret 16, s')
    /\ ndims s' = Some 1 /\ dimensions s' = [100].
Proof.
  apply (dataspaceMsgHandler_parses (config dataspace_file false false) dataspace_file
           (worker "x" 12) 16 0 1 1 0 8 [100]).
  - reflexivity.
  - reflexivity.
  - intros line data H. vm_compute in H. discriminate.
  - reflexivity.
  - right; right; right; reflexivity.
  - discriminate.
  - discriminate.
  - discriminate.
  - vm_compute. reflexivity.
  - reflexivity.
  - constructor; [split; [discriminate|reflexivity]|constructor].
  - intros [|i] d H; [|discriminate H].
    injection H as <-. vm_compute. reflexivity.
Defined.

(** ** Parsing a datatype message *)

(** A field that lies inside a local file is read, whatever it holds. *)
Lemma readField_in_file cfg content s size :
  cfg_driver cfg = file_driver content ->
  cache_coherent (file_driver content) (resourceObject s) ->
  0 <= pos s + baseAddress (resourceObject s) ->
  pos s + baseAddress (resourceObject s) + size <= Z.of_nat (length content) ->
  Z.of_nat (length content) <= 2 ^ 64 ->
  size = 1 \/ size = 2 \/ size = 4 \/ size = 8 ->
  exists v r,
    readField cfg size s = (Ret v, set_pos (pos s + size) (set_resourceObject r s))
    /\ cache_coherent (file_driver content) r
    /\ baseAddress r = baseAddress (resourceObject s).
Proof.
  intros Hdrv Hc Ha Hin Hlen Hsize.
  eexists _, (ioRequest (file_driver content) (pos s) size (resourceObject s)).2.
  split; [|split; [apply ioRequest_coherent, Hc|apply ioRequest_params]].
  rewrite readField_run, Hdrv. f_equal.
  destruct (proj2 (SIZE_2_FORMAT_Some size) Hsize) as [f ->].
  cbv zeta. rewrite ioRequest_file by first [assumption | lia].
  rewrite length_file_driver.
  destruct (Z.eqb_spec (Z.max 0 (Z.min size (Z.of_nat (length content)
              - Z.max 0 (pos s + baseAddress (resourceObject s))))) size); [reflexivity|lia].
Qed.

(** Bit 3 of the class bit field, as the handler extracts it. *)
Lemma sign_bit (vc : Z) :
  (Z.shiftr (Z.land (Z.shiftr vc 8) 0x08) 3 =? 1) = Z.testbit vc 11.
Proof.
  rewrite Z.shiftr_land. change (Z.shiftr 8 3) with (Z.ones 1).
  rewrite Z.land_ones by lia. change (2 ^ 1) with 2.
  rewrite <- Z.bit0_mod. rewrite !Z.shiftr_spec by lia. change (0 + 3 + 8) with 11.
  destruct (Z.testbit vc 11); reflexivity.
Qed.

Ltac base_address :=
  repeat match goal with
  | H : baseAddress ?r = _ |- context [baseAddress ?r] => rewrite H
  end.

(** One more field read for the log, from inside the file. *)
Ltac logged_read Hdrv :=
  rewrite bind_run;
  match goal with
  | |- context [readField ?cfg ?n ?st] =>
      let v := fresh "v" in
      let r := fresh "r" in
      let E := fresh "E" in
      let Hc := fresh "Hc" in
      let Hb := fresh "Hb" in
      destruct (readField_in_file cfg _ st n Hdrv) as (v & r & E & Hc & Hb);
      [ cbn; assumption
      | cbn; base_address; lia
      | cbn; base_address; lia
      | lia
      | lia
      | cbn in Hb; rewrite E; clear E ]
  end.

Ltac finish_run :=
  cbn [pos set_pos set_signedval set_type set_typeSize set_resourceObject];
  match goal with
  | |- (Ret ?x, _) = (Ret ?y, _) => replace x with y by lia
  end;
  reflexivity.

(** X11.  A well-formed datatype message of class fixed point, floating point
    or string is parsed: [type] is the class, the low four bits of the
    first word; [typeSize] is the second word, and 1 for a string;
    [signedval] is bit 3 of the class bit field (bit 11 of the first word),
    for a floating-point type too, and [True] for a string.  The handler
    returns the 8 bytes of the two words plus the 4 or 12 bytes of the
    properties of a fixed-point or floating-point type. *)
Theorem datatypeMsgHandler_parses (cfg : Config) (content : bytes) (s : Dataset)
    (sz fl vc ts : Z) :
  cfg_driver cfg = file_driver content ->
  cache_coherent (file_driver content) (resourceObject s) ->
  let a := pos s + baseAddress (resourceObject s) in
  let class := Z.land vc 0x0F in
  let rest := if class =? FIXED_POINT_TYPE then 4
              else if class =? FLOATING_POINT_TYPE then 12 else 0 in
  0 <= a -> a + 8 + rest <= Z.of_nat (length content) ->
  Z.of_nat (length content) <= 2 ^ 64 ->
  0 <= vc < 2 ^ 32 -> 0 <= ts < 2 ^ 32 ->
  file_driver content a 4 = Z_to_little_endian 4 8 vc ->
  file_driver content (a + 4) 4 = Z_to_little_endian 4 8 ts ->
  class = FIXED_POINT_TYPE \/ class = FLOATING_POINT_TYPE \/ class = STRING_TYPE ->
  (cfg_errorChecking cfg = true -> Z.shiftr (Z.land vc 0xF0) 4 = 1) ->
  exists s',
    datatypeMsgHandler cfg sz fl s = (Ret (8 + rest), s')
    /\ type_ s' = Some class
    /\ typeSize s' = (if class =? STRING_TYPE then 1 else ts)
    /\ signedval s' = (if class =? STRING_TYPE then true else Z.testbit vc 11).
Proof.
  intros Hdrv Hc a class rest Ha Hin Hlen Hvc Hts Hf1 Hf2 Hclass Hver.
  assert (Hrest : 0 <= rest <= 12).
  { unfold rest. destruct (class =? _); [lia|]. destruct (class =? _); lia. }
  unfold datatypeMsgHandler, consumed.
  rewrite bind_run. cbn [gets]. rewrite bind_run, bind_run.
  destruct (readField_file cfg content s 4 vc Hdrv Hc)
    as (r1 & E1 & Hc1 & _ & Hb1 & _); [fold a; lia | fold a; lia | auto | exact Hvc | exact Hf1 |].
  rewrite E1. clear E1. rewrite bind_run.
  destruct (readField_file cfg content (set_pos (pos s + 4) (set_resourceObject r1 s)) 4 ts
              Hdrv Hc1) as (r2 & E2 & Hc2 & _ & Hb2 & _).
  { cbn. rewrite Hb1. fold a. lia. }
  { cbn. rewrite Hb1. fold a. lia. }
  { auto. }
  { exact Hts. }
  { cbn. rewrite Hb1. replace (pos s + 4 + _) with (a + 4) by (unfold a; lia). exact Hf2. }
  cbn in Hb2. rewrite E2. clear E2.
  rewrite bind_run. cbn [modify]. cbv zeta.
  rewrite bind_run. cbn [modify]. rewrite bind_run. cbn [modify].
  rewrite sign_bit. fold class.
  assert (Hcheck : cfg_errorChecking cfg && negb (Z.shiftr (Z.land vc 0xF0) 4 =? 1) = false).
  { destruct (cfg_errorChecking cfg); [|reflexivity].
    rewrite (Hver eq_refl). reflexivity. }
  rewrite bind_run, Hcheck, when_false, skip_run.
  unfold rest in *. clear rest.
  destruct Hclass as [Hk|[Hk|Hk]]; rewrite Hk in *;
    cbn [Z.eqb FIXED_POINT_TYPE FLOATING_POINT_TYPE STRING_TYPE VARIABLE_LENGTH_TYPE
         Pos.eqb] in *.
  - destruct (cfg_verbose cfg).
    + do 2 logged_read Hdrv. rewrite skip_run. cbn [gets pos set_pos].
      rewrite bind_run. cbn [gets]. unfold mret, M_ret. cbn [pos set_pos].
      eexists. split; [finish_run|]. split; [reflexivity|split; reflexivity].
    + cbn [advance modify]. rewrite bind_run. cbn [gets]. unfold mret, M_ret. cbn [pos set_pos].
      eexists. split; [finish_run|]. split; [reflexivity|split; reflexivity].
  - destruct (cfg_verbose cfg).
    + do 7 logged_read Hdrv. rewrite skip_run. cbn [gets pos set_pos].
      rewrite bind_run. cbn [gets]. unfold mret, M_ret. cbn [pos set_pos].
      eexists. split; [finish_run|]. split; [reflexivity|split; reflexivity].
    + cbn [advance modify]. rewrite bind_run. cbn [gets]. unfold mret, M_ret. cbn [pos set_pos].
      eexists. split; [finish_run|]. split; [reflexivity|split; reflexivity].
  - rewrite bind_run. cbn [modify]. rewrite bind_run. cbn [gets]. unfold mret, M_ret.
    cbn [pos set_pos set_typeSize set_signedval].
    eexists. split; [finish_run|]. split; [reflexivity|split; reflexivity].
Qed.

Lemma datatypeMsgHandler_parses_witness :
  exists s',
    datatypeMsgHandler (config linked_file true true) 12 0 (worker "a" 44) = (Ret 12, s')
    /\ type_ s' = Some FIXED_POINT_TYPE /\ typeSize s' = 4 /\ signedval s' = true.
Proof.
  apply (datatypeMsgHandler_parses (config linked_file true true) linked_file
           (worker "a" 44) 12 0 0x0810 4).
  - reflexivity.
  - intros line data H. vm_compute in H. discriminate.
  - discriminate.
  - discriminate.
  - discriminate.
  - split; [discriminate|reflexivity].
  - split; [discriminate|reflexivity].
  - vm_compute. reflexivity.
  - vm_compute. reflexivity.
  - left. reflexivity.
  - intros _. reflexivity.
Defined.

(** ** Parsing a chunked data layout message *)

Section Layout.

Variable cfg : Config.
Variable content : bytes.
Hypothesis Hdrv : cfg_driver cfg = file_driver content.

(** The loop that reads the chunk dimensions. *)
Lemma read_chunk_dimensions (cdims : list Z) : forall (k : Z) (s : Dataset),
  cache_coherent (file_driver content) (resourceObject s) ->
  0 <= pos s + baseAddress (resourceObject s) ->
  pos s + baseAddress (resourceObject s) + 4 * Z.of_nat (length cdims) <= 2 ^ 64 ->
  Forall (fun d => 0 <= d < 2 ^ 32) cdims ->
  (forall (i : nat) d, cdims !! i = Some d ->
     file_driver content (pos s + baseAddress (resourceObject s) + 4 * Z.of_nat i) 4
     = Z_to_little_endian 4 8 d) ->
  exists s',
    for_each (seqZ k (Z.of_nat (length cdims))) (fun _ =>
      chunk_dimension ← readField cfg 4;
      modify (fun s => set_chunkDimensions (chunkDimensions s ++ [chunk_dimension]) s);;
      modify (fun s => set_chunkElements (chunkElements s * chunk_dimension) s)) s
    = (Ret tt, s')
    /\ pos s' = pos s + 4 * Z.of_nat (length cdims)
    /\ chunkDimensions s' = chunkDimensions s ++ cdims
    /\ chunkElements s' = chunkElements s * foldr Z.mul 1 cdims
    /\ cache_coherent (file_driver content) (resourceObject s')
    /\ baseAddress (resourceObject s') = baseAddress (resourceObject s)
    /\ layout s' = layout s /\ address s' = address s.
Proof.
  induction cdims as [|d cdims IH]; intros k s Hc Ha Hmax Hb Hfile.
  - exists s. cbn. rewrite app_nil_r. repeat split; try lia. exact Hc.
  - rewrite seqZ_cons by (cbn [length]; lia). cbn [for_each].
    apply Forall_cons in Hb. destruct Hb as (Hd & Hb).
    pose proof (Hfile 0%nat d eq_refl) as H0. rewrite Z.mul_0_r, Z.add_0_r in H0.
    cbn [length] in Hmax.
    destruct (readField_file cfg content s 4 d Hdrv Hc Ha ltac:(lia) ltac:(auto) Hd H0)
      as (r & E & Hcr & _ & Hbr & _).
    rewrite bind_run, bind_run, E. rewrite bind_run. cbn [modify].
    set (s1 := set_chunkElements _ _).
    replace (Z.pred (Z.of_nat (length (d :: cdims)))) with (Z.of_nat (length cdims))
      by (cbn [length]; lia).
    destruct (IH (Z.succ k) s1) as (s' & E' & Hp & Hcd & Hce & Hc' & Hb' & Hl' & Ha').
    + exact Hcr.
    + cbn. rewrite Hbr. lia.
    + cbn. rewrite Hbr. lia.
    + exact Hb.
    + intros i d' Hi. cbn. rewrite Hbr.
      rewrite <- (Hfile (S i) d' Hi). f_equal. lia.
    + exists s'. split; [exact E'|]. cbn in Hp, Hcd, Hce, Hb', Hl', Ha'.
      split; [cbn [length]; lia|].
      split; [rewrite Hcd, <- app_assoc; reflexivity|].
      split; [rewrite Hce; cbn [foldr]; ring|].
      split; [exact Hc'|]. split; [congruence|]. split; assumption.
Qed.

End Layout.

(** X12.  A well-formed data layout message of a chunked dataset is parsed:
    [layout] is [CHUNKED_LAYOUT], [address] the address of the chunk
    B-tree, the chunk dimensions (the stored rank less one, cut to
    [MAX_NDIMS], each 4 bytes little-endian) are appended to
    [chunkDimensions], [chunkElements] is their product, and
    [elementSize] the 4 bytes behind them. *)
Theorem datalayoutMsgHandler_chunked (cfg : Config) (content : bytes) (s : Dataset)
    (sz fl version rank wo btree es : Z) (cdims : list Z) :
  cfg_driver cfg = file_driver content ->
  cache_coherent (file_driver content) (resourceObject s) ->
  offsetSize (resourceObject s) = wo ->
  wo = 1 \/ wo = 2 \/ wo = 4 \/ wo = 8 ->
  let a := pos s + baseAddress (resourceObject s) in
  let n := Z.min (rank - 1) MAX_NDIMS in
  let len := Z.of_nat (length cdims) in
  0 <= a -> a + 3 + wo + 4 * len + 4 <= 2 ^ 64 ->
  file_driver content a 3 = [version; CHUNKED_LAYOUT; rank] ->
  (cfg_errorChecking cfg = true ->
   version = 3 /\ (ndims s = None \/ ndims s = Some n)) ->
  0 <= btree < 2 ^ (8 * wo) ->
  file_driver content (a + 3) wo = Z_to_little_endian wo 8 btree ->
  len = Z.max 0 n ->
  Forall (fun d => 0 <= d < 2 ^ 32) cdims ->
  (forall (i : nat) d, cdims !! i = Some d ->
     file_driver content (a + 3 + wo + 4 * Z.of_nat i) 4 = Z_to_little_endian 4 8 d) ->
  0 <= es < 2 ^ 32 ->
  file_driver content (a + 3 + wo + 4 * len) 4 = Z_to_little_endian 4 8 es ->
  exists s',
    datalayoutMsgHandler cfg sz fl s = (Ret (3 + wo + 4 * len + 4), s')
    /\ layout s' = Some CHUNKED_LAYOUT
    /\ address s' = btree
    /\ chunkDimensions s' = chunkDimensions s ++ cdims
    /\ chunkElements s' = (if 0 <? n then foldr Z.mul 1 cdims else chunkElements s)
    /\ elementSize s' = es.
Proof.
  intros Hdrv Hc Hwo Hwos a n len Ha Hmax Hhead Hchk Hbt Hfb Hlen Hb Hfile Hes Hfe.
  destruct (file_driver_3 content a version CHUNKED_LAYOUT rank Ha Hhead) as (Hv & Hl & Hr).
  assert (Hwo' : 1 <= wo <= 8) by lia.
  assert (Hlen0 : 0 <= len) by (unfold len; lia).
  unfold datalayoutMsgHandler, consumed.
  rewrite bind_run. cbn [gets]. rewrite bind_run, bind_run.
  destruct (readField_byte cfg content s version Hdrv Hc)
    as (r1 & E1 & Hc1 & _ & Hb1 & Ho1); [fold a; lia | fold a; lia | exact Hv |].
  rewrite E1. clear E1. rewrite bind_run.
  destruct (readField_byte cfg content (set_pos (pos s + 1) (set_resourceObject r1 s))
              CHUNKED_LAYOUT Hdrv Hc1) as (r2 & E2 & Hc2 & _ & Hb2 & Ho2).
  { cbn. rewrite Hb1. fold a. lia. }
  { cbn. rewrite Hb1. fold a. lia. }
  { cbn. rewrite Hb1. replace (pos s + 1 + _) with (a + 1) by (unfold a; lia). exact Hl. }
  cbn in Hb2, Ho2. rewrite E2. clear E2.
  rewrite bind_run. cbn [modify].
  assert (Hcheck1 : cfg_errorChecking cfg && negb (version =? 3) = false).
  { destruct (cfg_errorChecking cfg); [|reflexivity].
    destruct (Hchk eq_refl) as (-> & _). reflexivity. }
  rewrite bind_run, Hcheck1, when_false, skip_run.
  cbn [Z.eqb CHUNKED_LAYOUT COMPACT_LAYOUT CONTIGUOUS_LAYOUT Pos.eqb].
  rewrite bind_run.
  match goal with |- context [readField cfg 1 ?st] =>
    destruct (readField_byte cfg content st rank Hdrv) as (r3 & E3 & Hc3 & _ & Hb3 & Ho3) end.
  { exact Hc2. }
  { cbn. rewrite Hb2, Hb1. fold a. lia. }
  { cbn. rewrite Hb2, Hb1. fold a. lia. }
  { cbn. rewrite Hb2, Hb1. replace (pos s + 1 + 1 + _) with (a + 2) by (unfold a; lia).
    exact Hr. }
  cbn in Hb3, Ho3. rewrite E3. clear E3. cbv zeta. fold n.
  rewrite bind_run. cbn [gets ndims set_pos set_resourceObject set_layout].
  assert (Hcheck2 : cfg_errorChecking cfg
            && match ndims s with Some n0 => negb (n =? n0) | None => false end = false).
  { destruct (cfg_errorChecking cfg); [|reflexivity].
    destruct (Hchk eq_refl) as (_ & [-> | ->]); [reflexivity|].
    rewrite Z.eqb_refl. reflexivity. }
  rewrite bind_run, Hcheck2, when_false, skip_run.
  rewrite bind_run. unfold offset_size at 1. cbn [gets].
  cbn [resourceObject set_pos set_resourceObject set_layout].
  assert (Ho : offsetSize r3 = wo) by congruence.
  assert (Hb0 : baseAddress r3 = baseAddress (resourceObject s)) by congruence.
  rewrite Ho. rewrite bind_run.
  match goal with |- context [readField cfg wo ?st] =>
    destruct (readField_file cfg content st wo btree Hdrv)
      as (r4 & E4 & Hc4 & _ & Hb4 & Ho4) end.
  { exact Hc3. }
  { cbn. rewrite Hb0. fold a. lia. }
  { cbn. rewrite Hb0. fold a. lia. }
  { exact Hwos. }
  { exact Hbt. }
  { cbn. rewrite Hb0. replace (pos s + 1 + 1 + 1 + _) with (a + 3) by (unfold a; lia).
    exact Hfb. }
  cbn in Hb4. rewrite E4. clear E4.
  rewrite bind_run. cbn [modify].
  rewrite bind_run.
  set (s5 := set_address btree _).
  assert (Hp5 : pos s5 + baseAddress (resourceObject s5) = a + 3 + wo).
  { cbn. rewrite Hb4, Hb0. unfold a. lia. }
  assert (Hc5 : cache_coherent (file_driver content) (resourceObject s5)) by exact Hc4.
  assert (Hstart : pos s5 = pos s + 3 + wo) by (cbn; lia).
  (* the dimensions, when there are any *)
  assert (Hloop : exists s6,
    when_ (0 <? n)
      (modify (set_chunkElements 1);;
       for_each (range n) (fun _ =>
         chunk_dimension ← readField cfg 4;
         modify (fun s => set_chunkDimensions (chunkDimensions s ++ [chunk_dimension]) s);;
         modify (fun s => set_chunkElements (chunkElements s * chunk_dimension) s))) s5
    = (Ret tt, s6)
    /\ pos s6 = pos s5 + 4 * len
    /\ chunkDimensions s6 = chunkDimensions s ++ cdims
    /\ chunkElements s6 = (if 0 <? n then foldr Z.mul 1 cdims else chunkElements s)
    /\ cache_coherent (file_driver content) (resourceObject s6)
    /\ baseAddress (resourceObject s6) = baseAddress (resourceObject s5)
    /\ layout s6 = Some CHUNKED_LAYOUT /\ address s6 = btree).
  { destruct (Z.ltb_spec 0 n) as [Hpos|Hzero].
    - rewrite when_true, bind_run. cbn [modify].
      destruct (read_chunk_dimensions cfg content Hdrv cdims 0 (set_chunkElements 1 s5))
        as (s6 & E6 & Hp6 & Hcd6 & Hce6 & Hc6 & Hb6 & Hl6 & Ha6).
      + exact Hc5.
      + change (pos (set_chunkElements 1 s5)) with (pos s5).
        change (resourceObject (set_chunkElements 1 s5)) with (resourceObject s5).
        rewrite Hp5. lia.
      + change (pos (set_chunkElements 1 s5)) with (pos s5).
        change (resourceObject (set_chunkElements 1 s5)) with (resourceObject s5).
        rewrite Hp5. fold len. lia.
      + exact Hb.
      + intros i d Hi.
        change (pos (set_chunkElements 1 s5)) with (pos s5).
        change (resourceObject (set_chunkElements 1 s5)) with (resourceObject s5).
        rewrite Hp5. apply Hfile, Hi.
      + exists s6. unfold range. fold len in E6, Hp6.
        replace n with len by lia. split; [exact E6|].
        split; [exact Hp6|]. split; [exact Hcd6|].
        split; [rewrite Hce6; cbn; lia|].
        split; [exact Hc6|]. split; [exact Hb6|]. split; assumption.
    - rewrite when_false, skip_run.
      assert (cdims = []) as -> by (apply length_zero_iff_nil; unfold len in Hlen; lia).
      exists s5. split; [reflexivity|]. cbn [length Z.of_nat] in *.
      split; [unfold len; cbn; lia|]. split; [cbn; rewrite app_nil_r; reflexivity|].
      split; [reflexivity|]. split; [exact Hc5|]. split; [reflexivity|].
      split; reflexivity. }
  destruct Hloop as (s6 & E6 & Hp6 & Hcd6 & Hce6 & Hc6 & Hb6 & Hl6 & Ha6).
  rewrite E6. rewrite bind_run.
  destruct (readField_file cfg content s6 4 es Hdrv Hc6)
    as (r7 & E7 & Hc7 & _ & Hb7 & _).
  { rewrite Hb6, Hp6. lia. }
  { rewrite Hb6, Hp6. lia. }
  { auto. }
  { exact Hes. }
  { rewrite Hb6, Hp6. replace (pos s5 + 4 * len + _) with (a + 3 + wo + 4 * len) by lia.
    exact Hfe. }
  rewrite E7. clear E7. cbn [modify].
  rewrite bind_run. cbn [gets]. unfold mret, M_ret.
  cbn [pos set_pos set_elementSize set_resourceObject].
  eexists. split.
  { match goal with |- (Ret ?x, _) = (Ret ?y, _) => replace x with y by lia end.
    reflexivity. }
  cbn. auto.
Qed.

Lemma datalayoutMsgHandler_chunked_witness :
  exists s',
    datalayoutMsgHandler (config chunked_fill_file true false) 19 0 (worker "d" 104)
    = (Ret 19, s')
    /\ layout s' = Some CHUNKED_LAYOUT
    /\ address s' = 200
    /\ chunkDimensions s' = [5]
    /\ chunkElements s' = 5
    /\ elementSize s' = 4.
Proof.
  apply (datalayoutMsgHandler_chunked (config chunked_fill_file true false)
           chunked_fill_file (worker "d" 104) 19 0 3 2 8 200 4 [5]).
  - reflexivity.
  - intros line data H. vm_compute in H. discriminate.
  - reflexivity.
  - right; right; right; reflexivity.
  - discriminate.
  - discriminate.
  - vm_compute. reflexivity.
  - intros _. split; [reflexivity|left; reflexivity].
  - split; [discriminate|reflexivity].
  - vm_compute. reflexivity.
  - reflexivity.
  - constructor; [split; [discriminate|reflexivity]|constructor].
  - intros [|i] d H; [|discriminate H].
    injection H as <-. vm_compute. reflexivity.
  - split; [discriminate|reflexivity].
  - vm_compute. reflexivity.
Defined.

(** ** What a walk of the object headers keeps

    A property of the dataset object is kept by every run of the walker,
    whatever the file holds and however the run ends, as soon as it is
    kept by the assignments of the source, taken one by one. *)

Create HintDb frame discriminated.

Ltac frame_step :=
  first
    [ solve [auto 1 with frame nocore]
    | apply preserves_bind; [|intros ?]
    | apply preserves_ret
    | apply preserves_raise
    | apply preserves_out_of_fuel
    | apply preserves_gets
    | apply preserves_modify; intros ? ?; solve [auto 2 with frame nocore]
    | apply preserves_for_each; intros ?
    | apply preserves_for_each_break; intros ?
    | apply preserves_try
    | match goal with
      | |- preserves _ (if ?b then _ else _) => destruct b
      | |- preserves _ (match ?x with _ => _ end) => destruct x
      | |- preserves _ (let '(_, _) := ?x in _) => destruct x
      end ].

Ltac frame_auto :=
  unfold consumed, when_, skip, fatal, advance, advance_by_call,
         offset_size, length_size, invalid_offset, unpack;
  repeat frame_step.

Section Frame.

Variable P : Dataset -> Prop.
Variable cfg : Config.

Hypothesis P_pos : forall v s, P s -> P (set_pos v s).
Hypothesis P_ioRequest : forall p n s, P s ->
  P (set_resourceObject (ioRequest (cfg_driver cfg) p n (resourceObject s)).2 s).
Hypothesis P_level : forall c s, P s ->
  datasetPath s !! Z.to_nat (datasetLevel s) = Some c ->
  P (set_datasetLevel (datasetLevel s + 1) s).
Hypothesis P_ndims : forall v s, P s -> P (set_ndims v s).
Hypothesis P_dimensions : forall v s, P s -> P (set_dimensions (dimensions s ++ [v]) s).
Hypothesis P_typeSize : forall v s, P s -> P (set_typeSize v s).
Hypothesis P_type : forall v s, P s -> P (set_type v s).
Hypothesis P_signedval : forall v s, P s -> P (set_signedval v s).
Hypothesis P_fillsize : forall v s, P s -> P (set_fillsize v s).
Hypothesis P_fillvalue : forall v s, P s -> P (set_fillvalue v s).
Hypothesis P_layout : forall v s, P s -> P (set_layout v s).
Hypothesis P_size : forall v s, P s -> P (set_size v s).
Hypothesis P_address : forall v s, P s -> P (set_address v s).
Hypothesis P_chunkElements : forall v s, P s -> P (set_chunkElements v s).
Hypothesis P_chunkDimensions : forall v s, P s ->
  P (set_chunkDimensions (chunkDimensions s ++ [v]) s).
Hypothesis P_elementSize : forall v s, P s -> P (set_elementSize v s).
Hypothesis P_filter : forall f s, P s -> P (set_filter (<[f := true]> (filter_ s)) s).

Lemma frame_resource_ioRequest p size : preserves P (resource_ioRequest cfg p size).
Proof.
  intros s H. unfold resource_ioRequest.
  pose proof (P_ioRequest p size s H) as H'.
  destruct (ioRequest (cfg_driver cfg) p size (resourceObject s)) as [raw r]. exact H'.
Qed.

#[local] Hint Resolve frame_resource_ioRequest : frame.

Lemma frame_readField size : preserves P (readField cfg size).
Proof. unfold readField. frame_auto. Qed.

Lemma frame_readArray size : preserves P (readArray cfg size).
Proof. unfold readArray. frame_auto. Qed.

#[local] Hint Resolve frame_readField frame_readArray : frame.

Lemma frame_dataspaceMsgHandler sz fl : preserves P (dataspaceMsgHandler cfg sz fl).
Proof. unfold dataspaceMsgHandler. frame_auto. Qed.

Lemma frame_datatypeMsgHandler sz fl : preserves P (datatypeMsgHandler cfg sz fl).
Proof. unfold datatypeMsgHandler. frame_auto. Qed.

Lemma frame_fillvalueMsgHandler sz fl : preserves P (fillvalueMsgHandler cfg sz fl).
Proof. unfold fillvalueMsgHandler. frame_auto. Qed.

Lemma frame_datalayoutMsgHandler sz fl : preserves P (datalayoutMsgHandler cfg sz fl).
Proof. unfold datalayoutMsgHandler. frame_auto. Qed.

Lemma frame_filterMsgHandler sz fl : preserves P (filterMsgHandler cfg sz fl).
Proof. unfold filterMsgHandler. frame_auto. Qed.

Lemma frame_attributeMsgHandler sz fl : preserves P (attributeMsgHandler cfg sz fl).
Proof. unfold attributeMsgHandler. frame_auto. Qed.

Lemma frame_readFractalHeap t h fl : preserves P (readFractalHeap cfg t h fl).
Proof. unfold readFractalHeap. frame_auto. Qed.

#[local] Hint Resolve frame_readFractalHeap : frame.

Lemma frame_linkinfoMsgHandler sz fl : preserves P (linkinfoMsgHandler cfg sz fl).
Proof. unfold linkinfoMsgHandler, follow_heap. frame_auto. Qed.

Lemma frame_attributeinfoMsgHandler sz fl :
  preserves P (attributeinfoMsgHandler cfg sz fl).
Proof. unfold attributeinfoMsgHandler, follow_heap. frame_auto. Qed.

Lemma frame_readSymbolTable heap : preserves P (readSymbolTable cfg heap).
Proof. unfold readSymbolTable. frame_auto. Qed.

#[local] Hint Resolve frame_readSymbolTable : frame.

(** The comparison of a link name with the path component of the current
    level, and the step to the next level on a match. *)
Lemma frame_follow_link {A} (link_name : string) (k : bool -> M A) :
  (forall b, preserves P (k b)) ->
  preserves P (
    component ← path_component;
    follow_link ← (if String.eqb link_name component then
                     modify (fun s => set_datasetLevel (datasetLevel s + 1) s);;
                     mret true
                   else mret false);
    k follow_link).
Proof.
  intros Hk s H. unfold path_component.
  rewrite bind_run, bind_run. cbn [gets]. rewrite bind_run. cbn [gets].
  destruct (datasetPath s !! Z.to_nat (datasetLevel s)) as [c|] eqn:E; [|exact H].
  cbn [mret M_ret]. rewrite bind_run.
  destruct (String.eqb link_name c).
  - rewrite bind_run. cbn [modify mret M_ret]. apply Hk. apply (P_level c), E. exact H.
  - cbn [mret M_ret]. apply Hk, H.
Qed.

Section FrameWalker.

Variable fuel : nat.
Variable rm : Z -> Z -> Z -> M Z.
Hypothesis rm_frame : forall t sz fl, preserves P (rm t sz fl).

Lemma frame_readMessagesV0_loop n e fl :
  preserves P (readMessagesV0_loop cfg rm n e fl).
Proof.
  induction n as [|n IH]; cbn [readMessagesV0_loop];
    unfold readMessagesV0_iter, readMessagesV0_prefix; frame_auto.
Qed.

Lemma frame_readMessagesV1_loop n e fl :
  preserves P (readMessagesV1_loop cfg rm n e fl).
Proof.
  induction n as [|n IH]; cbn [readMessagesV1_loop];
    unfold readMessagesV1_iter; frame_auto.
Qed.

#[local] Hint Resolve frame_readMessagesV0_loop frame_readMessagesV1_loop : frame.

Lemma frame_readMessagesV1 e fl : preserves P (readMessagesV1 cfg fuel rm e fl).
Proof. unfold readMessagesV1. frame_auto. Qed.

#[local] Hint Resolve frame_readMessagesV1 : frame.

Lemma frame_readObjHdr_rec : preserves P (readObjHdr cfg fuel rm).
Proof.
  unfold readObjHdr, readObjHdrV0, readObjHdrV1, readMessagesV0. frame_auto.
Qed.

#[local] Hint Resolve frame_readObjHdr_rec : frame.

Lemma frame_linkMsgHandler sz fl : preserves P (linkMsgHandler cfg fuel rm sz fl).
Proof.
  unfold linkMsgHandler.
  unfold consumed, when_, skip, fatal, advance, advance_by_call,
         offset_size, length_size, invalid_offset, unpack.
  repeat first [apply frame_follow_link; intros ? | frame_step].
Qed.

Lemma frame_headercontMsgHandler sz fl :
  preserves P (headercontMsgHandler cfg fuel rm sz fl).
Proof. unfold headercontMsgHandler. frame_auto. Qed.

Lemma frame_symboltable_descend n : preserves P (symboltable_descend cfg n).
Proof. induction n as [|n IH]; cbn [symboltable_descend]; frame_auto. Qed.

Lemma frame_symboltable_traverse n heap :
  preserves P (symboltable_traverse cfg n heap).
Proof. induction n as [|n IH]; cbn [symboltable_traverse]; frame_auto. Qed.

#[local] Hint Resolve frame_symboltable_descend frame_symboltable_traverse : frame.

Lemma frame_symboltableMsgHandler sz fl :
  preserves P (symboltableMsgHandler cfg fuel sz fl).
Proof. unfold symboltableMsgHandler. frame_auto. Qed.

Lemma frame_readMessage_body t sz fl :
  preserves P (readMessage_body cfg fuel rm t sz fl).
Proof.
  unfold readMessage_body, msg_handler_table.
  repeat match goal with
  | |- context [if ?a =? ?b then _ else _] => destruct (a =? b)
  end;
  first
    [ apply preserves_raise
    | apply preserves_try; [|apply preserves_ret] ].
  - apply frame_dataspaceMsgHandler.
  - apply frame_linkinfoMsgHandler.
  - apply frame_datatypeMsgHandler.
  - apply frame_fillvalueMsgHandler.
  - apply frame_linkMsgHandler.
  - apply frame_datalayoutMsgHandler.
  - apply frame_filterMsgHandler.
  - apply frame_attributeMsgHandler.
  - apply frame_headercontMsgHandler.
  - apply frame_symboltableMsgHandler.
  - apply frame_attributeinfoMsgHandler.
Qed.

End FrameWalker.

Lemma frame_readMessage fuel t sz fl : preserves P (readMessage cfg fuel t sz fl).
Proof.
  revert t sz fl. induction fuel as [|fuel IH]; intros t sz fl.
  - apply preserves_out_of_fuel.
  - cbn [readMessage]. apply frame_readMessage_body. exact IH.
Qed.

Lemma frame_readObjHdr fuel : preserves P (readObjHdr cfg fuel (readMessage cfg fuel)).
Proof. apply frame_readObjHdr_rec. intros t sz fl. apply frame_readMessage. Qed.

End Frame.

(** X13.  A walk reads the request and the parameters of the file, it never
    writes them: the path, the rows asked for, [metaOnly] and the four
    parameters of the resource object are after the walk what they were
    before, however the walk ends. *)
Theorem readObjHdr_keeps_request (cfg : Config) (fuel : nat) (s : Dataset) :
  let s' := (readObjHdr cfg fuel (readMessage cfg fuel) s).2 in
  datasetPath s' = datasetPath s
  /\ datasetStartRow s' = datasetStartRow s
  /\ datasetNumRows s' = datasetNumRows s
  /\ metaOnly s' = metaOnly s
  /\ offsetSize (resourceObject s') = offsetSize (resourceObject s)
  /\ lengthSize (resourceObject s') = lengthSize (resourceObject s)
  /\ baseAddress (resourceObject s') = baseAddress (resourceObject s)
  /\ rootAddress (resourceObject s') = rootAddress (resourceObject s).
Proof.
  set (P := fun x : Dataset =>
    datasetPath x = datasetPath s
    /\ datasetStartRow x = datasetStartRow s
    /\ datasetNumRows x = datasetNumRows s
    /\ metaOnly x = metaOnly s
    /\ offsetSize (resourceObject x) = offsetSize (resourceObject s)
    /\ lengthSize (resourceObject x) = lengthSize (resourceObject s)
    /\ baseAddress (resourceObject x) = baseAddress (resourceObject s)
    /\ rootAddress (resourceObject x) = rootAddress (resourceObject s)).
  apply (frame_readObjHdr P cfg); try (intros; assumption).
  - intros p n x (H1 & H2 & H3 & H4 & H5 & H6 & H7 & H8). unfold P. cbn.
    destruct (ioRequest_params (cfg_driver cfg) (resourceObject x) p n) as (-> & -> & -> & ->).
    repeat split; assumption.
  - unfold P. repeat split; reflexivity.
Qed.

(** X14.  The level of the walk counts the path components matched so far: it
    never decreases and never passes the number of components. *)
Theorem readObjHdr_level_in_path (cfg : Config) (fuel : nat) (s : Dataset) :
  0 <= datasetLevel s <= Z.of_nat (length (datasetPath s)) ->
  let s' := (readObjHdr cfg fuel (readMessage cfg fuel) s).2 in
  datasetLevel s <= datasetLevel s' <= Z.of_nat (length (datasetPath s)).
Proof.
  intros H0.
  set (P := fun x : Dataset =>
    datasetPath x = datasetPath s
    /\ datasetLevel s <= datasetLevel x <= Z.of_nat (length (datasetPath s))).
  assert (HP : P (readObjHdr cfg fuel (readMessage cfg fuel) s).2).
  { apply (frame_readObjHdr P cfg); try (intros; assumption).
    - intros c x (Hp & Hl) Hc. unfold P. cbn. split; [exact Hp|].
      apply lookup_lt_Some in Hc. rewrite Hp in Hc. lia.
    - unfold P. split; [reflexivity|lia]. }
  exact (proj2 HP).
Qed.

Lemma readObjHdr_level_in_path_witness :
  let s' := (readObjHdr (config linked_file false false) 8
               (readMessage (config linked_file false false) 8) (worker "a" 0)).2 in
  0 <= datasetLevel s' <= 1.
Proof.
  apply (readObjHdr_level_in_path (config linked_file false false) 8 (worker "a" 0)).
  split; [reflexivity | discriminate].
Defined.

(** X15.  A walk keeps the cache sound and never drops a line: whatever was
    cached before is cached after, and every line is what the driver
    returns for it. *)
Theorem readObjHdr_cache_coherent (cfg : Config) (fuel : nat) (s : Dataset) :
  cache_coherent (cfg_driver cfg) (resourceObject s) ->
  let s' := (readObjHdr cfg fuel (readMessage cfg fuel) s).2 in
  cache_coherent (cfg_driver cfg) (resourceObject s')
  /\ forall line data,
       cache (resourceObject s) !! line = Some data ->
       cache (resourceObject s') !! line = Some data.
Proof.
  intros Hc.
  set (P := fun x : Dataset =>
    cache_coherent (cfg_driver cfg) (resourceObject x)
    /\ forall line data,
         cache (resourceObject s) !! line = Some data ->
         cache (resourceObject x) !! line = Some data).
  apply (frame_readObjHdr P cfg); try (intros; assumption).
  - intros p n x (H1 & H2). unfold P. cbn. split.
    + apply ioRequest_coherent, H1.
    + intros line data H. apply ioRequest_keeps, H2, H.
  - unfold P. split; [exact Hc | auto].
Qed.

Lemma readObjHdr_cache_coherent_witness :
  let cfg := config linked_file false false in
  let s' := (readObjHdr cfg 8 (readMessage cfg 8) (worker "a" 0)).2 in
  cache_coherent (file_driver linked_file) (resourceObject s').
Proof.
  intros cfg s'.
  apply (readObjHdr_cache_coherent cfg 8 (worker "a" 0)).
  intros line data H. vm_compute in H. discriminate.
Defined.

(** X16.  What the handlers have collected only grows during a walk: dimensions
    and chunk dimensions are appended to, never reset, and a filter flag
    once set stays set. *)
Theorem readObjHdr_accumulates (cfg : Config) (fuel : nat) (s : Dataset) :
  let s' := (readObjHdr cfg fuel (readMessage cfg fuel) s).2 in
  dimensions s `prefix_of` dimensions s'
  /\ chunkDimensions s `prefix_of` chunkDimensions s'
  /\ forall f, filter_ s !! f = Some true -> filter_ s' !! f = Some true.
Proof.
  set (P := fun x : Dataset =>
    dimensions s `prefix_of` dimensions x
    /\ chunkDimensions s `prefix_of` chunkDimensions x
    /\ forall f, filter_ s !! f = Some true -> filter_ x !! f = Some true).
  apply (frame_readObjHdr P cfg); try (intros; assumption).
  - intros v x (H1 & H2 & H3). unfold P. cbn. split; [|split; assumption].
    apply prefix_app_r, H1.
  - intros v x (H1 & H2 & H3). unfold P. cbn. split; [assumption|]. split; [|assumption].
    apply prefix_app_r, H2.
  - intros f x (H1 & H2 & H3). unfold P. cbn. split; [assumption|]. split; [assumption|].
    intros g Hg. destruct (decide (f = g)) as [->|Hne].
    + apply lookup_insert_eq.
    + rewrite lookup_insert_ne by exact Hne. apply H3, Hg.
  - unfold P. split; [reflexivity|]. split; [reflexivity|]. auto.
Qed.

(** [datasetFound] stays unset on the walk of [chunked_fill_file]. *)
Lemma readObjHdr_never_finds_witness :
  let cfg := config chunked_fill_file false false in
  datasetFound (readObjHdr cfg 8 (readMessage cfg 8) (worker "d" 0)).2 = false.
Proof.
  intros cfg. apply (readObjHdr_never_finds cfg 8 (worker "d" 0)). reflexivity.
Defined.

(** ** Messages that stop the walk *)

Section Crashes.

Variable cfg : Config.
Variable s0 : Dataset.

Lemma crashes_bind {A B} (c : M A) (k : A -> M B) :
  steps (allowed cfg) s0 c -> (forall a, crashes (allowed cfg) s0 (k a)) ->
  crashes (allowed cfg) s0 (x ← c; k x).
Proof.
  intros Hc Hk s Hs. rewrite bind_run.
  destruct (Hc s Hs) as [(a & s' & -> & Hs')|(e & s' & -> & He)]; [apply Hk, Hs'|eauto].
Qed.

Lemma crashes_now {A B} (c : M A) (k : A -> M B) :
  crashes (allowed cfg) s0 c -> crashes (allowed cfg) s0 (x ← c; k x).
Proof.
  intros Hc s Hs. rewrite bind_run.
  destruct (Hc s Hs) as (e & s' & -> & He). eauto.
Qed.

Lemma steps_bind {A B} (c : M A) (k : A -> M B) :
  steps (allowed cfg) s0 c -> (forall a, steps (allowed cfg) s0 (k a)) ->
  steps (allowed cfg) s0 (x ← c; k x).
Proof.
  intros Hc Hk s Hs. rewrite bind_run.
  destruct (Hc s Hs) as [(a & s' & -> & Hs')|(e & s' & -> & He)];
    [apply Hk, Hs'|right; eauto].
Qed.

Lemma steps_ret {A} (a : A) : steps (allowed cfg) s0 (mret a).
Proof. intros s Hs. left. exists a, s. split; [reflexivity|exact Hs]. Qed.

Lemma steps_gets {A} (f : Dataset -> A) : steps (allowed cfg) s0 (gets f).
Proof. intros s Hs. left. exists (f s), s. split; [reflexivity|exact Hs]. Qed.

Lemma steps_set_pos (f : Dataset -> Z) :
  steps (allowed cfg) s0 (modify (fun s => set_pos (f s) s)).
Proof. intros s Hs. left. exists tt, (set_pos (f s) s). split; [reflexivity|exact Hs]. Qed.

Lemma steps_checked (b : bool) (msg : string) (vals : list Z) :
  steps (allowed cfg) s0 (when_ (cfg_errorChecking cfg && b) (fatal msg vals)).
Proof.
  intros s Hs. destruct (cfg_errorChecking cfg) eqn:E; [destruct b|]; cbn.
  - right. exists (FatalError msg vals), s. split; [reflexivity|]. intros _. exact E.
  - left. exists tt, s. auto.
  - left. exists tt, s. auto.
Qed.

Lemma steps_readField size : steps (allowed cfg) s0 (readField cfg size).
Proof.
  intros s Hs. rewrite readField_run. destruct (SIZE_2_FORMAT size).
  - cbv zeta. destruct (_ =? size).
    + left. eexists _, _. split; [reflexivity|exact Hs].
    + right. eexists _, _. split; [reflexivity|]. intros [=].
  - right. eexists _, _. split; [reflexivity|]. intros [=].
Qed.

Lemma steps_readArray size : steps (allowed cfg) s0 (readArray cfg size).
Proof.
  intros s Hs. rewrite readArray_run. left. eexists _, _. split; [reflexivity|exact Hs].
Qed.

Lemma steps_when (b : bool) (c : M unit) :
  steps (allowed cfg) s0 c -> steps (allowed cfg) s0 (when_ b c).
Proof. intros Hc. destruct b; [exact Hc|apply steps_ret]. Qed.

Lemma crashes_consumed (body : M unit) :
  crashes (allowed cfg) s0 body -> crashes (allowed cfg) s0 (consumed body).
Proof.
  intros Hb s Hs. unfold consumed. rewrite bind_run. cbn [gets]. rewrite bind_run.
  destruct (Hb s Hs) as (e & s' & -> & He). eauto.
Qed.

Lemma crashes_py {A} (e : py_error) : crashes (allowed cfg) s0 (@raise A (PyError e)).
Proof. intros s Hs. exists (PyError e), s. split; [reflexivity|]. intros [=]. Qed.

Lemma crashes_path_component :
  Z.of_nat (length (datasetPath s0)) <= datasetLevel s0 ->
  crashes (allowed cfg) s0 path_component.
Proof.
  intros H s (Hp & Hl). unfold path_component.
  rewrite bind_run. cbn [gets]. rewrite bind_run. cbn [gets].
  rewrite Hp, Hl. rewrite lookup_ge_None_2 by lia.
  eexists _, _. split; [reflexivity|]. intros [=].
Qed.

(** What [readMessage] makes of a handler that ends in an allowed
    exception. *)
Lemma readMessage_of_crash fuel t sz fl handler :
  msg_handler_table cfg (S fuel) (readMessage cfg fuel) t = Some handler ->
  crashes (allowed cfg) s0 (handler sz fl) ->
  stops_or_skips cfg (readMessage cfg (S fuel) t sz fl s0).1 sz.
Proof.
  intros Ht Hh. rewrite readMessage_S. unfold readMessage_body. rewrite Ht.
  unfold try_except_FatalError.
  destruct (Hh s0 (conj eq_refl eq_refl)) as (e & s' & -> & He).
  destruct e as [msg vals|e].
  - right. split; [apply He; reflexivity|reflexivity].
  - left. eauto.
Qed.

End Crashes.

Ltac crash_step :=
  first
    [ apply steps_readField
    | apply steps_readArray
    | apply steps_ret
    | apply steps_gets
    | apply steps_checked
    | apply steps_set_pos
    | apply steps_when
    | apply steps_bind; [|intros ?]
    | match goal with
      | |- steps _ _ (if ?b then _ else _) => destruct b
      end ].

(** X18.  Once every component of the path is matched, a further link message
    is never parsed to its end: the handler reaches
    [datasetPath[datasetLevel]], an [IndexError], unless a read or a check
    fails before.  [readMessage] then ends in an error of the interpreter,
    or, under error checking only, swallows the [FatalError] of a check
    and returns [msg_size]. *)
Theorem link_past_path_stops (cfg : Config) (fuel : nat) (sz fl : Z) (s : Dataset) :
  Z.of_nat (length (datasetPath s)) <= datasetLevel s ->
  stops_or_skips cfg (readMessage cfg (S fuel) LINK_MSG sz fl s).1 sz
  /\ (cfg_errorChecking cfg = false ->
      exists e, (readMessage cfg (S fuel) LINK_MSG sz fl s).1 = Raise (PyError e)).
Proof.
  intros Hlevel.
  assert (H : stops_or_skips cfg (readMessage cfg (S fuel) LINK_MSG sz fl s).1 sz).
  { apply (readMessage_of_crash cfg s fuel LINK_MSG sz fl
             (linkMsgHandler cfg (S fuel) (readMessage cfg fuel))); [reflexivity|].
    unfold linkMsgHandler. apply crashes_consumed.
    do 9 (apply crashes_bind; [solve [repeat crash_step]|intros ?]).
    apply crashes_now. apply crashes_path_component. exact Hlevel. }
  split; [exact H|].
  intros Hchk. destruct H as [H|(H & _)]; [exact H|congruence].
Qed.

Lemma link_past_path_stops_witness :
  exists e,
    (readMessage (config two_links_file false false) 1 LINK_MSG 12 0
       (set_datasetLevel 1 (worker "a" 40))).1
    = Raise (PyError e).
Proof.
  apply (proj2 (link_past_path_stops (config two_links_file false false) 0 12 0
                  (set_datasetLevel 1 (worker "a" 40)) ltac:(discriminate))).
  reflexivity.
Defined.

(** In a group that links [a] and then [b], the dataset [a] is found and
    the walk then fails on the link that follows it; the dataset [b], the
    last link of the group, is walked to the end. *)
Example two_links_first_fails :
  let cfg := config two_links_file false false in
  (readObjHdr cfg 8 (readMessage cfg 8) (worker "a" 0)).1 = Raise (PyError IndexError)
  /\ datasetLevel (readObjHdr cfg 8 (readMessage cfg 8) (worker "a" 0)).2 = 1
  /\ (readObjHdr cfg 8 (readMessage cfg 8) (worker "b" 0)).1 = Ret tt
  /\ typeSize (readObjHdr cfg 8 (readMessage cfg 8) (worker "b" 0)).2 = 4.
Proof. vm_compute. repeat split; reflexivity. Qed.

(** X19.  An attribute message is never parsed: the handler reads the name and
    then calls [datasetPath.length()], which a list does not have.
    [readMessage] ends in an error of the interpreter, or, under error
    checking only, swallows the [FatalError] of the version check and
    returns [msg_size]. *)
Theorem attribute_message_stops (cfg : Config) (fuel : nat) (sz fl : Z) (s : Dataset) :
  stops_or_skips cfg (readMessage cfg (S fuel) ATTRIBUTE_MSG sz fl s).1 sz.
Proof.
  apply (readMessage_of_crash cfg s fuel ATTRIBUTE_MSG sz fl (attributeMsgHandler cfg));
    [reflexivity|].
  unfold attributeMsgHandler, advance.
  do 9 (apply crashes_bind; [solve [repeat crash_step]|intros ?]).
  apply crashes_py.
Qed.

(** X20.  A header continuation message in a header read by [readObjHdrV0]
    (flags without [CUSTOM_V1_FLAG]) is never followed: the handler calls
    [self.readMessages], a method the class does not have. *)
Theorem header_continuation_stops (cfg : Config) (fuel : nat) (sz fl : Z) (s : Dataset) :
  Z.land fl CUSTOM_V1_FLAG = 0 ->
  stops_or_skips cfg (readMessage cfg (S fuel) HEADER_CONT_MSG sz fl s).1 sz.
Proof.
  intros Hfl.
  apply (readMessage_of_crash cfg s fuel HEADER_CONT_MSG sz fl
           (headercontMsgHandler cfg (S fuel) (readMessage cfg fuel))); [reflexivity|].
  unfold headercontMsgHandler, offset_size, length_size, truthy, advance.
  rewrite Hfl. cbn [Z.eqb negb].
  do 6 (apply crashes_bind; [solve [repeat crash_step]|intros ?]).
  apply crashes_now.
  apply crashes_bind; [|intros ?; apply crashes_py].
  destruct (cfg_errorChecking cfg) eqn:E.
  - apply steps_bind; [apply steps_readField|intros sig].
    destruct (negb (sig =? H5_OCHK_SIGNATURE_LE)); [|apply steps_ret].
    intros x Hx. right. eexists _, _. split; [reflexivity|]. intros _. exact E.
  - apply steps_set_pos.
Qed.

Lemma header_continuation_stops_witness :
  stops_or_skips (config linked_file true true)
    (readMessage (config linked_file true true) 1 HEADER_CONT_MSG 16 0 (worker "a" 12)).1 16.
Proof.
  apply (header_continuation_stops (config linked_file true true) 0 16 0 (worker "a" 12)).
  reflexivity.
Defined.

Lemma msg_handler_table_None cfg fuel rm t :
  ~ In t [0x1; 0x2; 0x3; 0x5; 0x6; 0x8; 0xB; 0xC; 0x10; 0x11; 0x15] ->
  msg_handler_table cfg fuel rm t = None.
Proof.
  intros H. unfold msg_handler_table.
  repeat match goal with
  | |- context [if ?a =? ?b then _ else _] =>
      destruct (Z.eqb_spec a b) as [->|?]; [exfalso; apply H; cbn; tauto|]
  end.
  reflexivity.
Qed.

(** X21.  A message whose type is none of the eleven of the handler table stops
    the walk: [readMessage] raises [KeyError] on the table lookup, no
    [except] catches it, and it leaves [readMessagesV0] with the cursor
    behind the prefix of that message. *)
Theorem readMessagesV0_unknown_type (cfg : Config) (fuel n : nat)
    (end_of_hdr fl t sz : Z) (s s1 : Dataset) :
  pos s < end_of_hdr ->
  readMessagesV0_prefix cfg fl s = (Ret (t, sz), s1) ->
  ~ In t [0x1; 0x2; 0x3; 0x5; 0x6; 0x8; 0xB; 0xC; 0x10; 0x11; 0x15] ->
  readMessagesV0 cfg (S n) (readMessage cfg (S fuel)) end_of_hdr fl s
  = (Raise (PyError (KeyError t)), s1).
Proof.
  intros Hpos Hprefix Ht.
  unfold readMessagesV0. rewrite bind_run. cbn [gets]. rewrite bind_run.
  cbn [readMessagesV0_loop]. rewrite bind_run. cbn [gets].
  destruct (Z.ltb_spec (pos s) end_of_hdr); [|lia].
  rewrite bind_run. unfold readMessagesV0_iter.
  rewrite bind_run, Hprefix. rewrite bind_run, readMessage_S.
  unfold readMessage_body. rewrite msg_handler_table_None by exact Ht.
  reflexivity.
Qed.

Lemma readMessagesV0_unknown_type_witness :
  let cfg := config dataspace_file false false in
  (readMessagesV0 cfg 1 (readMessage cfg 1) 28 0 (worker "x" 16)).1
  = Raise (PyError (KeyError 0)).
Proof.
  intros cfg.
  apply (f_equal fst (readMessagesV0_unknown_type cfg 0 0 28 0 0 0 (worker "x" 16)
           (readMessagesV0_prefix cfg 0 (worker "x" 16)).2
           ltac:(reflexivity) ltac:(vm_compute; reflexivity)
           ltac:(cbn; intros H; repeat destruct H as [H|H]; try discriminate H; exact H))).
Defined.

(** ** Groups stored as symbol tables *)

Lemma readField_Ret cfg size s v s' :
  readField cfg size s = (Ret v, s') ->
  pos s' = pos s + size /\ datasetFound s' = datasetFound s.
Proof.
  rewrite readField_run. intros [= _ <-]. split; reflexivity.
Qed.

Lemma for_each_raise {A} (l : list A) (e : exn) (s s' : Dataset) :
  for_each l (fun _ => raise e) s = (Ret tt, s') -> l = [] /\ s' = s.
Proof.
  destruct l as [|x l]; cbn [for_each].
  - intros [= <-]. auto.
  - rewrite bind_run. cbn. discriminate.
Qed.

(** X22.  [readSymbolTable] returns only from a node without symbols, with the
    cursor right behind the count of symbols, 8 bytes from the start: the
    first symbol of any other node ends the call with [AttributeError], so
    no link name of a symbol table is ever compared with the path. *)
Theorem readSymbolTable_only_empty (cfg : Config) (heap_address n : Z) (s s' : Dataset) :
  readSymbolTable cfg heap_address s = (Ret n, s') ->
  n = 8 /\ pos s' = pos s + 8 /\ datasetFound s' = datasetFound s.
Proof.
  unfold readSymbolTable, consumed.
  rewrite bind_run. cbn [gets]. rewrite bind_run.
  set (header := if cfg_errorChecking cfg then _ else _).
  assert (Hh : forall s1, header s = (Ret tt, s1) ->
            pos s1 = pos s + 6 /\ datasetFound s1 = datasetFound s).
  { intros s1. unfold header. destruct (cfg_errorChecking cfg).
    - rewrite bind_run.
      destruct (readField cfg 4 s) as [[sig|e|] s2] eqn:E1; try discriminate.
      apply readField_Ret in E1. rewrite bind_run.
      destruct (readField cfg 1 s2) as [[ver|e|] s3] eqn:E2; try discriminate.
      apply readField_Ret in E2. rewrite bind_run.
      destruct (negb (sig =? H5_SNOD_SIGNATURE_LE)); [cbn; discriminate|].
      cbn [when_ skip mret M_ret]. rewrite bind_run.
      destruct (negb (ver =? 1)); [cbn; discriminate|].
      cbn [when_ skip mret M_ret advance modify].
      intros [= <-]. cbn. destruct E1, E2. split; [lia|congruence].
    - cbn. intros [= <-]. split; reflexivity. }
  rewrite bind_run.
  destruct (header s) as [[[]|e|] s1] eqn:E0; try discriminate.
  destruct (Hh s1 eq_refl) as (Hp1 & Hf1). clear Hh.
  cbv beta. rewrite bind_run.
  destruct (readField cfg 2 s1) as [[num_symbols|e|] s2] eqn:E1; try discriminate.
  pose proof (readField_Ret _ _ _ _ _ E1) as (Hp2 & Hf2).
  destruct (for_each (range num_symbols) _ s2) as [[[]|e|] s3] eqn:E2; try discriminate.
  apply for_each_raise in E2. destruct E2 as (Hr & ->).
  rewrite bind_run. cbn [gets mret M_ret]. intros [= <- <-].
  split; [lia|]. split; [lia|]. congruence.
Qed.

Lemma readSymbolTable_only_empty_witness :
  let cfg := config linked_file false false in
  pos (readSymbolTable cfg 0 (worker "a" 24)).2 = 24 + 8.
Proof.
  intros cfg.
  apply (readSymbolTable_only_empty cfg 0 8 (worker "a" 24)
           (readSymbolTable cfg 0 (worker "a" 24)).2).
  vm_compute. reflexivity.
Defined.

(** ** [readDataset]: the sizes *)

Lemma row_size_loop_Ret (k start : nat) (acc : Z) (s s' : Dataset) (r : Z) :
  row_size_loop (seqZ (Z.of_nat start) (Z.of_nat k)) acc s = (Ret r, s') ->
  s' = s
  /\ r = acc * foldr Z.mul 1 (take k (drop start (dimensions s)))
  /\ (k = 0 \/ start + k <= length (dimensions s))%nat.
Proof.
  revert start acc. induction k as [|k IH]; intros start acc.
  - cbn. intros [= <- <-]. split; [reflexivity|]. split; [|auto]. rewrite take_0. simpl. lia.
  - rewrite seqZ_cons by lia. cbn [row_size_loop].
    rewrite bind_run. unfold dimension_at. rewrite bind_run. cbn [gets].
    rewrite Nat2Z.id.
    destruct (dimensions s !! start) as [v|] eqn:E; [|cbn; discriminate].
    cbn [mret M_ret].
    replace (Z.succ (Z.of_nat start)) with (Z.of_nat (S start)) by lia.
    replace (Z.pred (Z.of_nat (S k))) with (Z.of_nat k) by lia.
    intros H. apply IH in H. destruct H as (-> & -> & Hlen).
    split; [reflexivity|]. split.
    + rewrite (drop_S _ _ _ E). cbn [take foldr]. ring.
    + right. apply lookup_lt_Some in E. lia.
Qed.

Lemma first_dimension_run (n : Z) (s : Dataset) :
  ndims s = Some n ->
  forall fd s3,
    (if 0 <? n then d0 ← dimension_at 0; mret (if truthy d0 then d0 else 1) else mret 1) s
    = (Ret fd, s3) ->
    s3 = s /\ fd = first_dimension s.
Proof.
  intros Hn fd s3. unfold first_dimension. rewrite Hn.
  destruct (0 <? n); [|cbn; intros [= <- <-]; auto].
  rewrite bind_run. unfold dimension_at. rewrite bind_run. cbn [gets].
  change (Z.to_nat 0) with 0%nat.
  destruct (dimensions s !! 0%nat) as [d0|]; [|cbn; discriminate].
  cbn [mret M_ret]. unfold truthy.
  destruct (d0 =? 0); cbn; intros [= <- <-]; auto.
Qed.

(** X23.  When the sanity checks and the computation of the sizes go through,
    the type size is positive, the rank is known, the rows asked for lie
    inside the first dimension, a row is the type size times the
    dimensions after the first, and the buffer holds that many rows. *)
Theorem readDataset_sizes_checked (s s' : Dataset) (row_size buffer_size : Z) :
  readDataset_sizes s = (Ret (row_size, buffer_size), s') ->
  exists n,
    ndims s = Some n /\ 0 < typeSize s
    /\ s' = set_datasetNumRows
              (if datasetNumRows s =? ALL_ROWS then first_dimension s
               else datasetNumRows s) s
    /\ datasetStartRow s + datasetNumRows s' <= first_dimension s
    /\ row_size = typeSize s
                  * foldr Z.mul 1 (take (Z.to_nat (n - 1)) (drop 1 (dimensions s)))
    /\ buffer_size = row_size * datasetNumRows s'.
Proof.
  unfold readDataset_sizes.
  rewrite bind_run. cbn [gets]. rewrite bind_run. cbn [gets].
  rewrite bind_run. destruct (Z.leb_spec (typeSize s) 0) as [|Hts]; [cbn; discriminate|].
  cbn [when_ skip mret M_ret].
  rewrite bind_run. destruct (ndims s) as [n|] eqn:Hn; [|cbn; discriminate].
  cbn [mret M_ret]. rewrite bind_run.
  destruct (invalid_offset s) as [[invalid|e|] s1] eqn:Hinv; try discriminate.
  assert (s1 = s) as ->.
  { unfold invalid_offset, offset_size in Hinv. rewrite bind_run in Hinv. cbn [gets] in Hinv.
    destruct (INVALID_VALUE _); cbv [mret M_ret raise] in Hinv; congruence. }
  rewrite bind_run. cbn [gets]. rewrite bind_run.
  destruct (address s =? invalid); [cbn; discriminate|].
  cbn [when_ skip mret M_ret]. rewrite bind_run.
  destruct (row_size_loop (seqZ 1 (n - 1)) (typeSize s) s) as [[rs|e|] s2] eqn:Hrow;
    try discriminate.
  assert (Hrow' : s2 = s /\ rs = typeSize s
            * foldr Z.mul 1 (take (Z.to_nat (n - 1)) (drop 1 (dimensions s)))).
  { destruct (Z.le_gt_cases (n - 1) 0) as [Hle|Hgt].
    - rewrite seqZ_nil in Hrow by lia. cbn in Hrow. injection Hrow as <- <-.
      replace (Z.to_nat (n - 1)) with 0%nat by lia. rewrite take_0. simpl. split; [reflexivity|lia].
    - change 1 with (Z.of_nat 1) in Hrow at 1.
      rewrite <- (Z2Nat.id (n - 1)) in Hrow by lia.
      apply row_size_loop_Ret in Hrow. destruct Hrow as (-> & -> & _). auto. }
  destruct Hrow' as (-> & ->).
  rewrite bind_run.
  match goal with |- context [match ?c s with _ => _ end] =>
    destruct (c s) as [[fd|e|] s3] eqn:Hc; try discriminate end.
  apply (first_dimension_run n s Hn) in Hc. destruct Hc as (-> & ->).
  rewrite bind_run. cbn [gets]. rewrite bind_run. cbn [modify].
  assert (Htruthy : truthy (first_dimension s) = true).
  { unfold first_dimension, truthy. rewrite Hn.
    destruct (0 <? n); [|reflexivity].
    destruct (dimensions s !! 0%nat) as [d0|]; [|reflexivity].
    destruct (Z.eqb_spec d0 0) as [|Hd]; [reflexivity|].
    apply negb_true_iff, Z.eqb_neq, Hd. }
  rewrite Htruthy.
  set (num_rows := if datasetNumRows s =? ALL_ROWS then first_dimension s
                   else datasetNumRows s).
  rewrite bind_run. cbn [gets]. rewrite bind_run.
  change (datasetStartRow (set_datasetNumRows num_rows s)) with (datasetStartRow s).
  destruct (Z.ltb_spec (first_dimension s) (datasetStartRow s + num_rows)) as [|Hrows];
    [cbn; discriminate|].
  cbn [when_ skip mret M_ret]. intros [= <- <- <-].
  exists n. cbn [datasetNumRows set_datasetNumRows].
  repeat split; try reflexivity; assumption.
Qed.

Lemma readDataset_sizes_checked_witness :
  exists n,
    ndims chunked_with_fill = Some n /\ 0 < typeSize chunked_with_fill
    /\ set_datasetNumRows 10 chunked_with_fill
       = set_datasetNumRows
           (if datasetNumRows chunked_with_fill =? ALL_ROWS
            then first_dimension chunked_with_fill
            else datasetNumRows chunked_with_fill) chunked_with_fill
    /\ datasetStartRow chunked_with_fill
       + datasetNumRows (set_datasetNumRows 10 chunked_with_fill)
       <= first_dimension chunked_with_fill
    /\ 4 = typeSize chunked_with_fill
           * foldr Z.mul 1 (take (Z.to_nat (n - 1)) (drop 1 (dimensions chunked_with_fill)))
    /\ 40 = 4 * datasetNumRows (set_datasetNumRows 10 chunked_with_fill).
Proof.
  apply (readDataset_sizes_checked chunked_with_fill
           (set_datasetNumRows 10 chunked_with_fill) 4 40).
  vm_compute. reflexivity.
Defined.

(** X24.  No call of [readDataset] returns: whatever the file holds and
    whatever the walk has found, the call ends in an exception (or the
    walk does not end). *)
Theorem readDataset_never_returns (cfg : Config) (fuel : nat) (s s' : Dataset) :
  readDataset cfg fuel s <> (Ret tt, s').
Proof.
  unfold readDataset. rewrite bind_run.
  destruct (readObjHdr cfg fuel (readMessage cfg fuel) s) as [[[]|e|] s1];
    try discriminate.
  apply readDataset_body_never_returns.
Qed.

Lemma readDataset_never_returns_witness :
  readDataset (config chunked_fill_file false false) 8 (worker "d" 0)
  <> (Ret tt, worker "d" 0).
Proof.
  apply (readDataset_never_returns (config chunked_fill_file false false) 8 (worker "d" 0)).
Defined.

(** ** [highestBit] *)

Lemma highestBit_loop_positive (fuel : nat) (value bit : Z) :
  0 < value -> (Z.to_nat (Z.log2 value) < fuel)%nat ->
  highestBit_loop fuel value bit = Some (bit + Z.log2 value + 1).
Proof.
  revert value bit. induction fuel as [|fuel IH]; intros value bit Hv Hf; [lia|].
  cbn [highestBit_loop]. destruct (Z.eqb_spec value 0); [lia|].
  pose proof (Z.log2_nonneg value) as Hlog.
  destruct (Z.eq_dec value 1) as [->|H1].
  - change (Z.shiftr 1 1) with 0. destruct fuel; cbn; f_equal; lia.
  - assert (Hs : 0 < Z.shiftr value 1).
    { rewrite Z.shiftr_div_pow2 by lia. change (2 ^ 1) with 2.
      apply Z.div_str_pos. lia. }
    assert (Hlog1 : 1 <= Z.log2 value) by (apply Z.log2_le_pow2; simpl; lia).
    assert (Hl : Z.log2 (Z.shiftr value 1) = Z.log2 value - 1).
    { rewrite Z.log2_shiftr by lia. lia. }
    rewrite IH by lia. f_equal. lia.
Qed.

Lemma highestBit_loop_negative (fuel : nat) (value bit : Z) :
  value < 0 -> highestBit_loop fuel value bit = None.
Proof.
  revert value bit. induction fuel as [|fuel IH]; intros value bit Hv;
    cbn [highestBit_loop]; (destruct (Z.eqb_spec value 0); [lia|]); [reflexivity|].
  apply IH. apply Z.shiftr_neg. exact Hv.
Qed.

(** X25.  For a value that is not negative [highestBit] returns the index of
    its highest set bit, and 0 for the value 0: the loop ends within
    [log2 value] turns. *)
Theorem highestBit_log2 (fuel : nat) (value : Z) :
  0 <= value -> (Z.to_nat (Z.log2 value) <= fuel)%nat ->
  highestBit fuel value = Some (Z.log2 value).
Proof.
  intros Hv Hf. unfold highestBit.
  destruct (Z.le_gt_cases value 1) as [H1|H1].
  - assert (value = 0 \/ value = 1) as [-> | ->] by lia; destruct fuel; reflexivity.
  - assert (Hs : 0 < Z.shiftr value 1).
    { rewrite Z.shiftr_div_pow2 by lia. change (2 ^ 1) with 2.
      apply Z.div_str_pos. lia. }
    assert (Hlog1 : 1 <= Z.log2 value) by (apply Z.log2_le_pow2; simpl; lia).
    assert (Hl : Z.log2 (Z.shiftr value 1) = Z.log2 value - 1).
    { rewrite Z.log2_shiftr by lia. lia. }
    rewrite highestBit_loop_positive by lia. f_equal. lia.
Qed.

Lemma highestBit_log2_witness : highestBit 16 0x10000 = Some 16.
Proof.
  apply (highestBit_log2 16 0x10000); [discriminate | vm_compute; lia].
Defined.

(** X26.  On a negative value the loop of [highestBit] never ends: the
    arithmetic shift keeps the sign, so the value never becomes 0. *)
Theorem highestBit_negative_diverges (fuel : nat) (value : Z) :
  value < 0 -> highestBit fuel value = None.
Proof.
  intros Hv. unfold highestBit. apply highestBit_loop_negative.
  apply Z.shiftr_neg. exact Hv.
Qed.

Lemma highestBit_negative_diverges_witness : highestBit 1000 (-1) = None.
Proof. apply (highestBit_negative_diverges 1000 (-1)). reflexivity. Defined.

(** ** The chunk B-tree *)

Lemma ends_bind {A B} (c : M A) (k : A -> M B) :
  ends c -> (forall a, ends (k a)) -> ends (x ← c; k x).
Proof.
  intros Hc Hk s. rewrite bind_run. specialize (Hc s).
  destruct (c s) as [[a|e|] s1]; cbn [fst] in *; [apply Hk | discriminate | contradiction].
Qed.

Lemma ends_readField cfg size : ends (readField cfg size).
Proof.
  intros s. rewrite readField_run. cbn [fst].
  destruct (SIZE_2_FORMAT size); [|discriminate].
  cbv zeta. destruct (_ =? size); discriminate.
Qed.

Lemma ends_for_each {A} (l : list A) (body : A -> M unit) :
  (forall x, ends (body x)) -> ends (for_each l body).
Proof.
  intros Hb. induction l as [|x l IH]; cbn [for_each].
  - intros s. discriminate.
  - apply ends_bind; [apply Hb | intros _; exact IH].
Qed.

Create HintDb ends discriminated.
#[global] Hint Resolve ends_readField : ends.

Ltac ends_step :=
  first
    [ solve [auto 1 with ends nocore]
    | apply ends_bind; [|intros ?]
    | apply ends_for_each; intros ?
    | match goal with
      | |- ends (if ?b then _ else _) => destruct b
      | |- ends (match ?x with _ => _ end) => destruct x
      | |- ends (let '(_, _) := ?x in _) => destruct x
      end
    | intros ?; discriminate ].

Lemma ends_readBTreeNodeV1 cfg nd : ends (readBTreeNodeV1 cfg nd).
Proof.
  unfold readBTreeNodeV1, when_, skip, fatal. repeat ends_step.
Qed.

Lemma ends_readBTreeV1_header cfg : ends (readBTreeV1_header cfg).
Proof.
  unfold readBTreeV1_header, when_, skip, fatal, advance, offset_size. repeat ends_step.
Qed.

#[global] Hint Resolve ends_readBTreeNodeV1 ends_readBTreeV1_header : ends.

Lemma ends_readBTreeV1_child cfg curr_node : ends (readBTreeV1_child cfg curr_node).
Proof. unfold readBTreeV1_child, offset_size. repeat ends_step. Qed.

#[global] Hint Resolve ends_readBTreeV1_child : ends.

Lemma ends_readBTreeV1 cfg buffer buffer_offset : ends (readBTreeV1 cfg buffer buffer_offset).
Proof. unfold readBTreeV1. repeat ends_step. Qed.

(** The dictionary of a key has no entry [slice] when the loop over the
    dimensions starts. *)
Lemma key_dict_no_slice (chunk_size filter_mask : Z) :
  (<["filter_mask" := filter_mask]> (<["chunk_size" := chunk_size]> (∅ : key_dict)))
    !! "slice" = None.
Proof. reflexivity. Qed.

Lemma range_cons (n : Z) : 0 < n -> range n = 0 :: seqZ 1 (n - 1).
Proof. intros H. unfold range. rewrite seqZ_cons by exact H. reflexivity. Qed.

Lemma range_nil (n : Z) : n <= 0 -> range n = [].
Proof. intros H. unfold range. apply seqZ_nil. exact H. Qed.

(** With at least one dimension the key reader stops at [node['slice']],
    right behind the chunk size and the filter mask. *)
Lemma readBTreeNodeV1_ranked cfg n s chunk_size s1 filter_mask s2 :
  0 < n ->
  readField cfg 4 s = (Ret chunk_size, s1) ->
  readField cfg 4 s1 = (Ret filter_mask, s2) ->
  readBTreeNodeV1 cfg (Some n) s = (Raise (PyError (KeyError_str "slice")), s2).
Proof.
  intros Hn H1 H2. unfold readBTreeNodeV1. cbv zeta.
  rewrite (bind_ret _ _ _ _ _ H1), (bind_ret _ _ _ _ _ H2).
  rewrite bind_run. cbn [mret M_ret].
  rewrite range_cons by exact Hn. cbn [for_each].
  rewrite key_dict_no_slice. reflexivity.
Qed.

(** With at least one dimension it returns no key at all. *)
Lemma readBTreeNodeV1_ranked_raises cfg n s :
  0 < n -> exists e s', readBTreeNodeV1 cfg (Some n) s = (Raise e, s').
Proof.
  intros Hn. unfold readBTreeNodeV1. cbv zeta.
  rewrite bind_run. destruct (readField cfg 4 s) as [[c|e|] s1] eqn:E1.
  - rewrite bind_run. destruct (readField cfg 4 s1) as [[f|e|] s2] eqn:E2.
    + rewrite bind_run. cbn [mret M_ret].
      rewrite range_cons by exact Hn. cbn [for_each].
      rewrite key_dict_no_slice. eauto.
    + eauto.
    + exfalso. apply (ends_readField cfg 4 s1). rewrite E2. reflexivity.
  - eauto.
  - exfalso. apply (ends_readField cfg 4 s). rewrite E1. reflexivity.
Qed.

(** A key that is returned belongs to a dataset without dimensions: it
    holds the chunk size, the filter mask and the row key 0, and no chunk
    origin. *)
Lemma readBTreeNodeV1_Ret cfg nd s key s' :
  readBTreeNodeV1 cfg nd s = (Ret key, s') ->
  (exists n, nd = Some n /\ n <= 0)
  /\ (exists chunk_size filter_mask,
        key = <["row_key" := 0]> (<["filter_mask" := filter_mask]>
                (<["chunk_size" := chunk_size]> ∅)))
  /\ key !! "slice" = None
  /\ pos s' = pos s + 16.
Proof.
  unfold readBTreeNodeV1. cbv zeta.
  rewrite bind_run. destruct (readField cfg 4 s) as [[c|e|] s1] eqn:E1; try discriminate.
  rewrite bind_run. destruct (readField cfg 4 s1) as [[f|e|] s2] eqn:E2; try discriminate.
  rewrite bind_run. destruct nd as [n|]; [|discriminate]. cbn [mret M_ret].
  destruct (Z.ltb_spec 0 n) as [Hn|Hn].
  - rewrite range_cons by exact Hn. cbn [for_each].
    rewrite key_dict_no_slice. discriminate.
  - rewrite range_nil by exact Hn. cbn [for_each].
    rewrite bind_run, skip_run.
    rewrite bind_run. destruct (readField cfg 8 s2) as [[z|e|] s3] eqn:E3; try discriminate.
    rewrite bind_run. cbn [gets]. rewrite bind_run.
    match goal with
    | |- context [match ?c s3 with _ => _ end] =>
        destruct (c s3) as [[[]|e|] s4] eqn:E4; try discriminate
    end.
    intros [= <- <-].
    assert (s4 = s3) as ->.
    { destruct (cfg_errorChecking cfg); [|rewrite when_false, skip_run in E4; congruence].
      rewrite when_true in E4. destruct (typeSize s3 =? 0); [discriminate|].
      destruct (negb _); [discriminate|].
      rewrite when_false, skip_run in E4. congruence. }
    apply readField_Ret in E1, E2, E3.
    split; [exists n; split; [reflexivity | exact Hn]|].
    split; [eauto|]. split.
    + reflexivity.
    + lia.
Qed.

(** A turn of the loop over the children never reaches its end. *)
Lemma readBTreeV1_child_raises cfg curr_node s :
  exists e s', readBTreeV1_child cfg curr_node s = (Raise e, s').
Proof.
  pose proof (ends_readBTreeV1_child cfg curr_node s) as He.
  destruct (readBTreeV1_child cfg curr_node s) as [[[]|e|] s'] eqn:E; [|eauto|contradiction].
  exfalso. clear He. revert E. unfold readBTreeV1_child.
  rewrite bind_run. unfold offset_size. cbn [gets]. run_step.
  rewrite bind_run. cbn [gets]. run_step.
Qed.

Lemma readBTreeV1_header_ndims cfg s r s1 :
  readBTreeV1_header cfg s = (r, s1) -> ndims s1 = ndims s.
Proof.
  intros H. change s1 with (r, s1).2. rewrite <- H.
  assert (Hp : preserves (fun s' => ndims s' = ndims s) (readBTreeV1_header cfg)).
  { unfold readBTreeV1_header, when_, skip, fatal, advance, offset_size.
    repeat first
      [ match goal with
        | |- preserves _ (readField _ _) =>
            intros s0 H0; rewrite readField_run; exact H0
        | |- preserves _ (if ?b then _ else _) => destruct b
        end
      | apply preserves_bind; [|intros ?]
      | apply preserves_ret
      | apply preserves_raise
      | apply preserves_gets
      | apply preserves_modify; intros ? H0; exact H0 ]. }
  apply Hp. reflexivity.
Qed.

(** C6.  [readBTreeV1] examines no child.  Behind the header of a node, the
    first key is read by [readBTreeNodeV1]: for a dataset with at least
    one dimension the call ends in [KeyError] ('slice') right behind the
    chunk size and the filter mask of that key, whatever keys the node
    holds and whatever rows are requested; and whenever the node has an
    entry the call of [readBTreeV1] ends in an exception, so no child is
    tested for inclusion, descended into or fetched. *)
Theorem readBTreeV1_examines_no_child cfg buffer buffer_offset s
    node_level entries_used s1 :
  readBTreeV1_header cfg s = (Ret (node_level, entries_used), s1) ->
  (forall n chunk_size s2 filter_mask s3,
      ndims s = Some n -> 0 < n ->
      readField cfg 4 s1 = (Ret chunk_size, s2) ->
      readField cfg 4 s2 = (Ret filter_mask, s3) ->
      readBTreeV1 cfg buffer buffer_offset s
      = (Raise (PyError (KeyError_str "slice")), s3))
  /\ (0 < entries_used ->
      exists e s', readBTreeV1 cfg buffer buffer_offset s = (Raise e, s')).
Proof.
  intros Hh. pose proof (readBTreeV1_header_ndims _ _ _ _ Hh) as Hnd.
  assert (Hrun : readBTreeV1 cfg buffer buffer_offset s
                 = (curr_node ← readBTreeNodeV1 cfg (ndims s1);
                    for_each (range entries_used)
                      (fun _ => readBTreeV1_child cfg curr_node)) s1).
  { unfold readBTreeV1. do 3 (rewrite bind_run; cbn [gets]).
    rewrite (bind_ret _ _ _ _ _ Hh). rewrite bind_run. cbn [gets]. reflexivity. }
  split.
  - intros n chunk_size s2 filter_mask s3 Hn Hpos H1 H2.
    rewrite Hrun, Hnd, Hn.
    apply bind_raise. eapply readBTreeNodeV1_ranked; eassumption.
  - intros He. rewrite Hrun. rewrite bind_run.
    pose proof (ends_readBTreeNodeV1 cfg (ndims s1) s1) as Hends.
    destruct (readBTreeNodeV1 cfg (ndims s1) s1) as [[key|e|] s2]; [|eauto|contradiction].
    rewrite range_cons by exact He. cbn [for_each]. rewrite bind_run.
    destruct (readBTreeV1_child_raises cfg key s2) as (e & s' & ->). eauto.
Qed.

Lemma readBTreeV1_examines_no_child_witness :
  let cfg := config btree_leaf_file true true in
  (readBTreeV1 cfg (replicate 40 0) 0 chunked_rows_0_9).1
  = Raise (PyError (KeyError_str "slice"))
  /\ pos (readBTreeV1 cfg (replicate 40 0) 0 chunked_rows_0_9).2 = 32.
Proof.
  intros cfg.
  pose (s1 := (readBTreeV1_header cfg chunked_rows_0_9).2).
  pose (s2 := (readField cfg 4 s1).2).
  pose (s3 := (readField cfg 4 s2).2).
  rewrite (proj1 (readBTreeV1_examines_no_child cfg (replicate 40 0) 0 chunked_rows_0_9
                    0 1 s1 ltac:(vm_compute; reflexivity))
             1 40 s2 0 s3 eq_refl eq_refl
             ltac:(vm_compute; reflexivity) ltac:(vm_compute; reflexivity)).
  split; reflexivity.
Defined.

(** Through [readDataset] the same read stops one step earlier, at the
    call of [readBTreeV1] with three arguments. *)
Example readDataset_chunked_stops_at_call :
  (readDataset_body (config btree_leaf_file true true) chunked_rows_0_9).1
  = Raise (PyError (TypeError "readBTreeV1")).
Proof. vm_compute. reflexivity. Qed.

(** The same node read for a dataset without dimensions: both keys of the
    entry are read, and the turn ends at [curr_node.row_key]. *)
Example readBTreeV1_rank_0 :
  let cfg := config btree_leaf_file true true in
  let r := readBTreeV1 cfg (replicate 40 0) 0 (set_ndims (Some 0) chunked_rows_0_9) in
  r.1 = Raise (PyError (AttributeError "row_key")) /\ pos r.2 = 64.
Proof. vm_compute. split; reflexivity. Qed.


